(** * Receipt extraction pipeline: a shallow embedding and its properties

    The development follows the two receipt processors of the repository:
    the HTTP one ([src/server/receipt-processor.ts], module [Server]) and
    the desktop one (the main-process [receipt-processor.ts], module
    [Main]), together with the language-model adapter
    ([src/main/ollama-service.ts], modules [Ollama] and [Health]), the
    vendor detection of the HTTP processor (module [Vendors]), the
    category tables of both processors ([src/server/database.ts], modules
    [Categories], [ServerCategories] and [DesktopCategories]) and the
    validation helpers of the routes and of the IPC handlers (module
    [Routes]).

    Conventions of the embedding.
    - A JavaScript string is a [string]; its characters are read as code
      units below 256.
    - A JavaScript number is a [num]: [NaN], the two infinities, or an exact
      rational kept in lowest terms.  Arithmetic on finite values is exact:
      the quantities the code compares (amounts with two decimals, ratios
      of counts against 0.3 and 0.6, sums of tenths) are separated from
      their thresholds by far more than a binary64 rounding error.
    - Regular expressions are values of [Regex.re], run by a backtracking
      matcher that follows the ECMAScript priority order (greedy
      quantifiers, ordered alternation, leftmost match).
    - Collaborators that live outside the repository (the SQLite handle,
      the OCR engine, the PDF rasterizer, [Date], [JSON.parse], the
      language model) are inputs of the functions that call them. *)

From Stdlib Require Import ZArith QArith Qround.
From Stdlib Require Import List Bool Ascii String Lia.
Import ListNotations.

Set Implicit Arguments.
Local Open Scope string_scope.

(** ** JavaScript strings *)

Module JS.

Definition code (c : ascii) : nat := nat_of_ascii c.

Definition between (lo hi : nat) (c : ascii) : bool :=
  (lo <=? code c)%nat && (code c <=? hi)%nat.

Definition is_digit : ascii -> bool := between 48 57.
Definition is_upper : ascii -> bool := between 65 90.
Definition is_lower : ascii -> bool := between 97 122.
Definition is_alpha (c : ascii) : bool := is_upper c || is_lower c.
Definition is_alnum (c : ascii) : bool := is_alpha c || is_digit c.

(** The class [\s] restricted to code units below 256: TAB, LF, VT, FF, CR,
    SPACE and NO-BREAK SPACE.  [String.prototype.trim] strips the same set. *)
Definition is_space (c : ascii) : bool :=
  between 9 13 c || (code c =? 32)%nat || (code c =? 160)%nat.

Definition chr (c : ascii) : ascii -> bool := fun d => Ascii.eqb c d.

(** [toLowerCase] on one code unit (A-Z and the Latin-1 capitals). *)
Definition lower_char (c : ascii) : ascii :=
  if is_upper c || (between 192 222 c && negb (code c =? 215)%nat)
  then ascii_of_nat (code c + 32)
  else c.

(** Equality of characters under the [i] flag. *)
Definition chr_i (c : ascii) : ascii -> bool :=
  fun d => Ascii.eqb (lower_char c) (lower_char d).

Fixpoint map_str (f : ascii -> ascii) (s : string) : string :=
  match s with
  | EmptyString => EmptyString
  | String c s' => String (f c) (map_str f s')
  end.

Definition toLowerCase : string -> string := map_str lower_char.

Fixpoint forall_str (p : ascii -> bool) (s : string) : bool :=
  match s with
  | EmptyString => true
  | String c s' => p c && forall_str p s'
  end.

Fixpoint count_str (p : ascii -> bool) (s : string) : nat :=
  match s with
  | EmptyString => 0
  | String c s' => (if p c then 1 else 0) + count_str p s'
  end.

Fixpoint filter_str (p : ascii -> bool) (s : string) : string :=
  match s with
  | EmptyString => EmptyString
  | String c s' => if p c then String c (filter_str p s') else filter_str p s'
  end.

Definition is_empty (s : string) : bool :=
  match s with EmptyString => true | _ => false end.

Fixpoint trimStart (s : string) : string :=
  match s with
  | EmptyString => EmptyString
  | String c s' => if is_space c then trimStart s' else s
  end.

Fixpoint trimEnd (s : string) : string :=
  match s with
  | EmptyString => EmptyString
  | String c s' =>
      let t := trimEnd s' in
      if is_space c && is_empty t then EmptyString else String c t
  end.

Definition trim (s : string) : string := trimEnd (trimStart s).

(** [s.split(sep)] for a one-character separator. *)
Fixpoint split_chr (sep : ascii) (s : string) : list string :=
  match s with
  | EmptyString => [EmptyString]
  | String c s' =>
      if Ascii.eqb c sep then EmptyString :: split_chr sep s'
      else match split_chr sep s' with
           | h :: t => String c h :: t
           | [] => [String c EmptyString]
           end
  end.

Definition newline : ascii := ascii_of_nat 10.

(** [s.split(/\s+/)]: the pieces between maximal runs of white space,
    including the empty pieces at either end. *)
Fixpoint split_ws_from (after_space : bool) (s : string) : list string :=
  match s with
  | EmptyString => [EmptyString]
  | String c s' =>
      if is_space c
      then if after_space then split_ws_from true s'
           else EmptyString :: split_ws_from true s'
      else match split_ws_from false s' with
           | h :: t => String c h :: t
           | [] => [String c EmptyString]
           end
  end.

Definition split_ws : string -> list string := split_ws_from false.

Fixpoint includes (s pat : string) : bool :=
  String.prefix pat s ||
  match s with
  | EmptyString => false
  | String _ s' => includes s' pat
  end.

(** Truthiness of a string. *)
Definition truthy_str (s : string) : bool := negb (is_empty s).

End JS.

(** ** JavaScript numbers *)

Module Num.

(** A finite number is a rational; every operation returns it in lowest
    terms, so that equal results are equal terms. *)
Inductive num : Type :=
| NaN
| PInf
| NInf
| Fin (q : Q).

Definition of_Q (q : Q) : num := Fin (Qred q).
Definition of_Z (z : Z) : num := of_Q (inject_Z z).
Definition of_nat (n : nat) : num := of_Z (Z.of_nat n).

(** [dec n d] is the decimal literal n/d. *)
Definition dec (n : Z) (d : positive) : num := of_Q (n # d).

Definition Q_ltb (x y : Q) : bool :=
  match (x ?= y)%Q with Lt => true | _ => false end.
Definition Q_leb (x y : Q) : bool :=
  match (x ?= y)%Q with Gt => false | _ => true end.

(** [a < b]; every comparison with [NaN] is false. *)
Definition ltb (a b : num) : bool :=
  match a, b with
  | NaN, _ | _, NaN => false
  | _, NInf => false
  | NInf, _ => true
  | PInf, _ => false
  | Fin _, PInf => true
  | Fin x, Fin y => Q_ltb x y
  end.

(** [a <= b]. *)
Definition leb (a b : num) : bool :=
  match a, b with
  | NaN, _ | _, NaN => false
  | NInf, _ => true
  | _, PInf => true
  | _, NInf => false
  | PInf, _ => false
  | Fin x, Fin y => Q_leb x y
  end.

Definition gtb (a b : num) : bool := ltb b a.
Definition geb (a b : num) : bool := leb b a.

Definition isNaN (a : num) : bool :=
  match a with NaN => true | _ => false end.

Definition is_zero (a : num) : bool :=
  match a with Fin q => Qeq_bool q 0 | _ => false end.

(** Truthiness of a number: false for 0 and [NaN]. *)
Definition truthy (a : num) : bool := negb (isNaN a || is_zero a).

Definition sign_neg (q : Q) : bool := Q_ltb q 0.

Definition inf_of (neg : bool) : num := if neg then NInf else PInf.

Definition add (a b : num) : num :=
  match a, b with
  | NaN, _ | _, NaN => NaN
  | PInf, NInf | NInf, PInf => NaN
  | PInf, _ | _, PInf => PInf
  | NInf, _ | _, NInf => NInf
  | Fin x, Fin y => of_Q (x + y)
  end.

Definition mul (a b : num) : num :=
  match a, b with
  | NaN, _ | _, NaN => NaN
  | Fin x, Fin y => of_Q (x * y)
  | Fin x, PInf | PInf, Fin x =>
      if Qeq_bool x 0 then NaN else inf_of (sign_neg x)
  | Fin x, NInf | NInf, Fin x =>
      if Qeq_bool x 0 then NaN else inf_of (negb (sign_neg x))
  | PInf, PInf | NInf, NInf => PInf
  | PInf, NInf | NInf, PInf => NInf
  end.

(** Division; a zero divisor is taken as +0, the only zero the callers
    produce (a length or a literal). *)
Definition div (a b : num) : num :=
  match a, b with
  | NaN, _ | _, NaN => NaN
  | Fin x, Fin y =>
      if Qeq_bool y 0
      then if Qeq_bool x 0 then NaN else inf_of (sign_neg x)
      else of_Q (x / y)
  | Fin _, _ => of_Q 0
  | PInf, Fin y => inf_of (sign_neg y)
  | NInf, Fin y => inf_of (negb (sign_neg y))
  | _, _ => NaN
  end.

(** [Math.round]: the nearest integer, ties towards +infinity. *)
Definition round (a : num) : num :=
  match a with
  | Fin x => of_Z (Qfloor (x + (1 # 2)))
  | _ => a
  end.

End Num.

Local Close Scope Q_scope.

(** ** Regular expressions

    The fragment of ECMAScript regular expressions the pipeline uses, with
    one capture group.  [^] is rendered by running a pattern at the start
    of the subject ([exec]) instead of searching for it ([search]). *)

Module Regex.
Import JS.

Inductive re : Type :=
| Cls (p : ascii -> bool)                 (* one character of a class *)
| Eps
| Seq (a b : re)
| Alt (a b : re)                          (* a|b, left branch first *)
| Rep (lo : nat) (hi : option nat) (a : re)  (* greedy a{lo,hi}; None is unbounded *)
| Grp (i : nat) (a : re)                  (* the i-th capture group *)
| Eol.                                    (* $ *)

(** A matcher state: the text still to read, the capture groups being
    read (innermost first) and the captures completed. *)
Record mstate : Type :=
  { rest : string;
    opened : list (nat * string);
    closed : list (nat * string) }.

Definition push (c : ascii) (o : list (nat * string)) : list (nat * string) :=
  map (fun g => (fst g, snd g ++ String c EmptyString)) o.

Definition open_cap (i : nat) (st : mstate) : mstate :=
  {| rest := rest st;
     opened := (i, EmptyString) :: opened st;
     closed := closed st |}.

Definition close_cap (st : mstate) : mstate :=
  match opened st with
  | g :: o =>
      {| rest := rest st;
         opened := o;
         closed := g :: filter (fun h => negb (fst h =? fst g)%nat) (closed st) |}
  | [] => st
  end.

Section Run.
Variable A : Type.

Definition cont : Type := mstate -> option A.

(** The repeat matcher: try one more iteration first, then the
    continuation; an iteration that consumes nothing is refused once the
    lower bound is met.  [fuel] bounds the number of iterations. *)
Fixpoint rep_loop (step : mstate -> cont -> option A)
         (fuel lo : nat) (hi : option nat) (st : mstate) (k : cont)
         {struct fuel} : option A :=
  match hi with
  | Some 0 => k st
  | _ =>
      match fuel with
      | 0 => if (lo =? 0)%nat then k st else None
      | S fuel' =>
          let d := fun st' =>
            if (lo =? 0)%nat && (length (rest st') =? length (rest st))%nat
            then None
            else rep_loop step fuel' (pred lo) (option_map pred hi) st' k in
          if (lo =? 0)%nat
          then match step st d with Some x => Some x | None => k st end
          else step st d
      end
  end.

Fixpoint run (r : re) (st : mstate) (k : cont) {struct r} : option A :=
  match r with
  | Cls p =>
      match rest st with
      | String c s =>
          if p c
          then k {| rest := s; opened := push c (opened st);
                    closed := closed st |}
          else None
      | EmptyString => None
      end
  | Eps => k st
  | Seq a b => run a st (fun st' => run b st' k)
  | Alt a b =>
      match run a st k with
      | Some x => Some x
      | None => run b st k
      end
  | Rep lo hi a => rep_loop (run a) (lo + length (rest st)) lo hi st k
  | Grp i a => run a (open_cap i st) (fun st' => k (close_cap st'))
  | Eol =>
      match rest st with
      | EmptyString => k st
      | _ => None
      end
  end.
End Run.

Definition start (s : string) : mstate :=
  {| rest := s; opened := []; closed := [] |}.

(** The pattern matched at the very start of [s]. *)
Definition exec (r : re) (s : string) : option mstate :=
  run r (start s) (@Some mstate).

(** The leftmost match of the pattern in [s]. *)
Fixpoint search (r : re) (s : string) : option mstate :=
  match exec r s with
  | Some st => Some st
  | None =>
      match s with
      | String _ s' => search r s'
      | EmptyString => None
      end
  end.

Definition is_some {X : Type} (o : option X) : bool :=
  match o with Some _ => true | None => false end.

(** [r.test(s)] for a pattern that starts with [^], and for one that
    does not. *)
Definition test_start (r : re) (s : string) : bool := is_some (exec r s).
Definition test (r : re) (s : string) : bool := is_some (search r s).

(** The text of the i-th capture group of a match. *)
Fixpoint lookup (i : nat) (l : list (nat * string)) : option string :=
  match l with
  | [] => None
  | g :: l' => if (fst g =? i)%nat then Some (snd g) else lookup i l'
  end.

Definition group (i : nat) (st : mstate) : option string :=
  lookup i (closed st).

Definition group1 : mstate -> option string := group 1.

(** [s.match(r)[1]] for a pattern without the [g] flag. *)
Definition match1 (r : re) (s : string) : option string :=
  match search r s with
  | Some st => group1 st
  | None => None
  end.

Fixpoint drop (n : nat) (s : string) : string :=
  match n, s with
  | S n', String _ s' => drop n' s'
  | _, _ => s
  end.

(** [s.matchAll(r)] for a global pattern: the capture of every match,
    left to right; after an empty match the scan advances by one code
    unit. *)
Fixpoint matchAll_from (fuel : nat) (r : re) (s : string) : list string :=
  match fuel with
  | 0 => []
  | S fuel' =>
      match exec r s with
      | Some st =>
          let g := match group1 st with Some g => g | None => EmptyString end in
          if (length (rest st) <? length s)%nat
          then g :: matchAll_from fuel' r (rest st)
          else g :: match s with
                    | String _ s' => matchAll_from fuel' r s'
                    | EmptyString => []
                    end
      | None =>
          match s with
          | String _ s' => matchAll_from fuel' r s'
          | EmptyString => []
          end
      end
  end.

Definition matchAll (r : re) (s : string) : list string :=
  matchAll_from (S (length s)) r s.

(** Pattern builders. *)
Fixpoint lit (s : string) : re :=
  match s with
  | EmptyString => Eps
  | String c EmptyString => Cls (chr c)
  | String c s' => Seq (Cls (chr c)) (lit s')
  end.

Fixpoint lit_i (s : string) : re :=
  match s with
  | EmptyString => Eps
  | String c EmptyString => Cls (chr_i c)
  | String c s' => Seq (Cls (chr_i c)) (lit_i s')
  end.

Fixpoint seqs (l : list re) : re :=
  match l with
  | [] => Eps
  | [a] => a
  | a :: l' => Seq a (seqs l')
  end.

Fixpoint alts (l : list re) : re :=
  match l with
  | [] => Cls (fun _ => false)
  | [a] => a
  | a :: l' => Alt a (alts l')
  end.

Definition star (a : re) : re := Rep 0 None a.
Definition plus (a : re) : re := Rep 1 None a.
Definition opt (a : re) : re := Rep 0 (Some 1) a.
Definition times (lo hi : nat) (a : re) : re := Rep lo (Some hi) a.
Definition exactly (n : nat) (a : re) : re := Rep n (Some n) a.

Definition digit : re := Cls is_digit.
Definition space : re := Cls is_space.

End Regex.

(** ** The OCR quality gate ([src/server/receipt-processor.ts]) *)

Module Gate.
Import JS Regex.

Record quality : Type := { score : Z; issues : list string }.

(** The class [[a-zA-Z0-9$.,:/\-]]. *)
Definition word_char (c : ascii) : bool :=
  is_alnum c || chr "$" c || chr "." c || chr "," c || chr ":" c
  || chr "/" c || chr "-" c.

(** The class [[^a-zA-Z0-9\s$.,:/\-]]. *)
Definition special_char (c : ascii) : bool :=
  negb (word_char c || is_space c).

(** [/^[a-zA-Z0-9$.,:/\-]+$/] *)
Definition validWordRegex : re := seqs [plus (Cls word_char); Eol].

Definition penalize (issue : string) (points : Z) (q : quality) : quality :=
  {| score := score q - points; issues := issues q ++ [issue] |}.

Definition nonempty (s : string) : bool := (0 <? String.length s)%nat.
Definition nonblank (s : string) : bool := (0 <? String.length (trim s))%nat.

Definition specialCharRatio (text : string) : Num.num :=
  Num.div (Num.of_nat (count_str special_char text))
          (Num.of_nat (String.length text)).

Definition words (text : string) : list string :=
  filter nonempty (split_ws text).

Definition validWords (text : string) : list string :=
  filter (test_start validWordRegex) (words text).

Definition wordRatio (text : string) : Num.num :=
  Num.div (Num.of_nat (List.length (validWords text)))
          (Num.of_nat (List.length (words text))).

Definition lines (text : string) : list string :=
  filter nonblank (split_chr newline text).

Definition validateOCRQuality (text : string) : quality :=
  let q := {| score := 10; issues := [] |} in
  let q := if (String.length text <? 20)%nat
           then penalize "Text too short" 3 q else q in
  let q := if Num.gtb (specialCharRatio text) (Num.dec 3 10)
           then penalize "Too many special characters" 4 q else q in
  let q := if Num.ltb (wordRatio text) (Num.dec 6 10)
           then penalize "Low valid word ratio" 2 q else q in
  let q := if (List.length (lines text) <? 3)%nat
           then penalize "Too few lines detected" 1 q else q in
  {| score := Z.max 0 (score q); issues := issues q |}.

(** The OCR step of [processReceipt] for an image: [ocr retryMode] is
    [performEnhancedOCR], [None] when it throws.  The result carries the
    text kept and the calls made, in order. *)
Definition ocrWithRetry (ocr : bool -> option string)
  : option string * list bool :=
  match ocr false with
  | None => (None, [false])
  | Some ocrText =>
      let ocrQuality := validateOCRQuality ocrText in
      if (score ocrQuality <? 5)%Z
      then match ocr true with
           | None => (None, [false; true])
           | Some retryText =>
               if (score ocrQuality <? score (validateOCRQuality retryText))%Z
               then (Some retryText, [false; true])
               else (Some ocrText, [false; true])
           end
      else (Some ocrText, [false])
  end.

End Gate.

(** ** [parseFloat] *)

Module Parse.
Import JS.

(** The longest prefix of [s] made of characters of class [p], and what
    follows it. *)
Fixpoint span (p : ascii -> bool) (s : string) : string * string :=
  match s with
  | String c s' =>
      if p c then let '(a, b) := span p s' in (String c a, b)
      else (EmptyString, s)
  | EmptyString => (EmptyString, EmptyString)
  end.

Definition digit_val (c : ascii) : Z := Z.of_nat (code c - 48).

Fixpoint digits_val_from (acc : Z) (s : string) : Z :=
  match s with
  | String c s' => digits_val_from (10 * acc + digit_val c) s'
  | EmptyString => acc
  end.

(** The value of a string of decimal digits. *)
Definition digits_val : string -> Z := digits_val_from 0.

Definition pow10 (n : nat) : Z := 10 ^ Z.of_nat n.

(** 10 to the power [e], as a rational. *)
Definition scale10 (e : Z) : Q :=
  match e with
  | Z0 => 1
  | Zpos p => inject_Z (10 ^ Zpos p)
  | Zneg p => 1 # (10 ^ p)
  end%Q.

(** An exponent part [e[+-]ddd] at the head of [s], if there is one,
    and what follows it. *)
Definition exponent (s : string) : Z * string :=
  match s with
  | String e s1 =>
      if chr_i "e" e
      then let '(neg, s2) :=
             match s1 with
             | String sg s2 =>
                 if chr "-" sg then (true, s2)
                 else if chr "+" sg then (false, s2) else (false, s1)
             | EmptyString => (false, s1)
             end in
           let '(ds, s3) := span is_digit s2 in
           if is_empty ds then (0%Z, s)
           else (if neg then (- digits_val ds)%Z else digits_val ds, s3)
      else (0%Z, s)
  | EmptyString => (0%Z, s)
  end.

(** The longest prefix of [s] that reads as a signed decimal literal:
    its value and what follows it. *)
Definition decimalLiteral (s : string) : option (Num.num * string) :=
  let '(neg, s) :=
    match s with
    | String sg s' =>
        if chr "-" sg then (true, s')
        else if chr "+" sg then (false, s') else (false, s)
    | EmptyString => (false, s)
    end in
  if String.prefix "Infinity" s then Some (Num.inf_of neg, Regex.drop 8 s)
  else
    let '(ip, s1) := span is_digit s in
    let '(fp, s2) :=
      match s1 with
      | String dot s1' =>
          if chr "." dot then span is_digit s1' else (EmptyString, s1)
      | EmptyString => (EmptyString, s1)
      end in
    if is_empty ip && is_empty fp then None
    else
      let k := String.length fp in
      let mant := (digits_val ip * pow10 k + digits_val fp)%Z in
      let '(e, s3) := exponent s2 in
      let q := (Qmake mant (Z.to_pos (pow10 k)) * scale10 e)%Q in
      Some (Num.of_Q (if neg then (- q)%Q else q), s3).

(** [parseFloat s]: leading white space is skipped, trailing text is
    ignored; [NaN] when no literal starts the string. *)
Definition parseFloat (s : string) : Num.num :=
  match decimalLiteral (trimStart s) with
  | Some (n, _) => n
  | None => Num.NaN
  end.

Definition hex_val (c : ascii) : option Z :=
  if is_digit c then Some (digit_val c)
  else if between 97 102 (lower_char c) then Some (Z.of_nat (code (lower_char c) - 87))
  else None.

Fixpoint radix_val (radix acc : Z) (s : string) : option Z :=
  match s with
  | EmptyString => Some acc
  | String c s' =>
      match hex_val c with
      | Some d => if (d <? radix)%Z then radix_val radix (radix * acc + d) s' else None
      | None => None
      end
  end.

(** [Number(s)]: the whole string, white space apart, must be a numeric
    literal; the empty string is 0. *)
Definition toNumber (s : string) : Num.num :=
  let s := trim s in
  let prefixed (radix : Z) (s' : string) :=
    if is_empty s' then Num.NaN
    else match radix_val radix 0 s' with
         | Some z => Num.of_Z z
         | None => Num.NaN
         end in
  match s with
  | EmptyString => Num.of_Z 0
  | String z (String x s') =>
      if chr "0" z && chr_i "x" x then prefixed 16%Z s'
      else if chr "0" z && chr_i "o" x then prefixed 8%Z s'
      else if chr "0" z && chr_i "b" x then prefixed 2%Z s'
      else match decimalLiteral s with
           | Some (n, EmptyString) => n
           | _ => Num.NaN
           end
  | _ =>
      match decimalLiteral s with
      | Some (n, EmptyString) => n
      | _ => Num.NaN
      end
  end.

End Parse.

(** ** Printing integers *)

Module Show.

Definition digit_char (d : Z) : ascii := ascii_of_nat (48 + Z.to_nat d).

Fixpoint digits_from (fuel : nat) (z : Z) (acc : string) : string :=
  let acc' := String (digit_char (z mod 10)) acc in
  match fuel with
  | O => acc'
  | S fuel' => if (z <? 10)%Z then acc' else digits_from fuel' (z / 10) acc'
  end.

(** The decimal digits of a natural number, without leading zeros. *)
Definition digits (z : Z) : string :=
  digits_from (Z.to_nat (Z.log2 z)) z EmptyString.

(** [String(z)] for an integer. *)
Definition show (z : Z) : string :=
  if (z <? 0)%Z then String "-" (digits (- z)) else digits z.

Fixpoint zeros (n : nat) : string :=
  match n with
  | O => EmptyString
  | S n' => String "0" (zeros n')
  end.

(** [s.padStart(n, '0')] *)
Definition padStart0 (n : nat) (s : string) : string :=
  zeros (n - String.length s) ++ s.

End Show.

(** ** Values and the extracted-fields object *)

Module Data.

(** A computation that returns or throws an error with a message. *)
Inductive thrown (X : Type) : Type :=
| Returns (x : X)
| Throws (message : string).
Arguments Returns {X} x.
Arguments Throws {X} message.

(** A field that holds text ([vendor], [date], [rawText]): a string,
    [null], or not set. *)
Inductive text : Type :=
| NoText          (* undefined *)
| NullText        (* null *)
| Str (s : string).

(** The [amount] field: a number, a string still to be coerced, [null],
    or not set. *)
Inductive value : Type :=
| Undefined
| Null
| VNum (n : Num.num)
| VStr (s : string).

Definition truthyText (t : text) : bool :=
  match t with
  | Str s => JS.truthy_str s
  | _ => false
  end.

Definition truthy (v : value) : bool :=
  match v with
  | Undefined | Null => false
  | VNum n => Num.truthy n
  | VStr s => JS.truthy_str s
  end.

(** [ToNumber], as the relational operators apply it. *)
Definition toNumber (v : value) : Num.num :=
  match v with
  | Undefined => Num.NaN
  | Null => Num.of_Z 0
  | VNum n => n
  | VStr s => Parse.toNumber s
  end.

(** [t || fallback] *)
Definition orElse (t : text) (fallback : string) : string :=
  match t with
  | Str s => if JS.truthy_str s then s else fallback
  | _ => fallback
  end.

Record item : Type :=
  { description : string; price : Num.num; quantity : Num.num }.

Record extracted : Type :=
  { vendor : text;
    date : text;
    amount : value;
    confidence : Num.num;
    items : list item;
    rawText : text }.

(** A [Date] object, as far as the code reads it. *)
Record jsdate : Type :=
  { fullYear : Z;        (* getFullYear() *)
    month0 : Z;          (* getMonth() *)
    dayOfMonth : Z;      (* getDate() *)
    isoDay : string }.   (* toISOString().split('T')[0] *)

(** A decoded JSON text. *)
#[local] Set Warnings "-register-all".
Inductive json : Type :=
| JNull
| JBool (b : bool)
| JNum (n : Num.num)
| JStr (s : string)
| JArr (l : list json)
| JObj (fields : list (string * json)).

(** What the JavaScript runtime and the libraries supply. *)
Record runtime : Type :=
  { Date_parse : string -> option jsdate;    (* new Date(s); None for an invalid date *)
    Date_ymd : Z -> Z -> Z -> option jsdate; (* new Date(y, m, d) *)
    Date_now : jsdate;                       (* new Date() *)
    JSON_parse : string -> option json;      (* None when it throws *)
    uuidv4 : nat -> string }.                (* the n-th identifier drawn *)

Definition today (rt : runtime) : string := isoDay (Date_now rt).

End Data.

(** ** The validator of the desktop processor *)

Module Validator.
Import JS Regex Data.

Section WithRuntime.
Variable rt : runtime.

(** [/^\d{4}-\d{2}-\d{2}$/] *)
Definition isoDateRegex : re :=
  seqs [exactly 4 digit; Cls (chr "-"); exactly 2 digit; Cls (chr "-");
        exactly 2 digit; Eol].

Definition cleanVendor (v : text) : text :=
  match v with
  | Str s =>
      if truthy_str s
      then let t := trim s in
           if (String.length t <? 2)%nat then NullText
           else if String.eqb (toLowerCase t) "null"
                   || String.eqb (toLowerCase t) "unknown" then NullText
           else Str t
      else v
  | _ => v
  end.

Definition cleanDate (v : text) : text :=
  match v with
  | Str s =>
      if truthy_str s
      then if negb (test_start isoDateRegex s) then NullText
           else match Date_parse rt s with
                | None => NullText
                | Some _ => v
                end
      else v
  | _ => v
  end.

(** [Math.round(a * 100) / 100] *)
Definition round2 (a : Num.num) : Num.num :=
  Num.div (Num.round (Num.mul a (Num.of_Z 100))) (Num.of_Z 100).

Definition cleanNumber (a : Num.num) : value :=
  if Num.isNaN a then Null
  else if Num.leb a (Num.of_Z 0) then Null
  else if Num.gtb a (Num.of_Z 10000) then Null
  else VNum (round2 a).

Definition cleanAmount (v : value) : value :=
  match v with
  | Undefined | Null => v
  | VStr s => cleanNumber (Parse.parseFloat s)
  | VNum a => cleanNumber a
  end.

Definition bonus (present : bool) (points : Num.num) (c : Num.num) : Num.num :=
  if present then Num.add c points else c.

Definition recomputeConfidence (vendor date : text) (amount : value)
  : Num.num :=
  let c := Num.dec 5 10 in
  let c := bonus (truthy amount) (Num.dec 3 10) c in
  let c := bonus (truthyText vendor) (Num.dec 2 10) c in
  let c := bonus (truthyText date) (Num.dec 1 10) c in
  c.

Definition validateAndCleanExtractedData (data : extracted) : extracted :=
  let v := cleanVendor (vendor data) in
  let d := cleanDate (date data) in
  let a := cleanAmount (amount data) in
  {| vendor := v; date := d; amount := a;
     confidence := recomputeConfidence v d a;
     items := items data; rawText := rawText data |}.
End WithRuntime.

End Validator.

(** ** The language-model adapter ([src/main/ollama-service.ts]) *)

Module Ollama.
Import JS Regex Data.

(** The three fields the adapter returns; [None] is [null]. *)
Record receiptData : Type :=
  { r_vendor : option string;
    r_date : option string;
    r_amount : option Num.num }.

(** What the HTTP round trip to the model produced. *)
Inductive reply : Type :=
| FetchRejects                      (* unreachable, or aborted on the 15 s timer *)
| HttpStatus (status : nat)         (* a response that is not ok *)
| BodyNotJson                       (* response.json() throws *)
| Body (response : option string).  (* the response field of the body *)

Section WithRuntime.
Variable rt : runtime.

Definition isoDateRegex : re := Validator.isoDateRegex.

Definition sep : re := Cls (fun c => chr "-" c || chr "/" c).

(** [/^(\d{1,2})[-\/](\d{1,2})[-\/](\d{4})$/] and its two siblings. *)
Definition mdY : re :=
  seqs [Grp 1 (times 1 2 digit); sep; Grp 2 (times 1 2 digit); sep;
        Grp 3 (exactly 4 digit); Eol].
Definition mdy : re :=
  seqs [Grp 1 (times 1 2 digit); sep; Grp 2 (times 1 2 digit); sep;
        Grp 3 (exactly 2 digit); Eol].
Definition Ymd : re :=
  seqs [Grp 1 (exactly 4 digit); sep; Grp 2 (times 1 2 digit); sep;
        Grp 3 (times 1 2 digit); Eol].

Definition groupInt (i : nat) (st : mstate) : Z :=
  match group i st with
  | Some g => Parse.digits_val g
  | None => 0%Z
  end.

Definition ymdString (year month day : Z) : string :=
  Show.show year ++ "-" ++ Show.padStart0 2 (Show.show month)
  ++ "-" ++ Show.padStart0 2 (Show.show day).

(** One round of the loop over the three patterns. *)
Definition tryPattern (which : nat) (dateStr : string) : option string :=
  let pattern := match which with O => mdY | S O => mdy | _ => Ymd end in
  match exec pattern dateStr with
  | None => None
  | Some st =>
      let '(year, month, day) :=
        match which with
        | O => (groupInt 3 st, groupInt 1 st, groupInt 2 st)
        | S O => ((2000 + groupInt 3 st)%Z, groupInt 1 st, groupInt 2 st)
        | _ => (groupInt 1 st, groupInt 2 st, groupInt 3 st)
        end in
      match Date_ymd rt year (month - 1)%Z day with
      | Some _ => Some (ymdString year month day)
      | None => None
      end
  end.

Definition firstSome {X : Type} (a b : option X) : option X :=
  match a with Some _ => a | None => b end.

Definition validateDate (value : option json) : option string :=
  match value with
  | Some (JStr value) =>
      if negb (String.eqb (toLowerCase value) "null") && truthy_str (trim value)
      then
        let dateStr := trim value in
        let iso :=
          if test_start isoDateRegex dateStr
          then match Date_parse rt dateStr with
               | Some _ => Some dateStr
               | None => None
               end
          else None in
        let native :=
          match Date_parse rt dateStr with
          | Some parsed =>
              let year := fullYear parsed in
              if (2000 <=? year)%Z && (year <=? 2050)%Z
              then Some (Show.show year ++ "-"
                         ++ Show.padStart0 2 (Show.show (month0 parsed + 1)%Z)
                         ++ "-" ++ Show.padStart0 2 (Show.show (dayOfMonth parsed)))
              else None
          | None => None
          end in
        firstSome iso
          (firstSome (tryPattern 0 dateStr)
             (firstSome (tryPattern 1 dateStr)
                (firstSome (tryPattern 2 dateStr) native)))
      else None
  | _ => None
  end.

Definition validateString (value : option json) : option string :=
  match value with
  | Some (JStr value) =>
      if (0 <? String.length (trim value))%nat
         && negb (String.eqb (toLowerCase value) "null")
      then Some (trim value)
      else None
  | _ => None
  end.

Definition validateAmount (value : option json) : option Num.num :=
  match value with
  | Some (JNum value) =>
      if Num.gtb value (Num.of_Z 0) then Some (Validator.round2 value) else None
  | Some (JStr value) =>
      let parsed := Parse.parseFloat value in
      if negb (Num.isNaN parsed) && Num.gtb parsed (Num.of_Z 0)
      then Some (Validator.round2 parsed) else None
  | _ => None
  end.

(** Property access on a decoded value. *)
Fixpoint field (key : string) (fields : list (string * json)) : option json :=
  match fields with
  | [] => None
  | (k, v) :: fields' => if String.eqb k key then Some v else field key fields'
  end.

Definition prop (parsed : json) (key : string) : option json :=
  match parsed with
  | JObj fields => field key fields
  | _ => None
  end.

Definition any : re := Cls (fun _ => true).
Definition quote : ascii := ascii_of_nat 34.
Definition notQuote : re := Cls (fun c => negb (chr quote c)).

(** [/\{[\s\S]*\}/]; group 1 stands for the whole match. *)
Definition jsonSpan : re :=
  Grp 1 (seqs [Cls (chr "{"); star any; Cls (chr "}")]).

(** [/"vendor":\s*"([^"]+)"/i] and [/"date":\s*"([^"]+)"/i] *)
Definition quotedField (key : string) : re :=
  seqs [Cls (chr quote); lit_i key; Cls (chr quote); Cls (chr ":"); star space;
        Cls (chr quote); Grp 1 (plus notQuote); Cls (chr quote)].

(** [/"amount":\s*([0-9.]+)/i] *)
Definition amountField : re :=
  seqs [Cls (chr quote); lit_i "amount"; Cls (chr quote); Cls (chr ":"); star space;
        Grp 1 (plus (Cls (fun c => is_digit c || chr "." c)))].

Definition extractWithRegexFallback (response : string) : receiptData :=
  {| r_vendor := match1 (quotedField "vendor") response;
     r_date := match match1 (quotedField "date") response with
               | Some d => validateDate (Some (JStr d))
               | None => None
               end;
     r_amount := match match1 amountField response with
                 | Some a => Some (Parse.parseFloat a)
                 | None => None
                 end |}.

(** [parseExtractionResponse]; an absent response text makes both the
    decoding and the fallback throw. *)
Definition parseExtractionResponse (response : option string)
  : thrown (option receiptData) :=
  match response with
  | None => Throws "TypeError: Cannot read properties of undefined"
  | Some response =>
      let cleanResponse := trim response in
      let cleanResponse :=
        match match1 jsonSpan cleanResponse with
        | Some m => m
        | None => cleanResponse
        end in
      match JSON_parse rt cleanResponse with
      | Some parsed =>
          match parsed with
          | JObj _ | JArr _ =>
              Returns (Some {| r_vendor := validateString (prop parsed "vendor");
                               r_date := validateDate (prop parsed "date");
                               r_amount := validateAmount (prop parsed "amount") |})
          | _ => Returns None
          end
      | None => Returns (Some (extractWithRegexFallback response))
      end
  end.

Definition createExtractionPrompt (ocrText : string) : string :=
  let maxLength := 1500%nat in
  let truncatedText :=
    if (maxLength <? String.length ocrText)%nat
    then String.substring 0 maxLength ocrText ++ "..."
    else ocrText in
  let nl := String newline EmptyString in
  let q := String quote EmptyString in
  "Extract vendor, date, and total amount from this receipt." ++ nl ++ nl
  ++ truncatedText ++ nl ++ nl
  ++ "Find:" ++ nl
  ++ "- vendor: The store name (like Amazon, Walmart, Target). For Amazon look for "
  ++ q ++ "Sold by: Amazon" ++ q ++ nl
  ++ "- date: Order date in format YYYY-MM-DD" ++ nl
  ++ "- amount: Grand Total (the final price after tax)" ++ nl ++ nl
  ++ "Return JSON: {" ++ q ++ "vendor" ++ q ++ ": " ++ q ++ "store name" ++ q
  ++ ", " ++ q ++ "date" ++ q ++ ": " ++ q ++ "YYYY-MM-DD" ++ q
  ++ ", " ++ q ++ "amount" ++ q ++ ": 99.99}".

(** [extractReceiptData]: every failure of the round trip is caught and
    turned into [null]. *)
Definition extractReceiptData (isAvailable : bool) (llm : string -> reply)
           (ocrText : string) : option receiptData :=
  if negb isAvailable then None
  else match llm (createExtractionPrompt ocrText) with
       | FetchRejects => None
       | HttpStatus _ => None
       | BodyNotJson => None
       | Body response =>
           match parseExtractionResponse response with
           | Returns (Some extractedData) => Some extractedData
           | Returns None => None
           | Throws _ => None
           end
       end.
End WithRuntime.

End Ollama.

(** ** The store and the job record *)

Module Store.
Import Data.

Inductive status : Type := Pending | Processing | Completed | Failed.

Record expense : Type :=
  { e_id : string;
    e_amount : value;
    e_description : string;
    e_category : string;
    e_date : string;
    e_vendor : string;
    e_tags : string;
    e_receipt_id : string }.

Record receipt : Type :=
  { r_id : string;
    r_status : status;
    r_ocr_text : option string;
    r_extracted : option extracted;
    r_processed_path : option string }.

(** The tables the pipeline writes, and the number of identifiers drawn
    from [uuidv4] so far. *)
Record db : Type :=
  { receipts : list receipt;
    expenses : list expense;
    drawn : nat }.

(** The statements the pipeline runs against the store. *)
Inductive stmt : Type :=
| SetStatus (s : status)   (* UPDATE receipts SET status = ? *)
| SaveResults              (* UPDATE receipts SET ocr_text = ?, ..., status = 'completed' *)
| AddExpense               (* INSERT INTO expenses *)
| FindExpense.             (* SELECT ... FROM expenses *)

(** The storage collaborator: which statements throw, and the category
    resolver ([getOrCreateCategory], [categorizePurchase]), which returns
    a category identifier or throws. *)
Record storage : Type :=
  { fails : stmt -> bool;
    categoryFor : string -> thrown string }.

(** Computations over the store that may throw; the store keeps the
    writes made before the throw. *)
Definition M (X : Type) : Type := db -> thrown X * db.

Definition ret {X : Type} (x : X) : M X := fun d => (Returns x, d).

Definition throw {X : Type} (message : string) : M X :=
  fun d => (Throws message, d).

Definition bind {X Y : Type} (m : M X) (k : X -> M Y) : M Y :=
  fun d =>
    match m d with
    | (Returns x, d') => k x d'
    | (Throws e, d') => (Throws e, d')
    end.

(** [try { m } catch (error) { h error }] *)
Definition tryCatch {X : Type} (m : M X) (h : string -> M X) : M X :=
  fun d =>
    match m d with
    | (Returns x, d') => (Returns x, d')
    | (Throws e, d') => h e d'
    end.

Definition lift {X : Type} (t : thrown X) : M X := fun d => (t, d).

Declare Scope store_scope.
Delimit Scope store_scope with store.
Notation "x <- m ;; k" := (bind m (fun x => k))
  (at level 61, m at next level, right associativity) : store_scope.
Notation "m ;;; k" := (bind m (fun _ => k))
  (at level 61, right associativity) : store_scope.

Section WithStorage.
Variable rt : runtime.
Variable sto : storage.

Definition statement (s : stmt) (write : db -> db) : M unit :=
  fun d =>
    if fails sto s then (Throws "SqliteError", d)
    else (Returns tt, write d).

Definition updateReceipt (id : string) (f : receipt -> receipt) (d : db) : db :=
  {| receipts := map (fun r => if String.eqb (r_id r) id then f r else r)
                     (receipts d);
     expenses := expenses d;
     drawn := drawn d |}.

Definition setStatus (s : status) (id : string) : M unit :=
  statement (SetStatus s)
    (updateReceipt id (fun r =>
       {| r_id := r_id r; r_status := s; r_ocr_text := r_ocr_text r;
          r_extracted := r_extracted r;
          r_processed_path := r_processed_path r |})).

Definition saveResults (id ocrText : string) (data : extracted)
           (processedPath : string) : M unit :=
  statement SaveResults
    (updateReceipt id (fun r =>
       {| r_id := r_id r; r_status := Completed;
          r_ocr_text := Some ocrText;
          r_extracted := Some data;
          r_processed_path := Some processedPath |})).

Definition insertExpense (e : expense) : M unit :=
  statement AddExpense
    (fun d => {| receipts := receipts d;
                 expenses := expenses d ++ [e];
                 drawn := drawn d |}).

Definition selectExpense (id : string) : M (option expense) :=
  fun d =>
    if fails sto FindExpense then (Throws "SqliteError", d)
    else (Returns (find (fun e => String.eqb (e_id e) id) (expenses d)), d).

Definition uuid : M string :=
  fun d => (Returns (uuidv4 rt (drawn d)),
            {| receipts := receipts d; expenses := expenses d;
               drawn := S (drawn d) |}).

Definition getOrCreateCategory (vendorName : string) : M string :=
  lift (categoryFor sto vendorName).
End WithStorage.

Definition statusOf (id : string) (d : db) : option status :=
  match find (fun r => String.eqb (r_id r) id) (receipts d) with
  | Some r => Some (r_status r)
  | None => None
  end.

Definition expensesOf (receiptId : string) (d : db) : list expense :=
  filter (fun e => String.eqb (e_receipt_id e) receiptId) (expenses d).

(** [JSON.stringify(['receipt-import', 'auto-created'])] *)
Definition tags : string :=
  let q := String (ascii_of_nat 34) EmptyString in
  "[" ++ q ++ "receipt-import" ++ q ++ "," ++ q ++ "auto-created" ++ q ++ "]".

End Store.

(** ** PDF collaborators *)

Module Pdf.
Import Data.

Record env : Type :=
  { pdfParse : thrown (string * nat);
      (* reading and parsing the file: the text layer and [numpages] *)
    rasterizer : thrown (nat -> thrown (option string));
      (* preparing the output directory and the converter; the converter
         maps a page number to the path of its image, if it made one *)
    recognize : string -> thrown string }.
      (* the OCR engine on an image path *)

Definition hasTextLayer (text : string) : bool :=
  JS.truthy_str text && (50 <? String.length (JS.trim text))%nat.

Definition noTextMessage : string :=
  "No text could be extracted from any page of the PDF".

Definition placeholder : string :=
  "PDF processing failed - please try with an image file".

End Pdf.

(** ** The HTTP processor ([src/server/receipt-processor.ts]) *)

Module Server.
Import JS Regex Data Store Pdf.
Local Open Scope store_scope.

(** *** Heuristic extraction: amount and date

    Vendor detection (a fuzzy search in a vendor table) and line items are
    computed from the same lines without touching the amount; they enter
    as the functions [vendorOf] and [itemsOf]. *)

(** [/^(thank you|visit|www|http|store #|receipt #|transaction|card #|auth #|ref #|shipping|contact|email|phone)/] *)
Definition skipRegex : re :=
  alts (map lit ["thank you"; "visit"; "www"; "http"; "store #"; "receipt #";
                 "transaction"; "card #"; "auth #"; "ref #"; "shipping";
                 "contact"; "email"; "phone"]).

(** [\d{1,4}(?:,\d{3})*(?:\.\d{2})?] *)
Definition moneyBody : re :=
  seqs [times 1 4 digit;
        star (seqs [Cls (chr ","); exactly 3 digit]);
        opt (seqs [Cls (chr "."); exactly 2 digit])].

(** [/\$\s*(\d{1,4}(?:,\d{3})*(?:\.\d{2})?)/g] *)
Definition moneyRegex : re :=
  seqs [Cls (chr "$"); star space; Grp 1 moneyBody].

Definition totalLabel : re :=
  alts [lit_i "total";
        seqs [lit_i "amount"; plus space; lit_i "due"];
        lit_i "subtotal";
        seqs [lit_i "balance"; plus space; lit_i "due"];
        seqs [lit_i "grand"; plus space; lit_i "total"]].

(** [/(?:total|amount\s+due|subtotal|balance\s+due|grand\s+total)[\s:]*\$?\s*(\d{1,4}(?:,\d{3})*(?:\.\d{2})?)/i] *)
Definition totalRegex : re :=
  seqs [totalLabel;
        star (Cls (fun c => is_space c || chr ":" c));
        opt (Cls (chr "$"));
        star space;
        Grp 1 moneyBody].

Definition dateSep : re := Cls (fun c => chr "-" c || chr "/" c).

(** [/(\d{1,2}[-\/]\d{1,2}[-\/](?:\d{2}|\d{4}))/g] *)
Definition dateRegex : re :=
  Grp 1 (seqs [times 1 2 digit; dateSep; times 1 2 digit; dateSep;
               Alt (exactly 2 digit) (exactly 4 digit)]).

(** [s.replace(/,/g, '')] *)
Definition removeCommas : string -> string :=
  filter_str (fun c => negb (chr "," c)).

Definition reasonable (n : Num.num) : bool :=
  Num.gtb n (Num.of_Z 0) && Num.ltb n (Num.of_Z 10000).

Record priceEntry : Type :=
  { p_price : Num.num; p_line : string; isLikelyTotal : bool }.

(** The variables of the loop over the lines. *)
Record scan : Type :=
  { explicitTotal : option Num.num;
    allPrices : list priceEntry;
    dates : list string }.

Definition scanStart : scan :=
  {| explicitTotal := None; allPrices := []; dates := [] |}.

(** The explicit total a line carries, if it carries one in range. *)
Definition lineTotal (line : string) : option Num.num :=
  match match1 totalRegex line with
  | Some g =>
      let foundTotal := Parse.parseFloat (removeCommas g) in
      if reasonable foundTotal then Some foundTotal else None
  | None => None
  end.

(** The prices detected on a line. *)
Definition linePrices (line : string) : list priceEntry :=
  let cleanLine := toLowerCase (trim line) in
  flat_map
    (fun g =>
       let price := Parse.parseFloat (removeCommas g) in
       if reasonable price
       then [{| p_price := price; p_line := trim line;
                isLikelyTotal := includes cleanLine "total"
                                 || includes cleanLine "amount due"
                                 || includes cleanLine "balance" |}]
       else [])
    (matchAll moneyRegex line).

Definition skipped (line : string) : bool :=
  test_start skipRegex (toLowerCase (trim line)).

(** One round of the loop. *)
Definition scanLine (acc : scan) (line : string) : scan :=
  if skipped line then acc
  else
    {| explicitTotal := match lineTotal line with
                        | Some t => Some t
                        | None => explicitTotal acc
                        end;
       allPrices := allPrices acc ++ linePrices line;
       dates := dates acc ++ matchAll dateRegex line |}.

Definition nonblank (line : string) : bool :=
  (0 <? String.length (trim line))%nat.

Definition linesOf (ocrText : string) : list string :=
  filter nonblank (split_chr newline ocrText).

Definition scanLines (lines : list string) : scan :=
  fold_left scanLine lines scanStart.

(** [allPrices.sort((a, b) => b.price - a.price)]: a stable sort, largest
    price first. *)
Fixpoint insertDesc (x : priceEntry) (l : list priceEntry) : list priceEntry :=
  match l with
  | [] => [x]
  | y :: l' =>
      if Num.leb (p_price y) (p_price x) then x :: l
      else y :: insertDesc x l'
  end.

Definition sortDesc (l : list priceEntry) : list priceEntry :=
  fold_right insertDesc [] l.

(** The amount selected after the loop. *)
Definition selectAmount (sc : scan) : value :=
  let fromPrices :=
    match allPrices sc with
    | [] => Undefined
    | _ =>
        let sortedPrices := sortDesc (allPrices sc) in
        match filter isLikelyTotal sortedPrices with
        | p :: _ => VNum (p_price p)
        | [] =>
            match sortedPrices with
            | p :: _ => VNum (p_price p)
            | [] => Undefined
            end
        end
    end in
  match explicitTotal sc with
  | Some t => if Num.truthy t then VNum t else fromPrices
  | None => fromPrices
  end.

Definition extractReceiptData
           (vendorOf : list string -> option string)
           (itemsOf : list string -> list item)
           (ocrText : string) : extracted :=
  let lines := linesOf ocrText in
  let sc := scanLines lines in
  {| vendor := match vendorOf lines with
               | Some v => if truthy_str v then Str v else NoText
               | None => NoText
               end;
     date := match dates sc with
             | d :: _ => Str d
             | [] => NoText
             end;
     amount := selectAmount sc;
     confidence := Num.dec 7 10;
     items := itemsOf lines;
     rawText := NoText |}.

(** *** The PDF resolver *)

Definition pageMarker (pageNum : nat) (text : string) : string :=
  let nl := String newline EmptyString in
  "--- Page " ++ Show.show (Z.of_nat pageNum) ++ " ---" ++ nl ++ text ++ nl ++ nl.

(** One round of the loop over the pages: the text gathered so far and the
    primary image path. *)
Definition processPage (convert : nat -> thrown (option string))
           (e : env) (acc : string * string) (pageNum : nat) : string * string :=
  let '(combinedText, primaryImagePath) := acc in
  match convert pageNum with
  | Throws _ => acc
  | Returns None => acc
  | Returns (Some path) =>
      if negb (truthy_str path) then acc
      else
        let primaryImagePath :=
          if (pageNum =? 1)%nat then path else primaryImagePath in
        match recognize e path with
        | Throws _ => (combinedText, primaryImagePath)
        | Returns text =>
            if (0 <? String.length (trim text))%nat
            then (combinedText ++ pageMarker pageNum text, primaryImagePath)
            else (combinedText, primaryImagePath)
        end
  end.

Definition pagesToRead (numpages : nat) : list nat :=
  let maxPages := if (numpages =? 0)%nat then 1%nat else numpages in
  seq 1 (Nat.min maxPages 5).

Definition processPDF (e : env) (pdfPath : string) : thrown (string * string) :=
  match pdfParse e with
  | Throws m => Throws m
  | Returns (text, numpages) =>
      if hasTextLayer text then Returns (text, pdfPath)
      else
        match rasterizer e with
        | Throws m => Throws m
        | Returns convert =>
            let '(combinedText, primaryImagePath) :=
              fold_left (processPage convert e) (pagesToRead numpages)
                        (EmptyString, EmptyString) in
            if negb (truthy_str (trim combinedText))
            then Throws noTextMessage
            else Returns (combinedText,
                          if truthy_str primaryImagePath
                          then primaryImagePath else pdfPath)
        end
  end.

(** *** The expense materializer and the job *)

Section WithStorage.
Variable rt : runtime.
Variable sto : storage.

Definition formatDate (dateString : string) : string :=
  let normalizedDate :=
    map_str (fun c => if chr "-" c || chr "/" c then "/"%char else c)
            dateString in
  match Date_parse rt normalizedDate with
  | None => today rt
  | Some d => isoDay d
  end.

Definition createExpenseFromExtractedData (extractedData : extracted)
           (receiptId : string) : M unit :=
  tryCatch
    (if negb (truthy (amount extractedData))
        || Num.leb (toNumber (amount extractedData)) (Num.of_Z 0)
     then ret tt
     else
       expenseId <- uuid rt ;;
       let description :=
         match vendor extractedData with
         | Str v => if truthy_str v then "Purchase at " ++ v
                    else "Receipt purchase"
         | _ => "Receipt purchase"
         end in
       smartCategory <-
         getOrCreateCategory sto (orElse (vendor extractedData) "") ;;
       let expenseDate :=
         match date extractedData with
         | Str d => if truthy_str d then formatDate d else today rt
         | _ => today rt
         end in
       insertExpense sto
         {| e_id := expenseId;
            e_amount := amount extractedData;
            e_description := description;
            e_category := smartCategory;
            e_date := expenseDate;
            e_vendor := orElse (vendor extractedData) "Unknown";
            e_tags := tags;
            e_receipt_id := receiptId |})
    (fun _ => ret tt).

(** [processReceipt]; [acquire] is the outcome of turning the file into
    text (the PDF resolver, or preprocessing and OCR with its retry) and
    its processed path. *)
Definition processReceipt
           (vendorOf : list string -> option string)
           (itemsOf : list string -> list item)
           (acquire : thrown (string * string))
           (receiptId : string) : M unit :=
  tryCatch
    (setStatus sto Processing receiptId ;;;
     textAndPath <- lift acquire ;;
     let extractedData :=
       extractReceiptData vendorOf itemsOf (fst textAndPath) in
     saveResults sto receiptId (fst textAndPath) extractedData
                 (snd textAndPath) ;;;
     createExpenseFromExtractedData extractedData receiptId)
    (fun _ => setStatus sto Failed receiptId).
End WithStorage.

End Server.

(** ** The desktop processor (the main-process [receipt-processor.ts]) *)

Module Main.
Import JS Regex Data Store Pdf.
Local Open Scope store_scope.

Section WithRuntime.
Variable rt : runtime.

(** *** Extraction *)

(** [/(?:total|amount)[\s:]*\$?(\d{1,4}(?:\.\d{2})?)/i] *)
Definition amountRegex : re :=
  seqs [Alt (lit_i "total") (lit_i "amount");
        star (Cls (fun c => is_space c || chr ":" c));
        opt (Cls (chr "$"));
        Grp 1 (seqs [times 1 4 digit;
                     opt (seqs [Cls (chr "."); exactly 2 digit])])].

(** [/(\d{1,2}\/\d{1,2}\/\d{4})/] *)
Definition dateRegex : re :=
  Grp 1 (seqs [times 1 2 digit; Cls (chr "/"); times 1 2 digit;
               Cls (chr "/"); exactly 4 digit]).

(** [/^\d+$/] and [/^\$/] *)
Definition allDigits : re := seqs [plus digit; Eol].
Definition startsWithDollar : re := Cls (chr "$").

Definition trySimpleExtraction (ocrText : string) : extracted :=
  let lines :=
    filter (fun line => (0 <? String.length (trim line))%nat)
           (split_chr newline ocrText) in
  {| confidence := Num.dec 3 10;
     items := [];
     rawText := Str ocrText;
     amount := match match1 amountRegex ocrText with
               | Some g => VNum (Parse.parseFloat g)
               | None => Null
               end;
     date := match match1 dateRegex ocrText with
             | Some g =>
                 match Date_parse rt g with
                 | Some parsed => Str (isoDay parsed)
                 | None => NullText
                 end
             | None => NullText
             end;
     vendor := match lines with
               | line :: _ =>
                   let firstLine := trim line in
                   if (2 <? String.length firstLine)%nat
                      && (String.length firstLine <? 50)%nat
                      && negb (test_start allDigits firstLine)
                      && negb (test_start startsWithDollar firstLine)
                   then Str firstLine else NullText
               | [] => NullText
               end |}.

(** The object built from what the model returned: the fields it gave
    are taken, the others stay [null]. *)
Definition fromModel (ocrText : string) (llmData : Ollama.receiptData)
  : extracted :=
  {| confidence := Num.dec 9 10;
     items := [];
     rawText := Str ocrText;
     vendor := match Ollama.r_vendor llmData with
               | Some v => Str v
               | None => NullText
               end;
     date := match Ollama.r_date llmData with
             | Some d => Str d
             | None => NullText
             end;
     amount := match Ollama.r_amount llmData with
               | Some a => VNum a
               | None => Null
               end |}.

(** [extractReceiptDataWithGemma] up to the line that logs the
    pre-validation data; [isAvailable] is the flag the health check left
    in the service. *)
Definition extractBeforeValidation (isAvailable : bool)
           (llm : string -> Ollama.reply)
           (ocrText : string) (useLLM : bool) : extracted :=
  if useLLM
  then match Ollama.extractReceiptData rt isAvailable llm ocrText with
       | Some llmData => fromModel ocrText llmData
       | None => trySimpleExtraction ocrText
       end
  else trySimpleExtraction ocrText.

Definition extractReceiptDataWithGemma (isAvailable : bool)
           (llm : string -> Ollama.reply)
           (ocrText : string) (useLLM : bool) : extracted :=
  Validator.validateAndCleanExtractedData rt
    (extractBeforeValidation isAvailable llm ocrText useLLM).

(** *** The PDF resolver *)

Definition processPDF (e : env) (pdfPath : string) : thrown (string * string) :=
  let firstPage : thrown (string * string) :=
    match pdfParse e with
    | Throws m => Throws m
    | Returns (text, _) =>
        if hasTextLayer text then Returns (text, pdfPath)
        else
          match rasterizer e with
          | Throws m => Throws m
          | Returns convert =>
              match convert 1%nat with
              | Throws _ => Throws "Failed to process PDF page"
              | Returns None => Throws "Failed to process PDF page"
              | Returns (Some path) =>
                  if negb (truthy_str path)
                  then Throws "Failed to process PDF page"
                  else match recognize e path with
                       | Throws _ => Throws "Failed to process PDF page"
                       | Returns text => Returns (text, path)
                       end
              end
          end
    end in
  match firstPage with
  | Returns r => Returns r
  | Throws _ => Returns (placeholder, pdfPath)
  end.

(** *** The expense materializer *)

Variable sto : storage.

Definition formatDate (dateString : string) : string :=
  if test_start Validator.isoDateRegex dateString then dateString
  else match Date_parse rt dateString with
       | Some d =>
           Show.show (fullYear d) ++ "-"
           ++ Show.padStart0 2 (Show.show (month0 d + 1)%Z) ++ "-"
           ++ Show.padStart0 2 (Show.show (dayOfMonth d))
       | None => today rt
       end.

(** The patterns of [invalidVendorPatterns], each between [^] and [$]
    with the [i] flag. *)
Definition invalidVendorPatterns : list re :=
  [ seqs [lit_i "order"; star space; lit_i "detail"; opt (Cls (chr_i "s")); Eol];
    seqs [lit_i "ship"; star space; lit_i "to"; Eol];
    seqs [lit_i "bill"; star space; lit_i "to"; Eol];
    seqs [lit_i "invoice"; Eol];
    seqs [lit_i "receipt"; Eol];
    seqs [lit_i "thank"; star space; lit_i "you"; Eol];
    seqs [lit_i "customer"; star space; lit_i "copy"; Eol];
    seqs [lit_i "page"; star space; plus digit; Eol] ].

Definition vendorForDb (v : text) : string :=
  let vendorForDb := orElse v "Unknown" in
  if negb (String.eqb vendorForDb "Unknown")
     && existsb (fun pattern => test_start pattern vendorForDb)
                invalidVendorPatterns
  then "Unknown" else vendorForDb.

Definition createExpenseFromExtractedData (extractedData : extracted)
           (receiptId : string) : M (option expense) :=
  tryCatch
    (if negb (truthy (amount extractedData))
        || Num.leb (toNumber (amount extractedData)) (Num.of_Z 0)
     then ret None
     else
       expenseId <- uuid rt ;;
       let description :=
         match vendor extractedData with
         | Str v => if truthy_str v then "Purchase at " ++ v
                    else "Receipt purchase"
         | _ => "Receipt purchase"
         end in
       categoryId <-
         getOrCreateCategory sto (orElse (vendor extractedData) "Other") ;;
       let expenseDate :=
         match date extractedData with
         | Str d => if truthy_str d then formatDate d else today rt
         | _ => today rt
         end in
       insertExpense sto
         {| e_id := expenseId;
            e_amount := amount extractedData;
            e_description := description;
            e_category := categoryId;
            e_date := expenseDate;
            e_vendor := vendorForDb (vendor extractedData);
            e_tags := tags;
            e_receipt_id := receiptId |} ;;;
       selectExpense sto expenseId)
    (fun _ => ret None).

(** *** The job *)

Record outcome : Type :=
  { success : bool;
    expense_made : option expense;
    extractedData : option extracted;
    error : option string }.

(** [processReceipt]; [acquire] is the outcome of everything between the
    first status write and the extraction: turning the file into text
    and a processed path, dumping the raw text to the debug directory
    and asking for the service's health, any of which may throw.
    [isOllamaReady] is the answer of the health check, [llm] the round
    trip to the model.  Logging is left out. *)
Definition processReceipt
           (acquire : thrown (string * string))
           (isOllamaReady : bool) (llm : string -> Ollama.reply)
           (receiptId : string) : M outcome :=
  tryCatch
    (setStatus sto Processing receiptId ;;;
     textAndPath <- lift acquire ;;
     let data :=
       extractReceiptDataWithGemma isOllamaReady llm (fst textAndPath)
                                   isOllamaReady in
     saveResults sto receiptId (fst textAndPath) data (snd textAndPath) ;;;
     expense <- createExpenseFromExtractedData data receiptId ;;
     ret {| success := true; expense_made := expense;
            extractedData := Some data; error := None |})
    (fun message =>
       setStatus sto Failed receiptId ;;;
       ret {| success := false; expense_made := None;
              extractedData := None; error := Some message |}).
End WithRuntime.

End Main.

(** ** A reference runtime

    A concrete [runtime] for closed examples: a calendar for the two date
    formats the pipeline meets, a JSON decoder, and a counter in place of
    random identifiers.  Local time is taken to be UTC. *)

Module Sample.
Import JS Regex Data.

Definition leap (y : Z) : bool :=
  ((y mod 4 =? 0) && negb (y mod 100 =? 0) || (y mod 400 =? 0))%Z.

Definition daysIn (y m : Z) : Z :=
  if (m =? 2)%Z then (if leap y then 29 else 28)%Z
  else if ((m =? 4) || (m =? 6) || (m =? 9) || (m =? 11))%Z then 30%Z
  else 31%Z.

Definition mkDate (y m d : Z) : option jsdate :=
  if ((1 <=? m) && (m <=? 12) && (1 <=? d) && (d <=? daysIn y m))%Z
  then Some {| fullYear := y; month0 := (m - 1)%Z; dayOfMonth := d;
               isoDay := Show.padStart0 4 (Show.show y) ++ "-"
                         ++ Show.padStart0 2 (Show.show m) ++ "-"
                         ++ Show.padStart0 2 (Show.show d) |}
  else None.

Definition isoShape : re :=
  seqs [Grp 1 (exactly 4 digit); Cls (chr "-"); Grp 2 (exactly 2 digit);
        Cls (chr "-"); Grp 3 (exactly 2 digit); Eol].

Definition usShape : re :=
  seqs [Grp 1 (times 1 2 digit); Cls (chr "/"); Grp 2 (times 1 2 digit);
        Cls (chr "/"); Grp 3 (times 2 4 digit); Eol].

Definition groupZ (i : nat) (st : mstate) : Z :=
  match group i st with
  | Some g => Parse.digits_val g
  | None => 0%Z
  end.

Definition dateParse (s : string) : option jsdate :=
  match exec isoShape s with
  | Some st => mkDate (groupZ 1 st) (groupZ 2 st) (groupZ 3 st)
  | None =>
      match exec usShape s with
      | Some st =>
          let y := groupZ 3 st in
          mkDate (if (y <? 50)%Z then (2000 + y)%Z
                  else if (y <? 100)%Z then (1900 + y)%Z else y)
                 (groupZ 1 st) (groupZ 2 st)
      | None => None
      end
  end.

Definition dateYmd (y m d : Z) : option jsdate := mkDate y (m + 1)%Z d.

(** *** JSON *)

Definition json_ws (c : ascii) : bool :=
  (code c =? 32)%nat || (code c =? 9)%nat || (code c =? 10)%nat
  || (code c =? 13)%nat.

Fixpoint skip_ws (s : string) : string :=
  match s with
  | String c s' => if json_ws c then skip_ws s' else s
  | EmptyString => EmptyString
  end.

Definition quote : ascii := ascii_of_nat 34.
Definition backslash : ascii := ascii_of_nat 92.

Definition snoc (s : string) (c : ascii) : string := s ++ String c EmptyString.

Definition hex4 (a b c d : ascii) : option ascii :=
  match Parse.hex_val a, Parse.hex_val b, Parse.hex_val c, Parse.hex_val d with
  | Some x, Some y, Some z, Some w =>
      let n := (((x * 16 + y) * 16 + z) * 16 + w)%Z in
      if (n <? 256)%Z then Some (ascii_of_nat (Z.to_nat n)) else None
  | _, _, _, _ => None
  end.

(** The characters of a string literal after its opening quote. *)
Fixpoint stringBody (acc : string) (s : string) : option (string * string) :=
  match s with
  | EmptyString => None
  | String c s' =>
      if Ascii.eqb c quote then Some (acc, s')
      else if Ascii.eqb c backslash
      then match s' with
           | String e s'' =>
               if Ascii.eqb e quote then stringBody (snoc acc quote) s''
               else if Ascii.eqb e backslash then stringBody (snoc acc backslash) s''
               else if Ascii.eqb e "/" then stringBody (snoc acc "/") s''
               else if Ascii.eqb e "b" then stringBody (snoc acc (ascii_of_nat 8)) s''
               else if Ascii.eqb e "f" then stringBody (snoc acc (ascii_of_nat 12)) s''
               else if Ascii.eqb e "n" then stringBody (snoc acc (ascii_of_nat 10)) s''
               else if Ascii.eqb e "r" then stringBody (snoc acc (ascii_of_nat 13)) s''
               else if Ascii.eqb e "t" then stringBody (snoc acc (ascii_of_nat 9)) s''
               else if Ascii.eqb e "u"
               then match s'' with
                    | String h1 (String h2 (String h3 (String h4 s5))) =>
                        match hex4 h1 h2 h3 h4 with
                        | Some u => stringBody (snoc acc u) s5
                        | None => None
                        end
                    | _ => None
                    end
               else None
           | EmptyString => None
           end
      else if (code c <? 32)%nat then None
      else stringBody (snoc acc c) s'
  end.

Definition numberShape : re :=
  Grp 1 (seqs [opt (Cls (chr "-"));
               Alt (Cls (chr "0")) (seqs [Cls (between 49 57); star digit]);
               opt (seqs [Cls (chr "."); plus digit]);
               opt (seqs [Cls (chr_i "e");
                          opt (Cls (fun c => chr "+" c || chr "-" c));
                          plus digit])]).

Definition number (s : string) : option (json * string) :=
  match exec numberShape s with
  | Some st =>
      match group1 st with
      | Some g => Some (JNum (Parse.parseFloat g), rest st)
      | None => None
      end
  | None => None
  end.

Definition keyword (word : string) (v : json) (s : string)
  : option (json * string) :=
  if String.prefix word s then Some (v, drop (String.length word) s) else None.

Fixpoint jsonValue (fuel : nat) (s : string) {struct fuel}
  : option (json * string) :=
  match fuel with
  | O => None
  | S fuel' =>
      match skip_ws s with
      | EmptyString => None
      | String c s' =>
          if Ascii.eqb c "{"
          then match skip_ws s' with
               | String d s'' =>
                   if Ascii.eqb d "}" then Some (JObj [], s'')
                   else jsonMembers fuel' [] (skip_ws s')
               | EmptyString => None
               end
          else if Ascii.eqb c "["
          then match skip_ws s' with
               | String d s'' =>
                   if Ascii.eqb d "]" then Some (JArr [], s'')
                   else jsonElements fuel' [] (skip_ws s')
               | EmptyString => None
               end
          else if Ascii.eqb c quote
          then match stringBody EmptyString s' with
               | Some (str, s'') => Some (JStr str, s'')
               | None => None
               end
          else if Ascii.eqb c "t" then keyword "true" (JBool true) (String c s')
          else if Ascii.eqb c "f" then keyword "false" (JBool false) (String c s')
          else if Ascii.eqb c "n" then keyword "null" JNull (String c s')
          else number (String c s')
      end
  end

with jsonElements (fuel : nat) (acc : list json) (s : string) {struct fuel}
  : option (json * string) :=
  match fuel with
  | O => None
  | S fuel' =>
      match jsonValue fuel' s with
      | Some (v, s1) =>
          match skip_ws s1 with
          | String c s2 =>
              if Ascii.eqb c "," then jsonElements fuel' (acc ++ [v]) s2
              else if Ascii.eqb c "]" then Some (JArr (acc ++ [v]), s2)
              else None
          | EmptyString => None
          end
      | None => None
      end
  end

(** The fields of an object are kept latest first, so that a repeated key
    reads as its last binding. *)
with jsonMembers (fuel : nat) (acc : list (string * json)) (s : string)
  {struct fuel} : option (json * string) :=
  match fuel with
  | O => None
  | S fuel' =>
      match skip_ws s with
      | String q s0 =>
          if Ascii.eqb q quote
          then match stringBody EmptyString s0 with
               | Some (key, s1) =>
                   match skip_ws s1 with
                   | String colon s2 =>
                       if Ascii.eqb colon ":"
                       then match jsonValue fuel' s2 with
                            | Some (v, s3) =>
                                match skip_ws s3 with
                                | String c s4 =>
                                    if Ascii.eqb c ","
                                    then jsonMembers fuel' ((key, v) :: acc) s4
                                    else if Ascii.eqb c "}"
                                    then Some (JObj ((key, v) :: acc), s4)
                                    else None
                                | EmptyString => None
                                end
                            | None => None
                            end
                       else None
                   | EmptyString => None
                   end
               | None => None
               end
          else None
      | EmptyString => None
      end
  end.

Definition jsonParse (s : string) : option json :=
  match jsonValue (S (String.length s)) s with
  | Some (v, s') => if is_empty (skip_ws s') then Some v else None
  | None => None
  end.

Definition identifier (n : nat) : string :=
  "00000000-0000-4000-8000-" ++ Show.padStart0 12 (Show.show (Z.of_nat n)).

Definition runtime : Data.runtime :=
  {| Date_parse := dateParse;
     Date_ymd := dateYmd;
     Date_now := {| fullYear := 2024; month0 := 0; dayOfMonth := 15;
                    isoDay := "2024-01-15" |};
     JSON_parse := jsonParse;
     uuidv4 := identifier |}.

(** A store in which no statement fails and every vendor falls in one
    category. *)
Definition storage : Store.storage :=
  {| Store.fails := fun _ => false;
     Store.categoryFor := fun _ => Returns "category-other" |}.

End Sample.


(** ** The health check of the adapter ([src/main/ollama-service.ts]) *)

Module Health.
Import JS Data.

(** What the request for the installed models produced. *)
Inductive tags : Type :=
| TagsRejects                      (* unreachable, or aborted on the 5 s timer *)
| TagsStatus (status : nat)        (* a response that is not ok *)
| TagsNotJson                      (* response.json() throws *)
| Tags (models : option (list (option string))).
    (* [data.models] when the body has one: the name of each entry, [None]
       for an entry without a name *)

(** [this.model.split(':')[0]] *)
Definition family (model : string) : string :=
  match split_chr ":" model with
  | f :: _ => f
  | [] => EmptyString
  end.

(** [models.some(...)]: the first entry that fits ends the search;
    [startsWith] on a missing name throws. *)
Fixpoint hasModel (model : string) (models : list (option string)) : thrown bool :=
  match models with
  | [] => Returns false
  | Some name :: models' =>
      if String.eqb name model || String.prefix (family model) name
      then Returns true
      else hasModel model models'
  | None :: _ => Throws "TypeError: Cannot read properties of undefined"
  end.

(** [checkHealth]: the value returned, which is also the value left in
    [isAvailable]. *)
Definition checkHealth (model : string) (reply : tags) : bool :=
  match reply with
  | Tags (Some models) =>
      match hasModel model models with
      | Returns found => found
      | Throws _ => false
      end
  | _ => false
  end.

End Health.

(** ** Vendor detection ([src/server/receipt-processor.ts]) *)

Module Vendors.
Import JS Regex Data.

(** [.]: any character but a line terminator. *)
Definition dot : re :=
  Cls (fun c => negb ((code c =? 10)%nat || (code c =? 13)%nat)).

Definition irrelevantPatterns : list re :=
  [ alts (map lit ["show order"; "order #"; "thank you"; "shipping"; "contact";
                   "total"; "subtotal"; "tax"; "order details"]);
    alts (map lit ["receipt"; "transaction"; "card"; "auth"; "approved";
                   "declined"]);
    alts (map lit ["date"; "time"; "address"; "phone"; "email"; "website"]);
    alts (map lit ["ship to"; "shipped to"; "redeem"; "offer"; "coupon"]);
    seqs [Cls (chr "$"); plus digit];                     (* /^\$\d+/ *)
    seqs [plus digit; star space; Eol];                   (* /^\d+\s*$/ *)
    seqs [star (Cls (fun c => negb (is_alpha c))); Eol];  (* /^[^a-zA-Z]*$/ *)
    seqs [times 0 2 dot; Eol] ].                          (* /^.{0,2}$/ *)

Definition isIrrelevantLine (line : string) : bool :=
  let lowerLine := toLowerCase line in
  existsb (fun pattern => test_start pattern lowerLine) irrelevantPatterns.

(** [s.replace(/\s+/g, ' ')] *)
Fixpoint collapse_from (after_space : bool) (s : string) : string :=
  match s with
  | EmptyString => EmptyString
  | String c s' =>
      if is_space c
      then if after_space then collapse_from true s'
           else String " " (collapse_from true s')
      else String c (collapse_from false s')
  end.

Definition collapse : string -> string := collapse_from false.

Definition cleanLineForVendorDetection (line : string) : string :=
  toLowerCase
    (trim
       (collapse
          (map_str (fun c => if is_alnum c || is_space c then c else " "%char)
                   line))).

(** [a - b] *)
Definition sub (a b : Num.num) : Num.num :=
  match a, b with
  | Num.NaN, _ | _, Num.NaN => Num.NaN
  | Num.PInf, Num.PInf | Num.NInf, Num.NInf => Num.NaN
  | Num.PInf, _ | _, Num.NInf => Num.PInf
  | Num.NInf, _ | _, Num.PInf => Num.NInf
  | Num.Fin x, Num.Fin y => Num.of_Q (x - y)
  end.

(** The variables of the loop over the lines. *)
Record best : Type :=
  { bestMatch : option string;
    highestConfidence : Num.num }.

Section WithIndex.
(** The fuzzy index over the known vendors: the name and the score of the
    first result of [fuse.search], when there is one with a score. *)
Variable search : string -> option (string * Num.num).

(** One search and the update that follows it. *)
Definition consider (threshold : Num.num) (query : string) (acc : best) : best :=
  match search query with
  | Some (name, score) =>
      let confidence := sub (Num.of_Z 1) score in
      if Num.gtb confidence (highestConfidence acc)
         && Num.gtb confidence threshold
      then {| bestMatch := Some name; highestConfidence := confidence |}
      else acc
  | None => acc
  end.

(** One round of the loop. *)
Definition scanLine (acc : best) (rawLine : string) : best :=
  let line := trim rawLine in
  if isIrrelevantLine line then acc
  else
    let cleanLine := cleanLineForVendorDetection line in
    if (String.length cleanLine <? 3)%nat then acc
    else
      fold_left
        (fun acc word =>
           if (2 <? String.length word)%nat
           then consider (Num.dec 6 10) word acc
           else acc)
        (split_ws cleanLine)
        (consider (Num.dec 5 10) cleanLine acc).

Definition extractVendorWithFuzzyMatching (lines : list string) : best :=
  fold_left scanLine (firstn 20 lines)
            {| bestMatch := None; highestConfidence := Num.of_Z 0 |}.

(** The vendor as [extractReceiptData] takes it. *)
Definition vendorOf (lines : list string) : option string :=
  bestMatch (extractVendorWithFuzzyMatching lines).
End WithIndex.

End Vendors.

(** ** Categories ([src/server/database.ts] and the two processors)

    The [categories] table with the two constraints of its schema that
    bear on the code: [id] is the primary key and [name] is unique. *)

Module Categories.
Import JS Data.

Record category : Type :=
  { c_id : string;
    c_name : string;
    c_color : string;
    c_icon : string;
    c_type : string }.

(** The rows of the table, and the number of identifiers drawn from
    [uuidv4] so far. *)
Record table : Type :=
  { rows : list category;
    drawn : nat }.

(** The two statements; [fails] tells which ones the engine refuses
    whatever their arguments. *)
Inductive stmt : Type :=
| FindCategory      (* SELECT id FROM categories WHERE name = ? *)
| AddCategory.      (* INSERT INTO categories *)

(** What a vendor is mapped to before the table is consulted. *)
Record mapping : Type :=
  { m_name : string;
    m_color : string;
    m_icon : string;
    m_type : string }.

(** The names every object inherits from [Object.prototype]. *)
Definition inheritedNames : list string :=
  ["constructor"; "__defineGetter__"; "__defineSetter__"; "hasOwnProperty";
   "__lookupGetter__"; "__lookupSetter__"; "isPrototypeOf";
   "propertyIsEnumerable"; "toString"; "valueOf"; "__proto__";
   "toLocaleString"].

Definition inherited (key : string) : bool :=
  existsb (String.eqb key) inheritedNames.

(** [object[key]] on an object literal. *)
Inductive slot (X : Type) : Type :=
| Own (x : X)
| Inherited
| Absent.
Arguments Own {X} x.
Arguments Inherited {X}.
Arguments Absent {X}.

Fixpoint assoc {X : Type} (key : string) (entries : list (string * X)) : option X :=
  match entries with
  | [] => None
  | (k, x) :: entries' => if String.eqb k key then Some x else assoc key entries'
  end.

Definition property {X : Type} (entries : list (string * X)) (key : string) : slot X :=
  match assoc key entries with
  | Some x => Own x
  | None => if inherited key then Inherited else Absent
  end.

(** The loop over [Object.entries]: the value of the first key the name
    contains. *)
Definition firstContained {X : Type} (entries : list (string * X)) (name : string)
  : option X :=
  option_map snd (find (fun kv => includes name (fst kv)) entries).

Section WithEngine.
Variable rt : runtime.
Variable fails : stmt -> bool.

Definition selectIdByName (name : string) (t : table) : thrown (option string) :=
  if fails FindCategory then Throws "SqliteError"
  else Returns (option_map c_id
                  (find (fun c => String.eqb (c_name c) name) (rows t))).

Definition violates (c : category) (t : table) : bool :=
  existsb (fun r => String.eqb (c_id r) (c_id c) || String.eqb (c_name r) (c_name c))
          (rows t).

Definition insertCategory (c : category) (t : table) : thrown unit * table :=
  if fails AddCategory then (Throws "SqliteError", t)
  else if violates c t
       then (Throws "SqliteError: UNIQUE constraint failed", t)
       else (Returns tt, {| rows := rows t ++ [c]; drawn := drawn t |}).

(** The part the two [getOrCreateCategory] share: look the name up, and
    insert a row under a fresh identifier when it is not there. *)
Definition findOrCreate (m : mapping) (t : table) : thrown string * table :=
  match selectIdByName (m_name m) t with
  | Throws e => (Throws e, t)
  | Returns (Some id) => (Returns id, t)
  | Returns None =>
      let categoryId := uuidv4 rt (drawn t) in
      match insertCategory {| c_id := categoryId; c_name := m_name m;
                              c_color := m_color m; c_icon := m_icon m;
                              c_type := m_type m |}
                           {| rows := rows t; drawn := S (drawn t) |} with
      | (Returns _, t') => (Returns categoryId, t')
      | (Throws e, t') => (Throws e, t')
      end
  end.
End WithEngine.

End Categories.

(** *** The categories of the HTTP server

    The icons are emoji, outside the code units below 256; each is carried
    by its code points in the U+ notation. *)

Module ServerCategories.
Import JS Data Categories.

Section WithRuntime.
Variable rt : runtime.
Variable fails : stmt -> bool.
(** [String.prototype.toUpperCase], which on code units below 256 can
    leave that range or lengthen the string. *)
Variable toUpperCase : string -> string.

Definition vendorMappings : list (string * string) :=
  [ ("walmart", "Walmart"); ("target", "Target"); ("kroger", "Kroger");
    ("aldi", "Aldi"); ("costco", "Costco"); ("amazon", "Amazon");
    ("instacart", "Instacart"); ("doordash", "DoorDash");
    ("door dash", "DoorDash"); ("uber eats", "Uber Eats"); ("uber", "Uber Eats");
    ("starbucks", "Starbucks"); ("shell", "Shell"); ("exxon", "Exxon");
    ("bp", "BP"); ("cvs", "CVS"); ("walgreens", "Walgreens");
    ("mcdonalds", "McDonalds"); ("mcdonald", "McDonalds");
    ("pizza hut", "Pizza Hut"); ("dominos", "Dominos"); ("taco bell", "Taco Bell");
    ("subway", "Subway"); ("chipotle", "Chipotle"); ("whole foods", "Whole Foods");
    ("home depot", "Home Depot"); ("lowes", "Lowes"); ("best buy", "Best Buy");
    ("apple", "Apple"); ("microsoft", "Microsoft"); ("google", "Google");
    ("netflix", "Netflix"); ("spotify", "Spotify"); ("at&t", "AT&T");
    ("verizon", "Verizon"); ("t-mobile", "T-Mobile") ].

(** [s.charAt(0).toUpperCase() + s.slice(1).toLowerCase()] *)
Definition capitalize (s : string) : string :=
  match s with
  | EmptyString => toUpperCase EmptyString
  | String c s' => toUpperCase (String c EmptyString) ++ toLowerCase s'
  end.

Fixpoint join (sep : string) (l : list string) : string :=
  match l with
  | [] => EmptyString
  | [s] => s
  | s :: l' => s ++ sep ++ join sep l'
  end.

Definition capitalizeVendorName (name : string) : string :=
  join " " (map capitalize (split_chr " " name)).

(** [list.includes(s)] *)
Definition oneOf (l : list string) (s : string) : bool :=
  existsb (String.eqb s) l.

Definition traditional (name color icon : string) : mapping :=
  {| m_name := name; m_color := color; m_icon := icon; m_type := "traditional" |}.

Definition intelligentVendorToCategory (vendorName : string) : mapping :=
  if negb (truthy_str vendorName)
  then traditional "Other" "#6c757d" "U+1F4CB"
  else
    let vendor := toLowerCase vendorName in
    if oneOf ["walmart"; "target"; "kroger"; "aldi"; "costco"; "whole foods";
              "trader joes"; "safeway"; "publix"] vendor
    then traditional "Groceries" "#28a745" "U+1F6D2"
    else if oneOf ["mcdonalds"; "burger king"; "kfc"; "taco bell"; "subway";
                   "chipotle"; "starbucks"; "dunkin"; "panera"] vendor
    then traditional "Restaurants" "#fd7e14" "U+1F37D U+FE0F"
    else if oneOf ["doordash"; "uber eats"; "grubhub"; "postmates"; "instacart"]
                  vendor
    then traditional "Food Delivery" "#dc3545" "U+1F69A"
    else if oneOf ["shell"; "exxon"; "chevron"; "bp"; "mobil"; "texaco"; "arco"]
                  vendor
    then traditional "Gas & Fuel" "#ffc107" "U+26FD"
    else if oneOf ["uber"; "lyft"; "taxi"; "metro"; "bus"] vendor
    then traditional "Transportation" "#6f42c1" "U+1F697"
    else if oneOf ["amazon"; "ebay"; "etsy"; "ali express"] vendor
    then traditional "Online Shopping" "#ff9900" "U+1F4E6"
    else if oneOf ["home depot"; "lowes"; "menards"; "home improvement"] vendor
    then traditional "Home & Garden" "#e67e22" "U+1F3E0"
    else if oneOf ["best buy"; "apple"; "microsoft"; "gamestop"; "electronics"]
                  vendor
    then traditional "Electronics" "#3498db" "U+1F4BB"
    else if oneOf ["cvs"; "walgreens"; "rite aid"; "pharmacy"] vendor
    then traditional "Pharmacy & Health" "#e74c3c" "U+1F48A"
    else if oneOf ["netflix"; "spotify"; "hulu"; "disney"; "amazon prime";
                   "youtube"] vendor
    then traditional "Entertainment" "#9b59b6" "U+1F3AC"
    else if oneOf ["electric"; "gas"; "water"; "internet"; "phone"; "cable";
                   "at&t"; "verizon"; "t-mobile"] vendor
    then traditional "Bills & Utilities" "#34495e" "U+1F4C4"
    else {| m_name := capitalizeVendorName vendorName; m_color := "#6c757d";
            m_icon := "U+1F3EA"; m_type := "vendor" |}.

(** [getOrCreateCategory] of [database.ts]. *)
Definition getOrCreateCategory (vendorName : string) (t : table)
  : thrown string * table :=
  findOrCreate rt fails (intelligentVendorToCategory vendorName) t.

(** The value of [mappedVendor] when [categorizePurchase] calls
    [getOrCreateCategory]; [Inherited] when the lookup in
    [vendorMappings] found a member of [Object.prototype]. *)
Definition mappedVendor (vendor : string) : slot string :=
  let vendorName := if truthy_str vendor then vendor else "Unknown" in
  let vendorLower := toLowerCase vendorName in
  match property vendorMappings vendorLower with
  | Own value => Own value
  | Inherited => Inherited
  | Absent =>
      match firstContained vendorMappings vendorLower with
      | Some value => Own value
      | None => Own (capitalize vendorName)
      end
  end.

(** [categorizePurchase]; the description and the amount it is given are
    not read.  A member of [Object.prototype] has no [toLowerCase]. *)
Definition categorizePurchase (vendor : string) (t : table)
  : thrown string * table :=
  match mappedVendor vendor with
  | Own name => getOrCreateCategory name t
  | _ => (Throws "TypeError: vendorName.toLowerCase is not a function", t)
  end.
End WithRuntime.

End ServerCategories.

(** *** The categories of the desktop application *)

Module DesktopCategories.
Import JS Data Categories.

Section WithRuntime.
Variable rt : runtime.
Variable fails : stmt -> bool.
(** What happens when the lookup in [vendorCategoryMap] finds a member
    of [Object.prototype], whose [name], [color] and [icon] are then
    bound to the statements: it depends on the driver. *)
Variable onInherited : string -> table -> thrown string * table.

Definition traditional (name color icon : string) : mapping :=
  {| m_name := name; m_color := color; m_icon := icon; m_type := "traditional" |}.

Definition vendorCategoryMap : list (string * mapping) :=
  [ ("walmart", traditional "Groceries" "#28a745" "G");
    ("target", traditional "Retail" "#dc3545" "R");
    ("kroger", traditional "Groceries" "#28a745" "G");
    ("starbucks", traditional "Coffee & Dining" "#fd7e14" "C");
    ("mcdonalds", traditional "Restaurants" "#fd7e14" "R");
    ("shell", traditional "Gas & Fuel" "#ffc107" "F");
    ("exxon", traditional "Gas & Fuel" "#ffc107" "F");
    ("amazon", traditional "Online Shopping" "#ff9900" "O");
    ("uber", traditional "Transportation" "#6f42c1" "T");
    ("doordash", traditional "Food Delivery" "#dc3545" "D") ].

(** [categoryData] when the table is consulted. *)
Definition categoryData (vendorName : string) : slot mapping :=
  let vendor := toLowerCase vendorName in
  match property vendorCategoryMap vendor with
  | Own data => Own data
  | Inherited => Inherited
  | Absent =>
      match firstContained vendorCategoryMap vendor with
      | Some data => Own data
      | None => Own (traditional "Other" "#6c757d" "O")
      end
  end.

(** [getOrCreateCategory] of the desktop processor. *)
Definition getOrCreateCategory (vendorName : string) (t : table)
  : thrown string * table :=
  match categoryData vendorName with
  | Own data => findOrCreate rt fails data t
  | _ => onInherited (toLowerCase vendorName) t
  end.
End WithRuntime.

End DesktopCategories.

(** ** The validation helpers of the routes and of the IPC handlers *)

Module Routes.
Import JS Regex Data.

(** [[0-9a-f]], [[1-5]] and [[89ab]] under the [i] flag. *)
Definition hex (c : ascii) : bool := is_digit c || between 97 102 (lower_char c).
Definition version : ascii -> bool := between 49 53.
Definition variant (c : ascii) : bool :=
  chr "8" c || chr "9" c || chr_i "a" c || chr_i "b" c.

(** [/^[0-9a-f]{8}-[0-9a-f]{4}-[1-5][0-9a-f]{3}-[89ab][0-9a-f]{3}-[0-9a-f]{12}$/i] *)
Definition uuidRegex : re :=
  seqs [exactly 8 (Cls hex); Cls (chr "-");
        exactly 4 (Cls hex); Cls (chr "-");
        Cls version; exactly 3 (Cls hex); Cls (chr "-");
        Cls variant; exactly 3 (Cls hex); Cls (chr "-");
        exactly 12 (Cls hex); Eol].

Definition isValidUUID (uuid : string) : bool := test_start uuidRegex uuid.

(** [input.trim().replace(/[<>]/g, '')] *)
Definition sanitizeInput (input : string) : string :=
  filter_str (fun c => negb (chr "<" c || chr ">" c)) (trim input).

Section WithRuntime.
Variable rt : runtime.

Definition isValidDate (dateString : string) : bool :=
  if negb (truthy_str dateString) then false
  else match Date_parse rt dateString with
       | Some _ => test_start Validator.isoDateRegex dateString
       | None => false
       end.

(** [!field || field.trim().length === 0] *)
Definition blank (field : text) : bool :=
  match field with
  | Str s => negb (truthy_str s) || (String.length (trim s) =? 0)%nat
  | _ => true
  end.

(** The checks that open the handlers which create and update an
    expense: the message of the first one that fails. *)
Definition validateExpense (amount : value) (description category date : text)
  : option string :=
  if negb (truthy amount) || Num.leb (toNumber amount) (Num.of_Z 0)
  then Some "Amount must be a positive number"
  else if blank description then Some "Description is required"
  else if blank category then Some "Category is required"
  else if match date with
          | Str d => negb (truthy_str d) || negb (isValidDate d)
          | _ => true
          end
  then Some "Valid date is required"
  else if Num.gtb (toNumber amount) (Num.dec 99999999 100)
  then Some "Amount cannot exceed $999,999.99"
  else if match description with
          | Str d => (255 <? String.length d)%nat
          | _ => false
          end
  then Some "Description cannot exceed 255 characters"
  else None.
End WithRuntime.

End Routes.

(** * Vocabulary of the statements *)

Unset Implicit Arguments.

Ltac by_char c :=
  destruct c as [[] [] [] [] [] [] [] []];
  vm_compute; try reflexivity; try discriminate; auto.

Section GateTerms.
Import JS Regex Gate.

Fixpoint pushs (s : string) (o : list (nat * string)) : list (nat * string) :=
  match s with
  | EmptyString => o
  | String c s' => pushs s' (push c o)
  end.

Definition stops (p : ascii -> bool) (r : string) : Prop :=
  match r with
  | EmptyString => True
  | String a _ => p a = false
  end.

(** [n] copies of [s]. *)
Fixpoint replicate (n : nat) (s : string) : string :=
  match n with
  | O => EmptyString
  | S n' => s ++ replicate n' s
  end.

(** Five hundred letters and digits without a space. *)
Definition alnum500 : string := replicate 50 "a1B2c3D4e5".

Definition smallReceipt : string :=
  "WALMART SUPERCENTER" ++ String newline
  ("01/15/2024" ++ String newline
  ("MILK 3.50" ++ String newline
  ("BREAD 2.25" ++ String newline "TOTAL: $5.75"))).

(** A receipt-like text: at least 20 characters, at least 3 non-blank
    lines, at most 30% special characters, at least 60% valid words. *)
Definition wellFormed (text : string) : bool :=
  (20 <=? String.length text)%nat
  && (3 <=? List.length (lines text))%nat
  && (10 * count_str special_char text <=? 3 * String.length text)%nat
  && (6 * List.length (words text) <=? 10 * List.length (validWords text))%nat.

End GateTerms.

Section ValidatorTerms.
Import JS Regex Data Validator.

(** The number [n/100] in lowest terms, as [round2] returns it. *)
Definition cents (n : Z) : Num.num :=
  Num.Fin (Qred (Qred (inject_Z n) / Qred (inject_Z 100))).

Definition roundedCents (x : Q) : Z :=
  Qfloor (Qred (x * Qred (inject_Z 100)) + (1 # 2)).

(** A positive number below half a cent. *)
Definition tinyNum (a : Num.num) : bool :=
  Num.gtb a (Num.of_Z 0) && Num.ltb a (Num.dec 5 1000).

Definition coerced (v : value) : Num.num :=
  match v with
  | VNum a => a
  | VStr s => Parse.parseFloat s
  | _ => Num.NaN
  end.

(** The amount, once coerced, is positive and below half a cent. *)
Definition tiny (v : value) : bool := tinyNum (coerced v).

Definition allPresent (d : extracted) : bool :=
  truthy (amount d) && truthyText (vendor d) && truthyText (date d).

Definition fullReceipt : extracted :=
  {| vendor := Str "Walmart"; date := Str "2024-01-15";
     amount := VNum (Num.dec 575 100); confidence := Num.dec 9 10;
     items := []; rawText := NullText |}.

Definition tinyReceipt : extracted :=
  {| vendor := Str "Walmart"; date := Str "2024-01-15";
     amount := VNum (Num.dec 4 1000); confidence := Num.dec 9 10;
     items := []; rawText := NullText |}.

End ValidatorTerms.

Section MaterializerTerms.
Import JS Regex Data Store.

(** The gate of both materializers: [!amount || amount <= 0]. *)
Definition noValidAmount (v : value) : bool :=
  negb (truthy v) || Num.leb (toNumber v) (Num.of_Z 0).

(** A store that accepts the writes of the materializer. *)
Definition cooperative (sto : storage) : Prop :=
  fails sto AddExpense = false /\ fails sto FindExpense = false
  /\ forall v, exists c, categoryFor sto v = Returns c.

Definition fallbackDescription (v : text) : string :=
  match v with
  | Str s => if truthy_str s then "Purchase at " ++ s else "Receipt purchase"
  | _ => "Receipt purchase"
  end.

(** What goes wrong before the expense is materialized. *)
Definition resultsNotWritten (sto : storage) (acquire : thrown (string * string))
  : Prop :=
  fails sto (SetStatus Processing) = true
  \/ (exists m, acquire = Throws m)
  \/ fails sto SaveResults = true.

Definition resultsWritten (sto : storage) (acquire : thrown (string * string))
  : Prop :=
  fails sto (SetStatus Processing) = false
  /\ (exists r, acquire = Returns r)
  /\ fails sto SaveResults = false.

(** A store whose write of the results throws, and nothing else. *)
Definition resultsWriteFails : storage :=
  {| fails := fun s => match s with SaveResults => true | _ => false end;
     categoryFor := fun _ => Returns "category-other" |}.

Definition noAmount : extracted :=
  {| vendor := Str "Walmart"; date := Str "2024-01-15"; amount := Null;
     confidence := Num.dec 7 10; items := []; rawText := NullText |}.

Definition amountOnly : extracted :=
  {| vendor := NullText; date := NullText; amount := VNum (Num.dec 575 100);
     confidence := Num.dec 8 10; items := []; rawText := NullText |}.

(** A store whose expense insert throws, and nothing else. *)
Definition expenseInsertFails : storage :=
  {| fails := fun s => match s with AddExpense => true | _ => false end;
     categoryFor := fun _ => Returns "category-other" |}.

Definition oneReceipt : db :=
  {| receipts := [{| r_id := "r1"; r_status := Pending; r_ocr_text := None;
                     r_extracted := None; r_processed_path := None |}];
     expenses := [];
     drawn := 0 |}.

End MaterializerTerms.

Section ResolverTerms.
Import JS Regex Data Store Pdf.

(** *** The PDF resolvers *)
(** The OCR text page [p] yields, if it yields any. *)
Definition pageText (convert : nat -> thrown (option string)) (e : env)
           (p : nat) : option string :=
  match convert p with
  | Returns (Some path) =>
      if truthy_str path
      then match recognize e path with
           | Returns text =>
               if (0 <? String.length (trim text))%nat then Some text else None
           | Throws _ => None
           end
      else None
  | _ => None
  end.

Definition contribution (convert : nat -> thrown (option string)) (e : env)
           (p : nat) : string :=
  match pageText convert e p with
  | Some text => Server.pageMarker p text
  | None => EmptyString
  end.

Fixpoint concatAll (l : list string) : string :=
  match l with
  | [] => EmptyString
  | s :: l' => s ++ concatAll l'
  end.

(** A scanned PDF of two pages: the first cannot be rendered, the second
    reads fine. *)
Definition secondPageOnly : env :=
  {| pdfParse := Returns ("", 2%nat);
     rasterizer := Returns (fun p => if (p =? 2)%nat
                                     then Returns (Some "scan_page.2.png")
                                     else Throws "render failed");
     recognize := fun _ => Returns "TOTAL: $5.75" |}.

(** A scanned PDF whose only page cannot be rendered. *)
Definition unreadable : env :=
  {| pdfParse := Returns ("", 1%nat);
     rasterizer := Returns (fun _ => Throws "render failed");
     recognize := fun _ => Throws "no image" |}.

End ResolverTerms.

Section DelegatedTerms.
Import JS Regex Data.

(** *** The delegated strategy and its fallback *)
(** The round trip produced nothing the adapter can hand over: the
    service is not available, the request was rejected or timed out, the
    answer was an HTTP error, the body was not JSON or had no response
    text, or the response text decoded to something that is not an
    object. *)
Definition adapterGivesUp (rt : runtime) (isAvailable : bool)
           (r : Ollama.reply) : Prop :=
  isAvailable = false
  \/ r = Ollama.FetchRejects
  \/ (exists status, r = Ollama.HttpStatus status)
  \/ r = Ollama.BodyNotJson
  \/ r = Ollama.Body None
  \/ (exists response,
        r = Ollama.Body (Some response)
        /\ Ollama.parseExtractionResponse rt (Some response) = Returns None).

Definition receiptText : string :=
  "WALMART" ++ String newline "Total: $5.75".

Definition sorry : string := "Sorry, I cannot read this receipt.".

End DelegatedTerms.

Section LargestTerms.
Import JS Regex Data Server.

(** *** The heuristic amount *)
Definition notSkipped (line : string) : bool := negb (skipped line).

(** The last explicit total of the lines that are read. *)
Definition lastTotal (lines : list string) : option Num.num :=
  fold_left (fun acc line =>
               match lineTotal line with Some t => Some t | None => acc end)
            (filter notSkipped lines) None.

(** Every money figure detected on the lines that are read, in order. *)
Definition detected (lines : list string) : list priceEntry :=
  flat_map linePrices (filter notSkipped lines).

Definition detectedPrices (ocrText : string) : list priceEntry :=
  detected (linesOf ocrText).

(** Every detected price is a finite number of the accepted range. *)
Definition finite (n : Num.num) : Prop := exists q, n = Num.Fin q.

Definition threeFigures : string :=
  "Item $5.75" ++ String newline ("Other $15.00" ++ String newline "x $3.00").

End LargestTerms.

Section TotalTerms.
Import JS Regex Data Server.

(** *** Money strings *)
(** The amount of [c] cents written with two decimals: [575] is
    ["5.75"]. *)
Definition money (c : Z) : string :=
  Show.digits (c / 100) ++ "."
  ++ String (Show.digit_char (c mod 100 / 10))
       (String (Show.digit_char (c mod 10)) EmptyString).

(** The line ["Total: $a"], followed by anything. *)
Definition totalLine (c : Z) (trail : string) : string :=
  "Total: $" ++ money c ++ trail.

Definition walmartReceipt : string :=
  "WALMART SUPERCENTER" ++ String newline
  ("MILK $3.50" ++ String newline
  ("Grand $9,999.00" ++ String newline
  ("Total: $5.75" ++ String newline "Thank you"))).

Definition totalThenSubtotal : string :=
  "Total: $5.75" ++ String newline "Subtotal: $5.00".

End TotalTerms.

Section GroupedTerms.
Import JS Regex Data Server.

(** The amount of [c] cents with a comma before the last three dollar
    digits when there are more than three: [123450] is ["1,234.50"]. *)
Definition moneyGrouped (c : Z) : string :=
  let dollars := (c / 100)%Z in
  if (dollars <? 1000)%Z then money c
  else
    String (Show.digit_char (dollars / 1000))
      (String ","
        (String (Show.digit_char ((dollars / 100) mod 10))
          (String (Show.digit_char ((dollars / 10) mod 10))
            (String (Show.digit_char (dollars mod 10))
              (String "."
                (String (Show.digit_char (c mod 100 / 10))
                  (String (Show.digit_char (c mod 10)) EmptyString))))))).

Definition moneyText (grouped : bool) (c : Z) : string :=
  if grouped then moneyGrouped c else money c.

Definition totalLineOf (grouped : bool) (c : Z) (trail : string) : string :=
  "Total: $" ++ moneyText grouped c ++ trail.

Definition groupedReceipt : string :=
  "COSTCO" ++ String newline
  ("TV $1,199.99" ++ String newline "Total: $1,234.50").

End GroupedTerms.

Section ResolverOutcomeTerms.
Import JS Regex Data Store Pdf.

(** The pages the HTTP resolver reads of a file of [numpages] pages: the
    first five at most, and page 1 when the count is 0. *)
Definition pagesRead (numpages : nat) : list nat :=
  seq 1 (Nat.min (Nat.max numpages 1) 5).

(** The text of page [p] as it enters the combined text. *)
Definition pageBlock (p : nat) (text : string) : string :=
  "--- Page " ++ Show.show (Z.of_nat p) ++ " ---"
  ++ String newline (text ++ String newline (String newline EmptyString)).

(** The blocks of the pages that yield text, in the order of the pages. *)
Definition pagesText (convert : nat -> thrown (option string)) (e : env)
           (pages : list nat) : string :=
  concatAll (map (fun p => match pageText convert e p with
                           | Some text => pageBlock p text
                           | None => EmptyString
                           end) pages).

(** The first page cannot be turned into text: the converter throws or
    gives no image, or the OCR engine throws. *)
Definition firstPageFails (convert : nat -> thrown (option string)) (e : env)
  : bool :=
  match convert 1%nat with
  | Returns (Some image) =>
      negb (truthy_str image)
      || match recognize e image with
         | Throws _ => true
         | Returns _ => false
         end
  | _ => true
  end.

(** Something goes wrong on the way to the text of the first page of a
    PDF without a usable text layer: the file cannot be read or parsed,
    the converter cannot be set up, or the first page fails. *)
Definition firstPageError (e : env) : Prop :=
  match pdfParse e with
  | Throws _ => True
  | Returns (text, _) =>
      hasTextLayer text = false
      /\ match rasterizer e with
         | Throws _ => True
         | Returns convert => firstPageFails convert e = true
         end
  end.

(** A scanned PDF whose converter cannot be set up. *)
Definition noConverter : env :=
  {| pdfParse := Returns ("", 3%nat);
     rasterizer := Throws "EACCES: permission denied";
     recognize := fun _ => Returns "TOTAL: $5.75" |}.

(** A scanned PDF whose first page reads as blanks. *)
Definition blankPage : env :=
  {| pdfParse := Returns ("", 1%nat);
     rasterizer := Returns (fun _ => Returns (Some "scan_page.1.png"));
     recognize := fun _ => Returns "  " |}.

Definition secondPageBlock : string :=
  "--- Page 2 ---" ++ String newline
    ("TOTAL: $5.75" ++ String newline (String newline EmptyString)).

End ResolverOutcomeTerms.

Section FigureTerms.
Import JS Regex Data Server.













End FigureTerms.

Section GateMoreTerms.
Import JS Regex Gate.

(** The points a rule of the gate takes off. *)
Definition points (issue : string) : Z :=
  if String.eqb issue "Text too short" then 3
  else if String.eqb issue "Too many special characters" then 4
  else if String.eqb issue "Low valid word ratio" then 2
  else if String.eqb issue "Too few lines detected" then 1
  else 0.

Definition penalty (q : quality) : Z :=
  fold_right Z.add 0%Z (map points (issues q)).

Definition garbled : string := "#@!%^&*()".

Definition twoEngines (retryMode : bool) : option string :=
  if retryMode then Some smallReceipt else Some garbled.

End GateMoreTerms.

Section ValidatorMoreTerms.
Import JS Regex Data Validator.

(** A vendor the validator lets through. *)
Definition cleanName (s : string) : Prop :=
  trim s = s /\ (2 <= String.length s)%nat
  /\ toLowerCase s <> "null" /\ toLowerCase s <> "unknown".

(** A date the validator lets through. *)
Definition validIsoDate (rt : runtime) (s : string) : Prop :=
  test_start isoDateRegex s = true /\ Date_parse rt s <> None.

(** A whole number of cents between 0 and 10000.00. *)
Definition centsUpTo10000 (v : value) : Prop :=
  exists n, (0 <= n <= 1000000)%Z /\ v = VNum (cents n).

(** The date the desktop materializer writes for a record. *)
Definition storedDate (rt : runtime) (d : extracted) : string :=
  match date d with
  | Str s => if truthy_str s then s else today rt
  | _ => today rt
  end.

End ValidatorMoreTerms.

Section AdapterMoreTerms.
Import JS Regex Data.



End AdapterMoreTerms.

Section DateTerms.
Import JS Regex Data.

(** [n] characters of class [p] at the head of [s], and what follows
    them. *)
Fixpoint takeN (p : ascii -> bool) (n : nat) (s : string) : option (string * string) :=
  match n with
  | O => Some (EmptyString, s)
  | S n' =>
      match s with
      | String c s' =>
          if p c
          then match takeN p n' s' with
               | Some (a, b) => Some (String c a, b)
               | None => None
               end
          else None
      | EmptyString => None
      end
  end.

Definition isSep (c : ascii) : bool := chr "-" c || chr "/" c.

(** A date written month, day, year with one or two digits for the month
    and the day and four for the year. *)
Definition usDate (M D Y : string) (s1 s2 : ascii) : string :=
  M ++ String s1 (D ++ String s2 Y).

Definition digitString (lo hi : nat) (s : string) : Prop :=
  forall_str is_digit s = true /\ (lo <= String.length s <= hi)%nat.

End DateTerms.

Section PromptTerms.
Import JS Regex Data.

(** The length of the prompt around the receipt text. *)
Definition promptFrame : nat :=
  String.length (Ollama.createExtractionPrompt EmptyString).

End PromptTerms.

Section HeuristicTerms.
Import JS Regex Data Server.



Definition balanceReceipt : string :=
  "TV $50.00" ++ String newline ("Balance $12.00" ++ String newline "Balance $7.00").

End HeuristicTerms.

Section SimpleTerms.
Import JS Regex Data.

(** The first digit of an amount of [c] cents between 1000.00 and
    9999.99. *)
Definition thousands (c : Z) : Z := (c / 100000)%Z.

End SimpleTerms.

Section ResolverMoreTerms.
Import JS Regex Data Store Pdf.

(** The same file seen through another rasterizer. *)
Definition withConverter (e : env) (convert : nat -> thrown (option string)) : env :=
  {| pdfParse := pdfParse e;
     rasterizer := Returns convert;
     recognize := recognize e |}.

(** A scanned PDF of seven pages that all read fine. *)
Definition sevenPages : env :=
  {| pdfParse := Returns ("", 7%nat);
     rasterizer := Returns (fun p => Returns (Some "page.png"));
     recognize := fun _ => Returns "TOTAL: $5.75" |}.

End ResolverMoreTerms.

Section JobTerms.
Import JS Regex Data Store.

(** The records of the receipts other than [id]. *)
Definition otherReceipts (id : string) (d : db) : list receipt :=
  filter (fun r => negb (String.eqb (r_id r) id)) (receipts d).

(** At most one expense was added, and it belongs to receipt [id]. *)
Definition addedAtMostOne (id : string) (before after : db) : Prop :=
  expenses after = expenses before
  \/ exists e, expenses after = (expenses before ++ [e])%list
               /\ e_receipt_id e = id.

End JobTerms.

(** Closes the side conditions of a job that ended in its handler. *)
Ltac frame :=
  cbn [fst snd Store.ret]; repeat split; intros;
  try solve [ eauto | congruence | left; congruence ].

Section HealthTerms.
Import JS Data Health.

(** Every entry of the list has a name. *)
Definition named (names : list string) : tags := Tags (Some (map Some names)).

End HealthTerms.

Section VendorTerms.
Import JS Regex Data Vendors.

(** The state of the detector before the first line. *)
Definition noVendor : best :=
  {| bestMatch := None; highestConfidence := Num.of_Z 0 |}.

(** A result the index stands behind: no vendor at confidence 0, or a
    name the index returned, at the confidence of that answer, above
    one half. *)
Definition credible (search : string -> option (string * Num.num)) (b : best) : Prop :=
  match bestMatch b with
  | None => highestConfidence b = Num.of_Z 0
  | Some name =>
      Num.gtb (highestConfidence b) (Num.dec 5 10) = true
      /\ exists query score,
           search query = Some (name, score)
           /\ highestConfidence b = sub (Num.of_Z 1) score
  end.

Definition noLetter (line : string) : bool :=
  forall_str (fun c => negb (is_alpha c)) line.

(** An index that knows one vendor. *)
Definition walmartIndex (query : string) : option (string * Num.num) :=
  if includes query "walmart" then Some ("Walmart", Num.dec 1 10) else None.

End VendorTerms.

Section CleanLineTerms.
Import JS Regex Data Vendors.

(** A lower-case letter, a digit or the space character. *)
Definition plainChar (c : ascii) : bool := is_lower c || is_digit c || chr " " c.

End CleanLineTerms.

Section CategoryTerms.
Import JS Data Categories.

(** An engine that refuses neither statement. *)
Definition working (fails : stmt -> bool) : Prop :=
  fails FindCategory = false /\ fails AddCategory = false.

(** The next identifier is not the key of a row. *)
Definition freshId (rt : runtime) (t : table) : Prop :=
  forall r, In r (rows t) -> c_id r <> uuidv4 rt (drawn t).

Definition names (t : table) : list string := map c_name (rows t).

(** The table after a successful call for the mapping [m]: a row with
    the name of [m] has the identifier [id], a repeat of the call changes
    nothing, at most one row was added, and names stay unique. *)
Definition foundOrCreated (rt : runtime) (fails : stmt -> bool) (m : mapping)
           (id : string) (t t' : table) : Prop :=
  selectIdByName fails (m_name m) t' = Returns (Some id)
  /\ findOrCreate rt fails m t' = (Returns id, t')
  /\ (t' = t
      \/ rows t' = (rows t ++ [{| c_id := id; c_name := m_name m;
                                  c_color := m_color m; c_icon := m_icon m;
                                  c_type := m_type m |}])%list)
  /\ (NoDup (names t) -> NoDup (names t')).

(** The categories a fresh database starts with on the desktop. *)
Definition seeded : table :=
  {| rows := [ {| c_id := "c-1"; c_name := "Groceries"; c_color := "#28a745";
                  c_icon := "G"; c_type := "traditional" |};
               {| c_id := "c-2"; c_name := "Other"; c_color := "#6c757d";
                  c_icon := "O"; c_type := "traditional" |} ];
     drawn := 0 |}.

Definition noFailure (s : stmt) : bool := false.

(** What the loop over the entries finds, or [fallback]. *)
Definition containedOr {X : Type} (entries : list (string * X)) (name : string)
           (fallback : X) : X :=
  match firstContained entries name with
  | Some x => x
  | None => fallback
  end.

(** [vendor || 'Unknown'] *)
Definition orUnknown (vendor : string) : string :=
  if truthy_str vendor then vendor else "Unknown".

Definition desktopOther : mapping :=
  DesktopCategories.traditional "Other" "#6c757d" "O".

Definition unknownVendor : mapping :=
  {| m_name := "Unknown"; m_color := "#6c757d"; m_icon := "U+1F3EA";
     m_type := "vendor" |}.

(** A receipt read as coming from the vendor [Constructor]. *)
Definition constructorReceipt : extracted :=
  {| vendor := Str "Constructor"; date := Str "2024-01-15";
     amount := VNum (Num.dec 1250 100); confidence := Num.dec 9 10;
     items := []; rawText := NullText |}.

(** [toUpperCase] on the letters a to z. *)
Definition upperAscii : string -> string :=
  map_str (fun c => if is_lower c then ascii_of_nat (code c - 32) else c).

End CategoryTerms.

Section RouteTerms.
Import JS Regex Data Routes.

Definition hexString (n : nat) (x : string) : Prop :=
  forall_str hex x = true /\ String.length x = n.

(** The five groups of an identifier, the third led by its version digit
    and the fourth by its variant digit. *)
Definition canonical (uuid : string) : Prop :=
  exists a b v c r d e,
    uuid = a ++ "-" ++ b ++ "-" ++ String v c ++ "-" ++ String r d ++ "-" ++ e
    /\ hexString 8 a /\ hexString 4 b
    /\ version v = true /\ hexString 3 c
    /\ variant r = true /\ hexString 3 d
    /\ hexString 12 e.

Definition notBracket (c : ascii) : bool := negb (chr "<" c || chr ">" c).

(** A character that is neither white space nor an angle bracket. *)
Definition wordChar (c : ascii) : bool := negb (is_space c) && notBracket c.

(** The other fields of a request pass their checks. *)
Definition otherFieldsValid (rt : runtime) (description category date : string)
  : Prop :=
  blank (Str description) = false /\ blank (Str category) = false
  /\ truthy_str date = true /\ isValidDate rt date = true
  /\ (String.length description <= 255)%nat.

Definition limit : Q := 99999999 # 100.

End RouteTerms.

(** * Properties *)

Section GateFacts.
Import JS Regex Gate.

Lemma alnum_word c : is_alnum c = true -> Gate.word_char c = true.
Proof. unfold Gate.word_char. intros ->. reflexivity. Qed.

Lemma alnum_not_space c : is_alnum c = true -> is_space c = false.
Proof. by_char c. Qed.

Lemma nat_eqb_succ n : (n =? S n)%nat = false.
Proof. apply Nat.eqb_neq. lia. Qed.

Lemma rep_cls_greedy (A : Type) (p : ascii -> bool) (k : cont A) (x : A) (r : string) c :
  forall s fuel lo hi o,
    forall_str p s = true ->
    (lo <= String.length s)%nat ->
    (String.length s <= fuel)%nat ->
    match hi with Some h => (String.length s <= h)%nat | None => True end ->
    hi = Some (String.length s) \/ stops p r ->
    k {| rest := r; opened := pushs s o; closed := c |} = Some x ->
    rep_loop (run (A:=A) (Cls p)) fuel lo hi
      {| rest := s ++ r; opened := o; closed := c |} k = Some x.
Proof.
  induction s as [|a s IH]; intros fuel lo hi o Hp Hlo Hfuel Hhi Hstop Hk.
  - simpl in *. assert (lo = 0)%nat by lia. subst lo.
    destruct fuel; destruct hi as [[|h]|]; simpl; auto;
      (destruct Hstop as [?|Hs]; [discriminate|]);
      destruct r as [|b r]; simpl; auto; simpl in Hs; rewrite Hs; auto.
  - simpl in Hp. apply andb_true_iff in Hp as [Ha Hs].
    simpl in Hlo, Hfuel, Hhi.
    destruct fuel as [|fuel]; [lia|].
    assert (IH' : rep_loop (run (A:=A) (Cls p)) fuel (pred lo) (option_map pred hi)
               {| rest := s ++ r; opened := push a o; closed := c |} k = Some x).
    { apply IH; auto; try lia.
      - destruct hi as [h|]; simpl; auto. lia.
      - destruct Hstop as [->|?]; auto. }
    cbn [run] in IH'.
    destruct hi as [[|h]|]; [lia| |].
    + cbn [rep_loop]. cbn [run rest opened closed append].
      rewrite Ha. cbn [rest]. rewrite nat_eqb_succ.
      rewrite andb_false_r. cbn [option_map] in IH' |- *. rewrite IH'. destruct (lo =? 0)%nat; reflexivity.
    + cbn [rep_loop]. cbn [run rest opened closed append].
      rewrite Ha. cbn [rest]. rewrite nat_eqb_succ.
      rewrite andb_false_r. cbn [option_map] in IH' |- *. rewrite IH'. destruct (lo =? 0)%nat; reflexivity.
Qed.

Lemma append_nil_r s : s ++ "" = s.
Proof. induction s; simpl; congruence. Qed.

Lemma pushs_nil s : pushs s [] = [].
Proof. induction s; simpl; auto. Qed.

Lemma length_append s r : String.length (s ++ r) = (String.length s + String.length r)%nat.
Proof. induction s; simpl; auto. Qed.

Lemma run_rep_cls (A : Type) (p : ascii -> bool) (k : cont A) (x : A) s r lo hi o c :
  forall_str p s = true ->
  (lo <= String.length s)%nat ->
  match hi with Some h => (String.length s <= h)%nat | None => True end ->
  hi = Some (String.length s) \/ stops p r ->
  k {| rest := r; opened := pushs s o; closed := c |} = Some x ->
  run (Rep lo hi (Cls p)) {| rest := s ++ r; opened := o; closed := c |} k = Some x.
Proof.
  intros. 
  change (rep_loop (run (A:=A) (Cls p)) (lo + String.length (s ++ r)) lo hi
            {| rest := s ++ r; opened := o; closed := c |} k = Some x).
  apply rep_cls_greedy; auto. rewrite length_append. lia.
Qed.

Lemma cls_plus_eol p s :
  s <> "" -> forall_str p s = true ->
  test_start (seqs [plus (Cls p); Eol]) s = true.
Proof.
  intros Hne Hp. unfold test_start, exec, start.
  change (is_some (run (plus (Cls p)) {| rest := s; opened := []; closed := [] |}
                       (fun st' => run Eol st' (@Some mstate))) = true).
  rewrite <- (append_nil_r s) at 1. unfold plus.
  erewrite run_rep_cls with (x := {| rest := ""; opened := []; closed := [] |}); auto.
  - destruct s; [congruence|simpl; lia].
  - right. exact I.
  - rewrite pushs_nil. reflexivity.
Qed.

Lemma alnum_not_newline c : is_alnum c = true -> Ascii.eqb c newline = false.
Proof. by_char c. Qed.

Lemma count_special_alnum s :
  forall_str is_alnum s = true -> count_str Gate.special_char s = 0%nat.
Proof.
  induction s as [|c s IH]; simpl; auto. intros H.
  apply andb_true_iff in H as [Hc Hs]. rewrite (IH Hs).
  unfold Gate.special_char. rewrite (alnum_word _ Hc). reflexivity.
Qed.

Lemma split_ws_nospace s :
  forall_str (fun c => negb (is_space c)) s = true -> split_ws_from false s = [s].
Proof.
  induction s as [|c s IH]; simpl; auto. intros H.
  apply andb_true_iff in H as [Hc Hs]. apply negb_true_iff in Hc.
  rewrite Hc, (IH Hs). reflexivity.
Qed.

Lemma split_chr_absent sep s :
  forall_str (fun c => negb (Ascii.eqb c sep)) s = true -> split_chr sep s = [s].
Proof.
  induction s as [|c s IH]; simpl; auto. intros H.
  apply andb_true_iff in H as [Hc Hs]. apply negb_true_iff in Hc.
  rewrite Hc, (IH Hs). reflexivity.
Qed.

Lemma trimEnd_nospace s :
  forall_str (fun c => negb (is_space c)) s = true -> trimEnd s = s.
Proof.
  induction s as [|c s IH]; simpl; auto. intros H.
  apply andb_true_iff in H as [Hc Hs]. apply negb_true_iff in Hc.
  rewrite Hc, (IH Hs). reflexivity.
Qed.

Lemma trim_nospace s :
  forall_str (fun c => negb (is_space c)) s = true -> trim s = s.
Proof.
  intros H. unfold trim.
  assert (trimStart s = s) as ->.
  { destruct s as [|c s]; simpl; auto. simpl in H.
    apply andb_true_iff in H as [Hc _]. apply negb_true_iff in Hc. now rewrite Hc. }
  now apply trimEnd_nospace.
Qed.

Lemma forall_str_impl (p q : ascii -> bool) s :
  (forall c, p c = true -> q c = true) ->
  forall_str p s = true -> forall_str q s = true.
Proof.
  intros Hpq. induction s as [|c s IH]; simpl; auto. intros H.
  apply andb_true_iff in H as [Hc Hs]. rewrite (Hpq _ Hc), (IH Hs). reflexivity.
Qed.

(** Ratios of counts against decimal thresholds, in integers. *)
Lemma Q_ltb_red x y : Num.Q_ltb (Qred x) (Qred y) = Num.Q_ltb x y.
Proof. unfold Num.Q_ltb. now rewrite !Qred_correct. Qed.

Lemma of_nat_ratio a b :
  (0 < b)%nat ->
  Num.div (Num.of_nat a) (Num.of_nat b)
  = Num.of_Q (Qred (inject_Z (Z.of_nat a)) / Qred (inject_Z (Z.of_nat b))).
Proof.
  intros Hb. unfold Num.div, Num.of_nat, Num.of_Z, Num.of_Q.
  destruct (Qeq_bool (Qred (inject_Z (Z.of_nat b))) 0) eqn:E; auto.
  apply Qeq_bool_iff in E. rewrite Qred_correct in E.
  unfold Qeq in E. simpl in E. lia.
Qed.

Lemma ratio_compare a b n d :
  (0 < b)%nat ->
  (Qred (Qred (inject_Z (Z.of_nat a)) / Qred (inject_Z (Z.of_nat b))) ?= Qred (n # d))%Q
  = (Z.of_nat a * Zpos d ?= n * Z.of_nat b)%Z.
Proof.
  intros Hb. rewrite !Qred_correct.
  destruct b as [|b]; [lia|].
  unfold Qcompare, Qdiv, Qmult, Qinv. simpl.
  rewrite Z.mul_1_r. reflexivity.
Qed.

Lemma ratio_gtb a b n d :
  (0 < b)%nat ->
  Num.gtb (Num.div (Num.of_nat a) (Num.of_nat b)) (Num.dec n d)
  = (n * Z.of_nat b <? Z.of_nat a * Zpos d)%Z.
Proof.
  intros Hb. rewrite of_nat_ratio by auto.
  unfold Num.gtb, Num.ltb, Num.dec, Num.of_Q, Num.Q_ltb.
  rewrite <- Qcompare_antisym, ratio_compare by auto.
  unfold Z.ltb. rewrite (Z.compare_antisym (Z.of_nat a * Zpos d)).
  destruct (Z.of_nat a * Zpos d ?= n * Z.of_nat b)%Z; reflexivity.
Qed.

Lemma ratio_ltb a b n d :
  (0 < b)%nat ->
  Num.ltb (Num.div (Num.of_nat a) (Num.of_nat b)) (Num.dec n d)
  = (Z.of_nat a * Zpos d <? n * Z.of_nat b)%Z.
Proof.
  intros Hb. rewrite of_nat_ratio by auto.
  unfold Num.ltb, Num.dec, Num.of_Q, Num.Q_ltb.
  rewrite ratio_compare by auto. reflexivity.
Qed.

Lemma ratio_zero_zero : Num.div (Num.of_nat 0) (Num.of_nat 0) = Num.NaN.
Proof. reflexivity. Qed.

Lemma gate_alnum text :
  forall_str is_alnum text = true -> (20 <= String.length text)%nat ->
  validateOCRQuality text = {| score := 9; issues := ["Too few lines detected"] |}.
Proof.
  intros Ha Hlen.
  assert (Hns : forall_str (fun c => negb (is_space c)) text = true).
  { revert Ha. apply forall_str_impl. intros c Hc. now rewrite alnum_not_space. }
  assert (Hnl : forall_str (fun c => negb (Ascii.eqb c newline)) text = true).
  { revert Ha. apply forall_str_impl. intros c Hc. now rewrite alnum_not_newline. }
  assert (Hne : text <> "") by (destruct text; [simpl in Hlen; lia | discriminate]).
  assert (Hnonempty : nonempty text = true) by (apply Nat.ltb_lt; lia).
  unfold validateOCRQuality.
  assert ((String.length text <? 20)%nat = false) as -> by (apply Nat.ltb_ge; lia).
  unfold specialCharRatio. rewrite count_special_alnum by auto.
  rewrite ratio_gtb by lia.
  assert ((3 * Z.of_nat (String.length text) <? Z.of_nat 0 * 10)%Z = false) as ->
      by (apply Z.ltb_ge; lia).
  assert (Hw : words text = [text]).
  { unfold words, split_ws. rewrite split_ws_nospace by auto. cbn [filter]. now rewrite Hnonempty. }
  assert (Hv : validWords text = [text]).
  { unfold validWords. rewrite Hw. cbn [filter].
    unfold validWordRegex. rewrite cls_plus_eol; auto.
    revert Ha. apply forall_str_impl. apply alnum_word. }
  unfold wordRatio. rewrite Hw, Hv.
  assert (Hl : lines text = [text]).
  { unfold lines. rewrite split_chr_absent by auto. cbn [filter].
    unfold nonblank. rewrite trim_nospace by auto.
    unfold nonempty in Hnonempty. now rewrite Hnonempty. }
  rewrite Hl. reflexivity.
Qed.

Lemma gate_wellFormed text :
  wellFormed text = true ->
  validateOCRQuality text = {| score := 10; issues := [] |}.
Proof.
  unfold wellFormed. intros H.
  repeat (apply andb_true_iff in H as [H ?]).
  apply Nat.leb_le in H, H0, H1, H2.
  unfold validateOCRQuality.
  assert ((String.length text <? 20)%nat = false) as -> by (apply Nat.ltb_ge; lia).
  unfold specialCharRatio. rewrite ratio_gtb by lia.
  assert ((3 * Z.of_nat (String.length text)
           <? Z.of_nat (count_str special_char text) * 10)%Z = false) as ->
      by (apply Z.ltb_ge; lia).
  assert (Num.ltb (wordRatio text) (Num.dec 6 10) = false) as ->.
  { unfold wordRatio.
    pose proof (filter_length_le (test_start validWordRegex) (words text)) as Hf.
    fold (validWords text) in Hf.
    destruct (List.length (words text)) as [|n] eqn:E.
    - assert (List.length (validWords text) = 0)%nat as -> by lia. reflexivity.
    - rewrite ratio_ltb by lia. apply Z.ltb_ge. lia. }
  assert ((List.length (lines text) <? 3)%nat = false) as -> by (apply Nat.ltb_ge; lia).
  reflexivity.
Qed.

(** C5 (as amended).  A string of 500 letters and digits without a space
    scores 9: it is one token, that token is a valid word, and the only
    rule that fires is the one on the number of lines.  A receipt-like
    text (at least 20 characters, at least 3 non-blank lines, at most 30%
    special characters, at least 60% valid words) scores at least 7. *)
Theorem gate_scores (text : string) :
  (forall_str is_alnum text = true -> String.length text = 500%nat ->
   validateOCRQuality text
   = {| score := 9; issues := ["Too few lines detected"] |})
  /\ (wellFormed text = true -> (7 <= score (validateOCRQuality text))%Z).
Proof.
  split.
  - intros Ha Hlen. apply gate_alnum; [assumption | lia].
  - intros Hw. rewrite (gate_wellFormed text Hw). cbn. lia.
Qed.

Lemma gate_scores_witness :
  validateOCRQuality alnum500
  = {| score := 9; issues := ["Too few lines detected"] |}
  /\ (7 <= score (validateOCRQuality smallReceipt))%Z.
Proof.
  split.
  - apply (proj1 (gate_scores alnum500)); vm_compute; reflexivity.
  - apply (proj2 (gate_scores smallReceipt)). vm_compute. reflexivity.
Defined.

(** C5, as first stated, fails: 500 letters and digits without a space do
    not score below 5, and the valid-word rule does not fire. *)
Lemma alnum_run_scores_nine :
  forall_str is_alnum alnum500 = true
  /\ String.length alnum500 = 500%nat
  /\ score (validateOCRQuality alnum500) = 9%Z
  /\ (score (validateOCRQuality alnum500) <? 5)%Z = false
  /\ ~ In "Low valid word ratio" (issues (validateOCRQuality alnum500)).
Proof.
  repeat split; try (vm_compute; reflexivity).
  vm_compute. intros [H|[]]. discriminate H.
Qed.

(** C10.  On the empty text the gate returns score 6 with the issues
    "Text too short" and "Too few lines detected"; both ratios are
    [NaN], so neither ratio rule fires; 6 is not below the retry
    threshold, and the OCR step of [processReceipt] keeps the empty text
    after a single call of the engine. *)
Theorem empty_text_gate (ocr : bool -> option string) :
  ocr false = Some EmptyString ->
  validateOCRQuality EmptyString
  = {| score := 6; issues := ["Text too short"; "Too few lines detected"] |}
  /\ specialCharRatio EmptyString = Num.NaN
  /\ wordRatio EmptyString = Num.NaN
  /\ Num.gtb (specialCharRatio EmptyString) (Num.dec 3 10) = false
  /\ Num.ltb (wordRatio EmptyString) (Num.dec 6 10) = false
  /\ (score (validateOCRQuality EmptyString) <? 5)%Z = false
  /\ ocrWithRetry ocr = (Some EmptyString, [false]).
Proof.
  intros Hocr. repeat split; try reflexivity.
  unfold ocrWithRetry. rewrite Hocr. reflexivity.
Qed.

Lemma empty_text_gate_witness :
  ocrWithRetry (fun retryMode => if retryMode then Some "TOTAL 5.75" else Some "")
  = (Some EmptyString, [false]).
Proof.
  apply (empty_text_gate
           (fun retryMode => if retryMode then Some "TOTAL 5.75" else Some "")).
  reflexivity.
Defined.

End GateFacts.

Section ValidatorFacts.
Import JS Regex Data Validator.

Lemma trimEnd_idem s : trimEnd (trimEnd s) = trimEnd s.
Proof.
  induction s as [|c s IH]; simpl; auto.
  destruct (is_space c && is_empty (trimEnd s)) eqn:E; simpl; auto.
  rewrite IH, E. reflexivity.
Qed.

Lemma trimStart_fixed s :
  match s with String c _ => is_space c = false | EmptyString => True end ->
  trimStart s = s.
Proof. destruct s; simpl; auto. intros ->. reflexivity. Qed.

Lemma trimStart_head s :
  match trimStart s with String c _ => is_space c = false | EmptyString => True end.
Proof.
  induction s as [|c s IH]; simpl; auto.
  destruct (is_space c) eqn:E; auto.
Qed.

Lemma trimEnd_head s :
  match s with String c _ => is_space c = false | EmptyString => True end ->
  match trimEnd s with String c _ => is_space c = false | EmptyString => True end.
Proof.
  destruct s as [|c s]; simpl; auto. intros H. rewrite H. simpl. exact H.
Qed.

Lemma trim_idem s : trim (trim s) = trim s.
Proof.
  unfold trim.
  rewrite (trimStart_fixed (trimEnd (trimStart s))).
  - apply trimEnd_idem.
  - apply trimEnd_head, trimStart_head.
Qed.

Lemma cleanVendor_idem v : cleanVendor (cleanVendor v) = cleanVendor v.
Proof.
  destruct v as [| |s]; simpl; auto.
  destruct (truthy_str s) eqn:Ht; simpl; [|now rewrite Ht].
  destruct (String.length (trim s) <? 2)%nat eqn:El; auto.
  destruct (String.eqb (toLowerCase (trim s)) "null"
            || String.eqb (toLowerCase (trim s)) "unknown") eqn:En; auto.
  simpl. rewrite trim_idem, El, En.
  assert (truthy_str (trim s) = true) as ->; auto.
  apply Nat.ltb_ge in El. destruct (trim s); simpl in *; [lia|reflexivity].
Qed.

Lemma cleanDate_idem rt v : cleanDate rt (cleanDate rt v) = cleanDate rt v.
Proof.
  destruct v as [| |s]; simpl; auto.
  destruct (truthy_str s) eqn:Ht; simpl; [|now rewrite Ht].
  destruct (test_start isoDateRegex s) eqn:Er; simpl; auto.
  destruct (Date_parse rt s) eqn:Ed; simpl; auto.
  now rewrite Ht, Er, Ed.
Qed.

Lemma round2_fin x : round2 (Num.Fin x) = cents (roundedCents x).
Proof. reflexivity. Qed.

Lemma Qfloor_half n : Qfloor (inject_Z n + (1 # 2)) = n.
Proof.
  unfold Qfloor, Qplus, inject_Z. simpl.
  replace (n * 2 + 1)%Z with (1 + n * 2)%Z by lia.
  rewrite Z.div_add by lia. reflexivity.
Qed.

Lemma roundedCents_cents n :
  match cents n with Num.Fin q => roundedCents q = n | _ => False end.
Proof.
  unfold cents, roundedCents.
  assert (E : (Qred (Qred (Qred (inject_Z n) / Qred (inject_Z 100)) * Qred (inject_Z 100))
               + (1 # 2) == inject_Z n + (1 # 2))%Q).
  { rewrite !Qred_correct. apply Qplus_inj_r. field. }
  rewrite E. apply Qfloor_half.
Qed.

Lemma roundedCents_range x :
  (0 < x)%Q -> (x <= inject_Z 10000)%Q -> (0 <= roundedCents x <= 1000000)%Z.
Proof.
  intros H0 H1. unfold roundedCents.
  assert (E : (Qred (x * Qred (inject_Z 100)) + (1 # 2) == x * inject_Z 100 + (1 # 2))%Q)
    by (rewrite !Qred_correct; reflexivity).
  rewrite E. split.
  - change 0%Z with (Qfloor 0). apply Qfloor_resp_le.
    apply Qle_trans with (x * inject_Z 100)%Q.
    + apply Qmult_le_0_compat; [now apply Qlt_le_weak | discriminate].
    + rewrite <- (Qplus_0_r (x * inject_Z 100)) at 1.
      apply Qplus_le_r. discriminate.
  - replace 1000000%Z with (Qfloor (inject_Z 1000000 + (1 # 2))) by apply Qfloor_half.
    apply Qfloor_resp_le. apply Qplus_le_l.
    change (inject_Z 1000000) with (inject_Z 10000 * inject_Z 100)%Q.
    apply Qmult_le_compat_r; [assumption | discriminate].
Qed.

Lemma roundedCents_zero x :
  (0 < x)%Q -> (roundedCents x = 0%Z <-> (x < 1 # 200)%Q).
Proof.
  intros H0. unfold roundedCents.
  assert (E : (Qred (x * Qred (inject_Z 100)) + (1 # 2) == x * inject_Z 100 + (1 # 2))%Q)
    by (rewrite !Qred_correct; reflexivity).
  rewrite E. clear E.
  set (y := (x * inject_Z 100 + (1 # 2))%Q).
  pose proof (Qfloor_le y) as Hl. pose proof (Qlt_floor y) as Hu.
  assert (Hy : (0 <= y)%Q).
  { unfold y. apply Qle_trans with (x * inject_Z 100)%Q.
    - apply Qmult_le_0_compat; [now apply Qlt_le_weak | discriminate].
    - rewrite <- (Qplus_0_r (x * inject_Z 100)) at 1. apply Qplus_le_r. discriminate. }
  split.
  - intros Hz. rewrite Hz in Hu. simpl in Hu.
    clear Hl Hy. unfold y in Hu. unfold Qlt in *. simpl in *.
    rewrite ?Pos.mul_1_r, ?Pos2Z.inj_mul in *. lia.
  - intros Hx.
    assert (Hy1 : (y < 1)%Q).
    { clear Hl Hu Hy. unfold y, Qlt in *. simpl in *.
      rewrite ?Pos.mul_1_r, ?Pos2Z.inj_mul in *. lia. }
    assert (Hf : (Qfloor y <= 0)%Z).
    { assert (inject_Z (Qfloor y) < 1)%Q by (eapply Qle_lt_trans; eauto).
      change 1%Q with (inject_Z 1) in H. rewrite <- Zlt_Qlt in H. lia. }
    assert (Hg : (0 <= Qfloor y)%Z).
    { change 0%Z with (Qfloor 0). now apply Qfloor_resp_le. }
    lia.
Qed.

Lemma Q_leb_le x y : Num.Q_leb x y = true <-> (x <= y)%Q.
Proof.
  unfold Num.Q_leb. rewrite Qle_alt.
  destruct (x ?= y)%Q; split; intros; congruence.
Qed.

Lemma Q_ltb_lt x y : Num.Q_ltb x y = true <-> (x < y)%Q.
Proof.
  unfold Num.Q_ltb. rewrite Qlt_alt.
  destruct (x ?= y)%Q; split; intros; congruence.
Qed.

Lemma Q_leb_gt x y : Num.Q_leb x y = false <-> (y < x)%Q.
Proof.
  rewrite <- not_true_iff_false, Q_leb_le. split.
  - apply Qnot_le_lt.
  - apply Qlt_not_le.
Qed.

Lemma Q_ltb_ge x y : Num.Q_ltb x y = false <-> (y <= x)%Q.
Proof.
  rewrite <- not_true_iff_false, Q_ltb_lt. split.
  - apply Qnot_lt_le.
  - apply Qle_not_lt.
Qed.

Lemma cents_value n :
  match cents n with
  | Num.Fin q => (q == inject_Z n / inject_Z 100)%Q
  | _ => False
  end.
Proof. unfold cents. now rewrite !Qred_correct. Qed.

Lemma cents_leb_zero n :
  (1 <= n)%Z -> Num.leb (cents n) (Num.of_Z 0) = false.
Proof.
  intros Hn. unfold cents, Num.of_Z, Num.of_Q, Num.leb.
  apply Q_leb_gt. rewrite !Qred_correct.
  unfold Qlt, Qdiv, Qmult, Qinv. simpl. lia.
Qed.

Lemma cents_gtb_max n :
  (n <= 1000000)%Z -> Num.gtb (cents n) (Num.of_Z 10000) = false.
Proof.
  intros Hn. unfold cents, Num.of_Z, Num.of_Q, Num.gtb, Num.ltb.
  apply Q_ltb_ge. rewrite !Qred_correct.
  unfold Qle, Qdiv, Qmult, Qinv. simpl. lia.
Qed.

Lemma cleanNumber_cents n :
  (1 <= n <= 1000000)%Z -> cleanNumber (cents n) = VNum (cents n).
Proof.
  intros [H1 H2]. unfold cleanNumber.
  rewrite cents_leb_zero, cents_gtb_max by assumption.
  pose proof (roundedCents_cents n) as Hr.
  unfold cents in *. cbn [Num.isNaN]. rewrite round2_fin, Hr. reflexivity.
Qed.

Lemma cleanNumber_spec a :
  cleanNumber a = Null
  \/ exists n, (0 <= n <= 1000000)%Z
               /\ cleanNumber a = VNum (cents n)
               /\ (n = 0%Z <-> tinyNum a = true).
Proof.
  destruct a as [| | |x]; try (left; reflexivity).
  unfold cleanNumber. cbn [Num.isNaN].
  destruct (Num.leb (Num.Fin x) (Num.of_Z 0)) eqn:E0; [now left|].
  destruct (Num.gtb (Num.Fin x) (Num.of_Z 10000)) eqn:E1; [now left|].
  right. exists (roundedCents x).
  unfold Num.leb, Num.of_Z, Num.of_Q in E0. apply Q_leb_gt in E0.
  rewrite Qred_correct in E0.
  unfold Num.gtb, Num.ltb, Num.of_Z, Num.of_Q in E1. apply Q_ltb_ge in E1.
  rewrite Qred_correct in E1.
  split; [now apply roundedCents_range|]. split; [now rewrite round2_fin|].
  rewrite (roundedCents_zero x E0).
  unfold tinyNum, Num.gtb, Num.ltb, Num.dec, Num.of_Z, Num.of_Q.
  rewrite andb_true_iff, !Q_ltb_lt, !Qred_correct.
  assert (E : (5 # 1000 == 1 # 200)%Q) by reflexivity. rewrite E. tauto.
Qed.

Lemma cleanAmount_cases v :
  cleanAmount v = v /\ (v = Undefined \/ v = Null)
  \/ cleanAmount v = Null
  \/ exists n, (0 <= n <= 1000000)%Z
               /\ cleanAmount v = VNum (cents n)
               /\ (n = 0%Z <-> tiny v = true).
Proof.
  destruct v as [| |a|s]; simpl; auto.
  - destruct (cleanNumber_spec a) as [H|H]; auto.
  - destruct (cleanNumber_spec (Parse.parseFloat s)) as [H|H]; auto.
Qed.

Lemma cents_zero_rejected : cleanAmount (VNum (cents 0)) = Null.
Proof. reflexivity. Qed.

Lemma cleanAmount_idem v :
  tiny v = false -> cleanAmount (cleanAmount v) = cleanAmount v.
Proof.
  intros Ht.
  destruct (cleanAmount_cases v) as [[H [-> | ->]]|[H|(n & Hn & H & Hz)]];
    try reflexivity.
  - now rewrite H.
  - rewrite H. cbn [cleanAmount]. apply cleanNumber_cents.
    assert (n <> 0%Z) by (intros E; apply Hz in E; congruence). lia.
Qed.

Lemma cleanAmount_not_idem v :
  tiny v = true -> cleanAmount v = VNum (cents 0)
                   /\ cleanAmount (cleanAmount v) = Null.
Proof.
  intros Ht.
  destruct (cleanAmount_cases v) as [[H [-> | ->]]|[H|(n & Hn & H & Hz)]];
    try discriminate.
  - exfalso. destruct v as [| |a|s]; try discriminate; simpl in H;
      unfold tiny, coerced, tinyNum in Ht;
      apply andb_true_iff in Ht as [Hg Hl].
    + unfold cleanNumber in H.
      destruct a as [| | |x]; try discriminate.
      cbn [Num.isNaN] in H.
      assert (Num.leb (Num.Fin x) (Num.of_Z 0) = false) as E0.
      { unfold Num.gtb, Num.ltb, Num.of_Z, Num.of_Q in Hg. apply Q_ltb_lt in Hg.
        apply Q_leb_gt. exact Hg. }
      assert (Num.gtb (Num.Fin x) (Num.of_Z 10000) = false) as E1.
      { unfold Num.gtb, Num.ltb, Num.of_Z, Num.of_Q, Num.dec in *.
        apply Q_ltb_lt in Hl. apply Q_ltb_ge. rewrite Qred_correct in *.
        apply Qlt_le_weak. eapply Qlt_trans; [exact Hl|]. reflexivity. }
      rewrite E0, E1 in H. discriminate.
    + unfold cleanNumber in H.
      destruct (Parse.parseFloat s) as [| | |x]; try discriminate.
      cbn [Num.isNaN] in H.
      assert (Num.leb (Num.Fin x) (Num.of_Z 0) = false) as E0.
      { unfold Num.gtb, Num.ltb, Num.of_Z, Num.of_Q in Hg. apply Q_ltb_lt in Hg.
        apply Q_leb_gt. exact Hg. }
      assert (Num.gtb (Num.Fin x) (Num.of_Z 10000) = false) as E1.
      { unfold Num.gtb, Num.ltb, Num.of_Z, Num.of_Q, Num.dec in *.
        apply Q_ltb_lt in Hl. apply Q_ltb_ge. rewrite Qred_correct in *.
        apply Qlt_le_weak. eapply Qlt_trans; [exact Hl|]. reflexivity. }
      rewrite E0, E1 in H. discriminate.
  - apply Hz in Ht. subst n. rewrite H. split; reflexivity.
Qed.

(** The validator is idempotent on every value whose amount does not
    round to zero cents. *)
Lemma validate_idempotent rt d :
  tiny (amount d) = false ->
  validateAndCleanExtractedData rt (validateAndCleanExtractedData rt d)
  = validateAndCleanExtractedData rt d.
Proof.
  intros Ht. unfold validateAndCleanExtractedData. cbn [vendor date amount items rawText].
  rewrite cleanVendor_idem, cleanDate_idem, cleanAmount_idem by assumption.
  reflexivity.
Qed.

(** On the other values a second pass drops the amount the first pass
    kept. *)
Lemma validate_tiny rt d :
  tiny (amount d) = true ->
  amount (validateAndCleanExtractedData rt d) = VNum (Num.of_Z 0)
  /\ amount (validateAndCleanExtractedData rt (validateAndCleanExtractedData rt d))
     = Null.
Proof.
  intros Ht. unfold validateAndCleanExtractedData. cbn [vendor date amount items rawText].
  destruct (cleanAmount_not_idem _ Ht) as [-> ->]. split; reflexivity.
Qed.

(** C2 (as amended).  After the validator the confidence is 0.5 plus 0.3
    for the amount, 0.2 for the vendor and 0.1 for the date: it is at
    least 0.5, it is at most 1 unless all three fields are present, and
    it is 1.1 when they all are. *)
Theorem confidence_range rt d :
  let out := validateAndCleanExtractedData rt d in
  Num.leb (Num.dec 5 10) (confidence out) = true
  /\ (if allPresent out
      then confidence out = Num.dec 11 10
      else Num.leb (confidence out) (Num.of_Z 1) = true).
Proof.
  unfold validateAndCleanExtractedData, allPresent, recomputeConfidence.
  cbn [vendor date amount confidence].
  destruct (truthy (cleanAmount (amount d)));
    destruct (truthyText (cleanVendor (vendor d)));
    destruct (truthyText (cleanDate rt (date d))); split; reflexivity.
Qed.

(** C2, as first stated, fails: with amount, vendor and date present the
    confidence is 1.1, outside [0,1]. *)
Lemma confidence_above_one :
  Num.leb (confidence (validateAndCleanExtractedData Sample.runtime fullReceipt))
          (Num.of_Z 1) = false
  /\ confidence (validateAndCleanExtractedData Sample.runtime fullReceipt)
     = Num.dec 11 10.
Proof. split; reflexivity. Qed.

(** C9.  The validator is not idempotent on an amount of 0.004: the
    first pass rounds it to 0 and keeps it, the second pass rejects the 0
    and sets the amount to [null]. *)
Theorem validate_twice_differs :
  let once := validateAndCleanExtractedData Sample.runtime tinyReceipt in
  let twice := validateAndCleanExtractedData Sample.runtime once in
  amount once = VNum (Num.of_Z 0) /\ amount twice = Null /\ twice <> once.
Proof. repeat split; try reflexivity. intros E. discriminate E. Qed.

End ValidatorFacts.

Section MaterializerFacts.
Import JS Regex Data Store.

Lemma sample_cooperative : cooperative Sample.storage.
Proof. repeat split. intros v. now exists "category-other". Qed.

Lemma find_append {X : Type} (f : X -> bool) (l l' : list X) :
  find f (l ++ l') = match find f l with Some x => Some x | None => find f l' end.
Proof. induction l as [|x l IH]; simpl; auto. destruct (f x); auto. Qed.

Lemma server_gate rt sto d id db0 :
  noValidAmount (amount d) = true ->
  Server.createExpenseFromExtractedData rt sto d id db0 = (Returns tt, db0).
Proof.
  intros H. unfold Server.createExpenseFromExtractedData, tryCatch.
  unfold noValidAmount in H. rewrite H. reflexivity.
Qed.

Lemma main_gate rt sto d id db0 :
  noValidAmount (amount d) = true ->
  Main.createExpenseFromExtractedData rt sto d id db0 = (Returns None, db0).
Proof.
  intros H. unfold Main.createExpenseFromExtractedData, tryCatch.
  unfold noValidAmount in H. rewrite H. reflexivity.
Qed.

Lemma server_creates rt sto d id db0 :
  noValidAmount (amount d) = false -> cooperative sto ->
  exists e,
    snd (Server.createExpenseFromExtractedData rt sto d id db0)
    = {| receipts := receipts db0; expenses := expenses db0 ++ [e];
         drawn := S (drawn db0) |}
    /\ e_amount e = amount d /\ e_receipt_id e = id
    /\ e_description e = fallbackDescription (vendor d)
    /\ e_vendor e = orElse (vendor d) "Unknown"
    /\ (truthyText (date d) = false -> e_date e = today rt).
Proof.
  intros H (Ha & Hf & Hc).
  unfold Server.createExpenseFromExtractedData, tryCatch.
  unfold noValidAmount in H. rewrite H.
  unfold bind, uuid, getOrCreateCategory, lift, insertExpense, statement.
  destruct (Hc (orElse (vendor d) "")) as [c ->]. rewrite Ha.
  eexists. cbn [snd]. split; [reflexivity|].
  cbn [e_amount e_receipt_id e_description e_vendor e_date].
  repeat split.
  destruct (date d) as [| |s]; simpl; auto. intros ->. reflexivity.
Qed.

Lemma orElse_absent v fallback : truthyText v = false -> orElse v fallback = fallback.
Proof. destruct v as [| |s]; simpl; auto. intros ->. reflexivity. Qed.

Lemma vendorForDb_absent v : truthyText v = false -> Main.vendorForDb v = "Unknown".
Proof. intros H. unfold Main.vendorForDb. rewrite orElse_absent by assumption. reflexivity. Qed.

Lemma main_creates rt sto d id db0 :
  noValidAmount (amount d) = false -> cooperative sto ->
  exists e,
    snd (Main.createExpenseFromExtractedData rt sto d id db0)
    = {| receipts := receipts db0; expenses := expenses db0 ++ [e];
         drawn := S (drawn db0) |}
    /\ (exists found, fst (Main.createExpenseFromExtractedData rt sto d id db0)
                      = Returns (Some found))
    /\ e_amount e = amount d /\ e_receipt_id e = id
    /\ e_description e = fallbackDescription (vendor d)
    /\ (truthyText (vendor d) = false -> e_vendor e = "Unknown")
    /\ (truthyText (date d) = false -> e_date e = today rt).
Proof.
  intros H (Ha & Hf & Hc).
  unfold Main.createExpenseFromExtractedData, tryCatch.
  unfold noValidAmount in H. rewrite H.
  unfold bind, uuid, getOrCreateCategory, lift, insertExpense, statement, selectExpense.
  destruct (Hc (orElse (vendor d) "Other")) as [c ->]. rewrite Ha, Hf.
  eexists. cbn [snd fst]. split; [reflexivity|].
  cbn [e_amount e_receipt_id e_description e_vendor e_date expenses].
  split.
  { rewrite find_append.
    destruct (find _ (expenses db0)) as [e0|]; [now exists e0|].
    cbn [find e_id]. rewrite String.eqb_refl. eexists. reflexivity. }
  repeat split.
  - apply vendorForDb_absent.
  - destruct (date d) as [| |s]; simpl; auto. intros ->. reflexivity.
Qed.

Lemma noValidAmount_number q :
  noValidAmount (VNum (Num.Fin q)) = Num.Q_leb q 0.
Proof.
  unfold noValidAmount, truthy, Num.truthy, toNumber, Num.leb, Num.of_Z, Num.of_Q.
  cbn [Num.isNaN Num.is_zero orb]. rewrite negb_involutive.
  change (Qred (inject_Z 0)) with 0%Q.
  destruct (Qeq_bool q 0) eqn:E; [|reflexivity].
  apply Qeq_bool_iff in E. cbn [orb]. symmetry. apply Q_leb_le.
  rewrite E. apply Qle_refl.
Qed.

(** C1.  The materializers create no expense when the amount is absent
    ([undefined] or [null]), zero, [NaN] or negative: they return without
    a statement being run.  When the amount is a positive number and the
    store accepts the writes, one expense is added for the receipt,
    whether or not vendor and date are present; without a vendor its
    description is "Receipt purchase" and its vendor "Unknown", without
    a date its date is the current date. *)
Theorem materializer_gate rt sto d id db0 :
  (noValidAmount Undefined = true /\ noValidAmount Null = true
   /\ forall q, noValidAmount (VNum (Num.Fin q)) = Num.Q_leb q 0)
  /\
  (noValidAmount (amount d) = true ->
   Server.createExpenseFromExtractedData rt sto d id db0 = (Returns tt, db0)
   /\ Main.createExpenseFromExtractedData rt sto d id db0 = (Returns None, db0))
  /\
  (noValidAmount (amount d) = false -> cooperative sto ->
   forall create,
     create = snd (Server.createExpenseFromExtractedData rt sto d id db0)
     \/ create = snd (Main.createExpenseFromExtractedData rt sto d id db0) ->
     exists e,
       expenses create = (expenses db0 ++ [e])%list
       /\ e_amount e = amount d /\ e_receipt_id e = id
       /\ (truthyText (vendor d) = false ->
           e_description e = "Receipt purchase" /\ e_vendor e = "Unknown")
       /\ (truthyText (date d) = false -> e_date e = today rt)).
Proof.
  split; [|split].
  - repeat split. apply noValidAmount_number.
  - intros H. split; [now apply server_gate | now apply main_gate].
  - intros H Hc create [-> | ->].
    + destruct (server_creates rt sto d id db0 H Hc)
        as (e & -> & Ham & Hid & Hd & Hv & Hdate).
      exists e. cbn [expenses]. repeat split; auto.
      * rewrite Hd. destruct (vendor d) as [| |s]; simpl in *; auto. now rewrite H0.
      * rewrite Hv. destruct (vendor d) as [| |s]; simpl in *; auto. now rewrite H0.
    + destruct (main_creates rt sto d id db0 H Hc)
        as (e & -> & _ & Ham & Hid & Hd & Hv & Hdate).
      exists e. cbn [expenses]. repeat split; auto.
      rewrite Hd. destruct (vendor d) as [| |s]; simpl in *; auto. now rewrite H0.
Qed.

Lemma materializer_gate_witness :
  (Server.createExpenseFromExtractedData Sample.runtime Sample.storage
     noAmount "r1" oneReceipt = (Returns tt, oneReceipt)
   /\ Main.createExpenseFromExtractedData Sample.runtime Sample.storage
        noAmount "r1" oneReceipt = (Returns None, oneReceipt))
  /\ exists e,
       expenses (snd (Main.createExpenseFromExtractedData Sample.runtime
                        Sample.storage amountOnly "r1" oneReceipt))
       = (expenses oneReceipt ++ [e])%list
       /\ e_amount e = amount amountOnly /\ e_receipt_id e = "r1"
       /\ (truthyText (vendor amountOnly) = false ->
           e_description e = "Receipt purchase" /\ e_vendor e = "Unknown")
       /\ (truthyText (date amountOnly) = false ->
           e_date e = today Sample.runtime).
Proof.
  split.
  - apply (proj1 (proj2 (materializer_gate Sample.runtime Sample.storage
                           noAmount "r1" oneReceipt))).
    reflexivity.
  - apply (proj2 (proj2 (materializer_gate Sample.runtime Sample.storage
                           amountOnly "r1" oneReceipt))).
    + reflexivity.
    + repeat split. intros v. exists "category-other". reflexivity.
    + right. reflexivity.
Defined.

(** *** The job record *)
Lemma find_map_update id (f : receipt -> receipt) l :
  (forall r, r_id (f r) = r_id r) ->
  find (fun r => String.eqb (r_id r) id)
       (map (fun r => if String.eqb (r_id r) id then f r else r) l)
  = option_map f (find (fun r => String.eqb (r_id r) id) l).
Proof.
  intros Hf. induction l as [|r l IH]; simpl; auto.
  destruct (String.eqb (r_id r) id) eqn:E.
  - rewrite Hf, E. reflexivity.
  - rewrite E. exact IH.
Qed.

Lemma statusOf_setStatus sto s id d st0 :
  fails sto (SetStatus s) = false -> statusOf id d = Some st0 ->
  exists d', setStatus sto s id d = (Returns tt, d') /\ statusOf id d' = Some s
             /\ expenses d' = expenses d.
Proof.
  intros Hf Hs. unfold setStatus, statement. rewrite Hf.
  eexists. split; [reflexivity|]. split; [|reflexivity].
  unfold statusOf, updateReceipt in *. cbn [receipts].
  rewrite find_map_update by reflexivity.
  destruct (find _ (receipts d)); [reflexivity|discriminate].
Qed.

Lemma statusOf_saveResults sto id text data path d st0 :
  fails sto SaveResults = false -> statusOf id d = Some st0 ->
  exists d', saveResults sto id text data path d = (Returns tt, d')
             /\ statusOf id d' = Some Completed /\ expenses d' = expenses d.
Proof.
  intros Hf Hs. unfold saveResults, statement. rewrite Hf.
  eexists. split; [reflexivity|]. split; [|reflexivity].
  unfold statusOf, updateReceipt in *. cbn [receipts].
  rewrite find_map_update by reflexivity.
  destruct (find _ (receipts d)); [reflexivity|discriminate].
Qed.

Lemma statement_throws sto s w d :
  fails sto s = true -> statement sto s w d = (Throws "SqliteError", d).
Proof. intros H. unfold statement. now rewrite H. Qed.

(** The materializers never throw and never touch the receipts. *)
Lemma server_create_quiet rt sto data id d :
  fst (Server.createExpenseFromExtractedData rt sto data id d) = Returns tt
  /\ receipts (snd (Server.createExpenseFromExtractedData rt sto data id d))
     = receipts d.
Proof.
  unfold Server.createExpenseFromExtractedData, tryCatch, bind, uuid,
    getOrCreateCategory, lift, insertExpense, statement, ret.
  destruct (negb _ || _); cbn; auto.
  destruct (categoryFor sto _); cbn; auto.
  destruct (fails sto AddExpense); cbn; auto.
Qed.

Lemma main_create_quiet rt sto data id d :
  (exists r, fst (Main.createExpenseFromExtractedData rt sto data id d) = Returns r)
  /\ receipts (snd (Main.createExpenseFromExtractedData rt sto data id d))
     = receipts d.
Proof.
  unfold Main.createExpenseFromExtractedData, tryCatch, bind, uuid,
    getOrCreateCategory, lift, insertExpense, statement, selectExpense, ret.
  destruct (negb _ || _); cbn; eauto.
  destruct (categoryFor sto _); cbn; eauto.
  destruct (fails sto AddExpense); cbn; eauto.
  destruct (fails sto FindExpense); cbn; eauto.
Qed.

Lemma statusOf_receipts id d d' :
  receipts d' = receipts d -> statusOf id d' = statusOf id d.
Proof. unfold statusOf. now intros ->. Qed.

Lemma server_job_failed rt sto vendorOf itemsOf acquire id d st0 :
  statusOf id d = Some st0 ->
  fails sto (SetStatus Failed) = false ->
  resultsNotWritten sto acquire ->
  statusOf id (snd (Server.processReceipt rt sto vendorOf itemsOf acquire id d))
  = Some Failed.
Proof.
  intros Hs Hf Hbad. unfold Server.processReceipt, tryCatch, bind.
  destruct (fails sto (SetStatus Processing)) eqn:Ep.
  - unfold setStatus at 1. rewrite statement_throws by assumption.
    destruct (statusOf_setStatus sto Failed id d st0 Hf Hs) as (d' & -> & H & _).
    exact H.
  - destruct (statusOf_setStatus sto Processing id d st0 Ep Hs) as (d1 & -> & H1 & _).
    unfold lift at 1.
    destruct acquire as [[text path]|m].
    + destruct Hbad as [Hb|[[m Hb]|Hb]]; try congruence.
      unfold saveResults at 1. rewrite statement_throws by assumption.
      destruct (statusOf_setStatus sto Failed id d1 _ Hf H1) as (d' & -> & H & _).
      exact H.
    + destruct (statusOf_setStatus sto Failed id d1 _ Hf H1) as (d' & -> & H & _).
      exact H.
Qed.

Lemma server_job_completed rt sto vendorOf itemsOf acquire id d st0 :
  statusOf id d = Some st0 ->
  resultsWritten sto acquire ->
  statusOf id (snd (Server.processReceipt rt sto vendorOf itemsOf acquire id d))
  = Some Completed.
Proof.
  intros Hs (Ep & [[text path] ->] & Er).
  unfold Server.processReceipt, tryCatch, bind.
  destruct (statusOf_setStatus sto Processing id d st0 Ep Hs) as (d1 & -> & H1 & _).
  unfold lift at 1. cbn [fst snd].
  destruct (statusOf_saveResults sto id text
              (Server.extractReceiptData vendorOf itemsOf text) path d1 _ Er H1)
    as (d2 & -> & H2 & _).
  destruct (server_create_quiet rt sto
              (Server.extractReceiptData vendorOf itemsOf text) id d2) as [Hq Hr].
  destruct (Server.createExpenseFromExtractedData rt sto _ id d2) as [res d3].
  cbn [fst snd] in *. subst res. cbn [snd].
  rewrite (statusOf_receipts id d2 d3 Hr). exact H2.
Qed.

Lemma main_job_failed rt sto acquire ready llm id d st0 :
  statusOf id d = Some st0 ->
  fails sto (SetStatus Failed) = false ->
  resultsNotWritten sto acquire ->
  statusOf id (snd (Main.processReceipt rt sto acquire ready llm id d))
  = Some Failed.
Proof.
  intros Hs Hf Hbad. unfold Main.processReceipt, tryCatch, bind.
  destruct (fails sto (SetStatus Processing)) eqn:Ep.
  - unfold setStatus at 1. rewrite statement_throws by assumption.
    destruct (statusOf_setStatus sto Failed id d st0 Hf Hs) as (d' & -> & H & _).
    exact H.
  - destruct (statusOf_setStatus sto Processing id d st0 Ep Hs) as (d1 & -> & H1 & _).
    unfold lift at 1.
    destruct acquire as [[text path]|m].
    + destruct Hbad as [Hb|[[m Hb]|Hb]]; try congruence.
      unfold saveResults at 1. rewrite statement_throws by assumption.
      destruct (statusOf_setStatus sto Failed id d1 _ Hf H1) as (d' & -> & H & _).
      exact H.
    + destruct (statusOf_setStatus sto Failed id d1 _ Hf H1) as (d' & -> & H & _).
      exact H.
Qed.

Lemma main_job_completed rt sto acquire ready llm id d st0 :
  statusOf id d = Some st0 ->
  resultsWritten sto acquire ->
  statusOf id (snd (Main.processReceipt rt sto acquire ready llm id d))
  = Some Completed.
Proof.
  intros Hs (Ep & [[text path] ->] & Er).
  unfold Main.processReceipt, tryCatch, bind.
  destruct (statusOf_setStatus sto Processing id d st0 Ep Hs) as (d1 & -> & H1 & _).
  unfold lift at 1. cbn [fst snd].
  destruct (statusOf_saveResults sto id text
              (Main.extractReceiptDataWithGemma rt ready llm text ready) path d1 _ Er H1)
    as (d2 & -> & H2 & _).
  destruct (main_create_quiet rt sto
              (Main.extractReceiptDataWithGemma rt ready llm text ready) id d2)
    as [[r Hq] Hr].
  destruct (Main.createExpenseFromExtractedData rt sto _ id d2) as [res d3].
  cbn [fst snd] in *. subst res. cbn [snd ret].
  rewrite (statusOf_receipts id d2 d3 Hr). exact H2.
Qed.

Lemma server_create_insert_fails rt sto data id d :
  fails sto AddExpense = true ->
  expenses (snd (Server.createExpenseFromExtractedData rt sto data id d))
  = expenses d.
Proof.
  intros Hf.
  unfold Server.createExpenseFromExtractedData, tryCatch, bind, uuid,
    getOrCreateCategory, lift, insertExpense, statement, ret.
  destruct (negb _ || _); cbn; auto.
  destruct (categoryFor sto _); cbn; auto.
  rewrite Hf. reflexivity.
Qed.

Lemma main_create_insert_fails rt sto data id d :
  fails sto AddExpense = true ->
  fst (Main.createExpenseFromExtractedData rt sto data id d) = Returns None
  /\ expenses (snd (Main.createExpenseFromExtractedData rt sto data id d))
     = expenses d.
Proof.
  intros Hf.
  unfold Main.createExpenseFromExtractedData, tryCatch, bind, uuid,
    getOrCreateCategory, lift, insertExpense, statement, selectExpense, ret.
  destruct (negb _ || _); cbn; auto.
  destruct (categoryFor sto _); cbn; auto.
  rewrite Hf. cbn. auto.
Qed.

Lemma setStatus_failed_outcome sto id d st0 :
  fails sto (SetStatus Failed) = false -> statusOf id d = Some st0 ->
  exists d', setStatus sto Failed id d = (Returns tt, d')
             /\ statusOf id d' = Some Failed /\ expenses d' = expenses d.
Proof. apply statusOf_setStatus. Qed.

(** A job that fails before its results are written: what it leaves and
    what it returns. *)
Lemma server_job_failed_outcome rt sto vendorOf itemsOf acquire id d st0 :
  statusOf id d = Some st0 ->
  fails sto (SetStatus Failed) = false ->
  resultsNotWritten sto acquire ->
  exists d',
    Server.processReceipt rt sto vendorOf itemsOf acquire id d = (Returns tt, d')
    /\ expenses d' = expenses d.
Proof.
  intros Hs Hf Hbad. unfold Server.processReceipt, tryCatch, bind.
  destruct (fails sto (SetStatus Processing)) eqn:Ep.
  - unfold setStatus at 1. rewrite statement_throws by assumption.
    destruct (statusOf_setStatus sto Failed id d st0 Hf Hs) as (d' & -> & _ & H).
    eauto.
  - destruct (statusOf_setStatus sto Processing id d st0 Ep Hs) as (d1 & -> & H1 & E1).
    unfold lift at 1.
    destruct acquire as [[text path]|m].
    + destruct Hbad as [Hb|[[m Hb]|Hb]]; try congruence.
      unfold saveResults at 1. rewrite statement_throws by assumption.
      destruct (statusOf_setStatus sto Failed id d1 _ Hf H1) as (d' & -> & _ & H).
      exists d'. split; congruence.
    + destruct (statusOf_setStatus sto Failed id d1 _ Hf H1) as (d' & -> & _ & H).
      exists d'. split; congruence.
Qed.

Lemma main_job_failed_outcome rt sto acquire ready llm id d st0 :
  statusOf id d = Some st0 ->
  fails sto (SetStatus Failed) = false ->
  resultsNotWritten sto acquire ->
  exists o d',
    Main.processReceipt rt sto acquire ready llm id d = (Returns o, d')
    /\ Main.success o = false /\ Main.expense_made o = None
    /\ expenses d' = expenses d.
Proof.
  intros Hs Hf Hbad. unfold Main.processReceipt, tryCatch, bind.
  destruct (fails sto (SetStatus Processing)) eqn:Ep.
  - unfold setStatus at 1. rewrite statement_throws by assumption.
    destruct (statusOf_setStatus sto Failed id d st0 Hf Hs) as (d' & -> & _ & H).
    unfold ret. eexists. exists d'. repeat split; auto.
  - destruct (statusOf_setStatus sto Processing id d st0 Ep Hs) as (d1 & -> & H1 & E1).
    unfold lift at 1.
    destruct acquire as [[text path]|m].
    + destruct Hbad as [Hb|[[m Hb]|Hb]]; try congruence.
      unfold saveResults at 1. rewrite statement_throws by assumption.
      destruct (statusOf_setStatus sto Failed id d1 _ Hf H1) as (d' & -> & _ & H).
      unfold ret. eexists. exists d'. repeat split; congruence.
    + destruct (statusOf_setStatus sto Failed id d1 _ Hf H1) as (d' & -> & _ & H).
      unfold ret. eexists. exists d'. repeat split; congruence.
Qed.

(** A job whose results are written and whose expense insert throws. *)
Lemma server_job_insert_fails rt sto vendorOf itemsOf acquire id d st0 :
  statusOf id d = Some st0 ->
  resultsWritten sto acquire -> fails sto AddExpense = true ->
  exists d',
    Server.processReceipt rt sto vendorOf itemsOf acquire id d = (Returns tt, d')
    /\ expenses d' = expenses d.
Proof.
  intros Hs (Ep & [[text path] ->] & Er) Hf.
  unfold Server.processReceipt, tryCatch, bind.
  destruct (statusOf_setStatus sto Processing id d st0 Ep Hs) as (d1 & -> & H1 & E1).
  unfold lift at 1. cbn [fst snd].
  destruct (statusOf_saveResults sto id text
              (Server.extractReceiptData vendorOf itemsOf text) path d1 _ Er H1)
    as (d2 & -> & H2 & E2).
  destruct (server_create_quiet rt sto
              (Server.extractReceiptData vendorOf itemsOf text) id d2) as [Hq _].
  pose proof (server_create_insert_fails rt sto
                (Server.extractReceiptData vendorOf itemsOf text) id d2 Hf) as He.
  destruct (Server.createExpenseFromExtractedData rt sto _ id d2) as [res d3].
  cbn [fst snd] in *. subst res. exists d3. split; congruence.
Qed.

Lemma main_job_insert_fails rt sto acquire ready llm id d st0 :
  statusOf id d = Some st0 ->
  resultsWritten sto acquire -> fails sto AddExpense = true ->
  exists o d',
    Main.processReceipt rt sto acquire ready llm id d = (Returns o, d')
    /\ Main.success o = true /\ Main.expense_made o = None
    /\ expenses d' = expenses d.
Proof.
  intros Hs (Ep & [[text path] ->] & Er) Hf.
  unfold Main.processReceipt, tryCatch, bind.
  destruct (statusOf_setStatus sto Processing id d st0 Ep Hs) as (d1 & -> & H1 & E1).
  unfold lift at 1. cbn [fst snd].
  destruct (statusOf_saveResults sto id text
              (Main.extractReceiptDataWithGemma rt ready llm text ready) path d1 _ Er H1)
    as (d2 & -> & H2 & E2).
  destruct (main_create_insert_fails rt sto
              (Main.extractReceiptDataWithGemma rt ready llm text ready) id d2 Hf)
    as [Hq He].
  destruct (Main.createExpenseFromExtractedData rt sto _ id d2) as [res d3].
  cbn [fst snd] in *. subst res. unfold ret.
  eexists. exists d3. repeat split; congruence.
Qed.

(** C7 (as amended).  For a job whose record exists.  When the status
    cannot be set to processing, the text cannot be acquired or the write
    of the results throws, the job ends [failed], provided the write of
    that status succeeds; no expense is created, and the desktop job
    reports a failure without an expense.  When the results are written
    the job ends [completed], whatever happens while the derived expense
    is written.  When the insert of the derived expense throws, the error
    is caught inside the materializer: no expense is created, the desktop
    job reports a success without an expense, and the job is
    [completed]. *)
Theorem job_outcome rt sto vendorOf itemsOf acquire ready llm id d st0 :
  statusOf id d = Some st0 ->
  let server := Server.processReceipt rt sto vendorOf itemsOf acquire id d in
  let main := Main.processReceipt rt sto acquire ready llm id d in
  (fails sto (SetStatus Failed) = false -> resultsNotWritten sto acquire ->
   statusOf id (snd server) = Some Failed /\ statusOf id (snd main) = Some Failed
   /\ expenses (snd server) = expenses d /\ expenses (snd main) = expenses d
   /\ exists o, fst main = Returns o /\ Main.success o = false
                /\ Main.expense_made o = None)
  /\ (resultsWritten sto acquire ->
      statusOf id (snd server) = Some Completed
      /\ statusOf id (snd main) = Some Completed)
  /\ (resultsWritten sto acquire -> fails sto AddExpense = true ->
      expenses (snd server) = expenses d /\ expenses (snd main) = expenses d
      /\ fst server = Returns tt
      /\ exists o, fst main = Returns o /\ Main.success o = true
                   /\ Main.expense_made o = None).
Proof.
  intros Hs. cbv zeta. split; [|split].
  - intros Hf Hbad.
    split; [eapply server_job_failed; eauto|].
    split; [eapply main_job_failed; eauto|].
    destruct (server_job_failed_outcome rt sto vendorOf itemsOf acquire id d st0
                Hs Hf Hbad) as (d1 & -> & He).
    destruct (main_job_failed_outcome rt sto acquire ready llm id d st0 Hs Hf Hbad)
      as (o & d2 & -> & Ho1 & Ho2 & Hm).
    cbn [fst snd]. split; [exact He|]. split; [exact Hm|]. exists o. auto.
  - intros Hok. split.
    + eapply server_job_completed; eauto.
    + eapply main_job_completed; eauto.
  - intros Hok Hf.
    destruct (server_job_insert_fails rt sto vendorOf itemsOf acquire id d st0
                Hs Hok Hf) as (d1 & -> & He).
    destruct (main_job_insert_fails rt sto acquire ready llm id d st0 Hs Hok Hf)
      as (o & d2 & -> & Ho1 & Ho2 & Hm).
    cbn [fst snd]. split; [exact He|]. split; [exact Hm|].
    split; [reflexivity|]. exists o. auto.
Qed.

Lemma job_outcome_witness :
  let acquire := Returns ("Total: $5.75", "r1_processed.png") in
  let server sto :=
    Server.processReceipt Sample.runtime sto (fun _ => None) (fun _ => [])
                          acquire "r1" oneReceipt in
  let main sto :=
    Main.processReceipt Sample.runtime sto acquire false
                        (fun _ => Ollama.FetchRejects) "r1" oneReceipt in
  (statusOf "r1" (snd (server resultsWriteFails)) = Some Failed
   /\ statusOf "r1" (snd (main resultsWriteFails)) = Some Failed
   /\ expenses (snd (server resultsWriteFails)) = []
   /\ expenses (snd (main resultsWriteFails)) = []
   /\ exists o, fst (main resultsWriteFails) = Returns o
                /\ Main.success o = false /\ Main.expense_made o = None)
  /\ (statusOf "r1" (snd (server expenseInsertFails)) = Some Completed
      /\ statusOf "r1" (snd (main expenseInsertFails)) = Some Completed)
  /\ (expenses (snd (server expenseInsertFails)) = []
      /\ expenses (snd (main expenseInsertFails)) = []
      /\ fst (server expenseInsertFails) = Returns tt
      /\ exists o, fst (main expenseInsertFails) = Returns o
                   /\ Main.success o = true /\ Main.expense_made o = None).
Proof.
  intros acquire server main.
  assert (Hw : resultsWritten expenseInsertFails acquire).
  { split; [reflexivity|]. split; [|reflexivity].
    exists ("Total: $5.75", "r1_processed.png"). reflexivity. }
  split; [|split].
  - apply (proj1 (job_outcome Sample.runtime resultsWriteFails
                    (fun _ => None) (fun _ => []) acquire false
                    (fun _ => Ollama.FetchRejects) "r1" oneReceipt Pending
                    eq_refl)).
    + reflexivity.
    + right. right. reflexivity.
  - apply (proj1 (proj2 (job_outcome Sample.runtime expenseInsertFails
                    (fun _ => None) (fun _ => []) acquire false
                    (fun _ => Ollama.FetchRejects) "r1" oneReceipt Pending
                    eq_refl)) Hw).
  - apply (proj2 (proj2 (job_outcome Sample.runtime expenseInsertFails
                    (fun _ => None) (fun _ => []) acquire false
                    (fun _ => Ollama.FetchRejects) "r1" oneReceipt Pending
                    eq_refl)) Hw).
    reflexivity.
Defined.

(** C7, as first stated, fails: the insert of the derived expense throws,
    yet the job ends [completed] and no expense exists. *)
Lemma failed_expense_insert_completes :
  let acquire := Returns ("Total: $5.75", "r1_processed.png") in
  let final :=
    snd (Server.processReceipt Sample.runtime expenseInsertFails
           (fun _ => None) (fun _ => []) acquire "r1" oneReceipt) in
  amount (Server.extractReceiptData (fun _ => None) (fun _ => []) "Total: $5.75")
  = VNum (Num.dec 575 100)
  /\ insertExpense expenseInsertFails
       {| e_id := "e"; e_amount := VNum (Num.dec 575 100);
          e_description := "Receipt purchase"; e_category := "category-other";
          e_date := "2024-01-15"; e_vendor := "Unknown"; e_tags := tags;
          e_receipt_id := "r1" |} oneReceipt
     = (Throws "SqliteError", oneReceipt)
  /\ statusOf "r1" final = Some Completed
  /\ expenses final = [].
Proof. repeat split; vm_compute; reflexivity. Qed.

End MaterializerFacts.

Section ResolverFacts.
Import JS Regex Data Store Pdf.

Lemma append_assoc (a b c : string) : (a ++ b) ++ c = a ++ (b ++ c).
Proof. induction a; simpl; congruence. Qed.

Lemma processPage_text convert e acc prim p :
  fst (Server.processPage convert e (acc, prim) p) = acc ++ contribution convert e p.
Proof.
  unfold Server.processPage, contribution, pageText.
  destruct (convert p) as [[path|]|m]; cbn [fst]; try now rewrite append_nil_r.
  destruct (truthy_str path); cbn [negb fst]; try now rewrite append_nil_r.
  destruct (recognize e path) as [text|m]; cbn [fst]; try now rewrite append_nil_r.
  destruct (0 <? String.length (trim text))%nat; cbn [fst]; auto.
  now rewrite append_nil_r.
Qed.

Lemma fold_pages_text convert e pages : forall acc prim,
  fst (fold_left (Server.processPage convert e) pages (acc, prim))
  = acc ++ concatAll (map (contribution convert e) pages).
Proof.
  induction pages as [|p pages IH]; intros acc prim; cbn [fold_left map concatAll fst].
  - now rewrite append_nil_r.
  - pose proof (processPage_text convert e acc prim p) as Hp.
    destruct (Server.processPage convert e (acc, prim) p) as [acc' prim'].
    cbn [fst] in Hp. subst acc'. rewrite IH, append_assoc. reflexivity.
Qed.

Lemma concat_silent convert e pages :
  (forall p, In p pages -> pageText convert e p = None) ->
  concatAll (map (contribution convert e) pages) = EmptyString.
Proof.
  induction pages as [|p pages IH]; simpl; auto. intros H.
  unfold contribution at 1. rewrite (H p) by auto. simpl. apply IH. auto.
Qed.

Lemma concat_speaks convert e pages :
  (exists p, In p pages /\ pageText convert e p <> None) ->
  exists tail, concatAll (map (contribution convert e) pages) = String "-" tail.
Proof.
  induction pages as [|p pages IH]; intros (q & Hin & Hq); [destruct Hin|].
  simpl. unfold contribution at 1.
  destruct (pageText convert e p) as [t|] eqn:E.
  - unfold Server.pageMarker. simpl. eauto.
  - simpl. apply IH. destruct Hin as [->|Hin]; [congruence|eauto].
Qed.

Lemma trim_keeps_head c s :
  is_space c = false -> truthy_str (trim (String c s)) = true.
Proof. intros H. unfold trim. simpl. rewrite H. simpl. rewrite H. reflexivity. Qed.

Lemma server_pdf_no_text e path text n convert :
  pdfParse e = Returns (text, n) -> hasTextLayer text = false ->
  rasterizer e = Returns convert ->
  (forall p, In p (Server.pagesToRead n) -> pageText convert e p = None) ->
  Server.processPDF e path = Throws noTextMessage.
Proof.
  intros Hp Ht Hr Hall. unfold Server.processPDF. rewrite Hp, Ht, Hr.
  pose proof (fold_pages_text convert e (Server.pagesToRead n) "" "") as Hf.
  destruct (fold_left _ _ _) as [combined prim]. cbn [fst] in Hf.
  rewrite concat_silent in Hf by assumption. subst combined. reflexivity.
Qed.

Lemma server_pdf_some_text e path text n convert :
  pdfParse e = Returns (text, n) -> hasTextLayer text = false ->
  rasterizer e = Returns convert ->
  (exists p, In p (Server.pagesToRead n) /\ pageText convert e p <> None) ->
  exists image,
    Server.processPDF e path
    = Returns (concatAll (map (contribution convert e) (Server.pagesToRead n)),
               image).
Proof.
  intros Hp Ht Hr Hsome. unfold Server.processPDF. rewrite Hp, Ht, Hr.
  pose proof (fold_pages_text convert e (Server.pagesToRead n) "" "") as Hf.
  destruct (fold_left _ _ _) as [combined prim]. cbn [fst] in Hf.
  simpl in Hf. subst combined.
  destruct (concat_speaks convert e _ Hsome) as [tail ->].
  rewrite trim_keeps_head by reflexivity. cbn [negb]. eauto.
Qed.

Lemma main_pdf_total e path : exists r, Main.processPDF e path = Returns r.
Proof.
  unfold Main.processPDF.
  destruct (pdfParse e) as [[text n]|m]; eauto.
  destruct (hasTextLayer text); eauto.
  destruct (rasterizer e) as [convert|m]; eauto.
  destruct (convert 1%nat) as [[p|]|m]; eauto.
  destruct (truthy_str p); cbn [negb]; eauto.
  destruct (recognize e p); eauto.
Qed.

Lemma main_pdf_first_page e path text n convert :
  pdfParse e = Returns (text, n) -> hasTextLayer text = false ->
  rasterizer e = Returns convert ->
  Main.processPDF e path
  = match convert 1%nat with
    | Returns (Some image) =>
        if truthy_str image
        then match recognize e image with
             | Returns pageOne => Returns (pageOne, image)
             | Throws _ => Returns (placeholder, path)
             end
        else Returns (placeholder, path)
    | _ => Returns (placeholder, path)
    end.
Proof.
  intros Hp Ht Hr. unfold Main.processPDF. rewrite Hp, Ht, Hr.
  destruct (convert 1%nat) as [[p|]|m]; auto.
  destruct (truthy_str p); cbn [negb]; auto.
  destruct (recognize e p); auto.
Qed.

Lemma pagesToRead_read n : Server.pagesToRead n = pagesRead n.
Proof.
  unfold Server.pagesToRead, pagesRead.
  destruct (Nat.eqb_spec n 0); f_equal; lia.
Qed.

Lemma contribution_block convert e pages :
  concatAll (map (contribution convert e) pages) = pagesText convert e pages.
Proof.
  reflexivity.
Qed.

Lemma main_pdf_error e path :
  firstPageError e ->
  Main.processPDF e path
  = Returns ("PDF processing failed - please try with an image file", path).
Proof.
  unfold firstPageError, Main.processPDF.
  destruct (pdfParse e) as [[text n]|m]; [|reflexivity].
  intros [-> H].
  destruct (rasterizer e) as [convert|m]; [|reflexivity].
  unfold firstPageFails in H.
  destruct (convert 1%nat) as [[image|]|m]; try reflexivity.
  destruct (truthy_str image); cbn [negb orb] in *; [|reflexivity].
  destruct (recognize e image); [discriminate|reflexivity].
Qed.

Lemma main_pdf_page_one e path text n convert image pageOne :
  pdfParse e = Returns (text, n) -> hasTextLayer text = false ->
  rasterizer e = Returns convert ->
  convert 1%nat = Returns (Some image) -> truthy_str image = true ->
  recognize e image = Returns pageOne ->
  Main.processPDF e path = Returns (pageOne, image).
Proof.
  intros Hp Ht Hr Hc Hi Ho. unfold Main.processPDF.
  now rewrite Hp, Ht, Hr, Hc, Hi, Ho.
Qed.

(** C8 (as amended).  Desktop processor: the resolver never throws;
    when the file cannot be read, the converter cannot be set up or the
    first page cannot be converted or recognized, it returns the
    placeholder text with the path of the PDF, as a success; when the
    first page is recognized it returns the text of that page, blank or
    not, and no other page is read.  HTTP processor: an error of reading
    the file or of setting up the converter is thrown on as it is; with
    the converter set up, when none of the pages read (the first five at
    most) yields OCR text the resolver throws "No text could be extracted
    from any page of the PDF", and when one does the failing pages are
    skipped and the resolver returns the texts of the others in order,
    each under its "--- Page n ---" line. *)
Theorem pdf_resolver_outcomes e path :
  (exists r, Main.processPDF e path = Returns r)
  /\ (firstPageError e ->
      Main.processPDF e path
      = Returns ("PDF processing failed - please try with an image file", path))
  /\ (forall text n convert image pageOne,
        pdfParse e = Returns (text, n) -> hasTextLayer text = false ->
        rasterizer e = Returns convert ->
        convert 1%nat = Returns (Some image) -> truthy_str image = true ->
        recognize e image = Returns pageOne ->
        Main.processPDF e path = Returns (pageOne, image))
  /\ (forall m, pdfParse e = Throws m -> Server.processPDF e path = Throws m)
  /\ (forall text n,
        pdfParse e = Returns (text, n) -> hasTextLayer text = false ->
        (forall m, rasterizer e = Throws m -> Server.processPDF e path = Throws m)
        /\ forall convert,
             rasterizer e = Returns convert ->
             ((forall p, In p (pagesRead n) -> pageText convert e p = None) ->
              Server.processPDF e path
              = Throws "No text could be extracted from any page of the PDF")
             /\ ((exists p, In p (pagesRead n) /\ pageText convert e p <> None) ->
                 exists image,
                   Server.processPDF e path
                   = Returns (pagesText convert e (pagesRead n), image))).
Proof.
  split; [apply main_pdf_total|].
  split; [apply main_pdf_error|].
  split; [apply main_pdf_page_one|].
  split.
  - intros m Hp. unfold Server.processPDF. now rewrite Hp.
  - intros text n Hp Ht. split.
    + intros m Hr. unfold Server.processPDF. now rewrite Hp, Ht, Hr.
    + intros convert Hr. split.
      * intros Hall.
        apply (server_pdf_no_text e path text n convert Hp Ht Hr).
        now rewrite pagesToRead_read.
      * intros Hsome.
        destruct (server_pdf_some_text e path text n convert Hp Ht Hr) as [image H].
        { now rewrite pagesToRead_read. }
        exists image. now rewrite H, contribution_block, pagesToRead_read.
Qed.

Lemma pdf_resolver_outcomes_witness :
  Main.processPDF unreadable "scan.pdf"
  = Returns ("PDF processing failed - please try with an image file", "scan.pdf")
  /\ Main.processPDF noConverter "scan.pdf"
     = Returns ("PDF processing failed - please try with an image file", "scan.pdf")
  /\ Main.processPDF blankPage "scan.pdf" = Returns ("  ", "scan_page.1.png")
  /\ Server.processPDF noConverter "scan.pdf" = Throws "EACCES: permission denied"
  /\ Server.processPDF unreadable "scan.pdf"
     = Throws "No text could be extracted from any page of the PDF"
  /\ exists image,
       Server.processPDF secondPageOnly "scan.pdf"
       = Returns (secondPageBlock, image).
Proof.
  split; [|split; [|split; [|split; [|split]]]].
  - apply (proj1 (proj2 (pdf_resolver_outcomes unreadable "scan.pdf"))).
    split; reflexivity.
  - apply (proj1 (proj2 (pdf_resolver_outcomes noConverter "scan.pdf"))).
    split; [reflexivity|exact I].
  - apply (proj1 (proj2 (proj2 (pdf_resolver_outcomes blankPage "scan.pdf")))
             "" 1%nat (fun _ => Returns (Some "scan_page.1.png")));
      reflexivity.
  - apply (proj1 (proj2 (proj2 (proj2 (proj2
             (pdf_resolver_outcomes noConverter "scan.pdf"))))
             "" 3%nat eq_refl eq_refl)).
    reflexivity.
  - apply (proj1 (proj2 (proj2 (proj2 (proj2 (proj2
             (pdf_resolver_outcomes unreadable "scan.pdf"))))
             "" 1%nat eq_refl eq_refl)
             (fun _ => Throws "render failed") eq_refl)).
    intros p _. reflexivity.
  - apply (proj2 (proj2 (proj2 (proj2 (proj2 (proj2
             (pdf_resolver_outcomes secondPageOnly "scan.pdf"))))
             "" 2%nat eq_refl eq_refl)
             (fun p => if (p =? 2)%nat
                       then Returns (Some "scan_page.2.png")
                       else Throws "render failed") eq_refl)).
    exists 2%nat. split; [right; left; reflexivity | discriminate].
Defined.

(** C8, as first stated, fails on the desktop processor: no page yields
    text, and the resolver returns the placeholder text as a success. *)
Lemma unreadable_pdf_succeeds_on_desktop :
  (forall p, pageText (fun _ => Throws "render failed") unreadable p = None)
  /\ Main.processPDF unreadable "scan.pdf" = Returns (placeholder, "scan.pdf")
  /\ Server.processPDF unreadable "scan.pdf" = Throws noTextMessage.
Proof. repeat split. Qed.

End ResolverFacts.

Section DelegatedFacts.
Import JS Regex Data.

Lemma adapter_null rt isAvailable llm ocrText :
  adapterGivesUp rt isAvailable (llm (Ollama.createExtractionPrompt ocrText)) ->
  Ollama.extractReceiptData rt isAvailable llm ocrText = None.
Proof.
  unfold Ollama.extractReceiptData.
  intros [->|H]; [reflexivity|].
  destruct isAvailable; [|reflexivity]. cbn [negb].
  destruct H as [->|[[s ->]|[->|[->|(response & -> & ->)]]]]; reflexivity.
Qed.

Lemma fallback_is_whole rt isAvailable llm ocrText useLLM :
  useLLM = false
  \/ adapterGivesUp rt isAvailable (llm (Ollama.createExtractionPrompt ocrText)) ->
  Main.extractBeforeValidation rt isAvailable llm ocrText useLLM
  = Main.trySimpleExtraction rt ocrText
  /\ confidence (Main.extractBeforeValidation rt isAvailable llm ocrText useLLM)
     = Num.dec 3 10.
Proof.
  intros H. unfold Main.extractBeforeValidation.
  destruct useLLM.
  - destruct H as [H|H]; [discriminate|].
    rewrite (adapter_null _ _ _ _ H). split; reflexivity.
  - split; reflexivity.
Qed.

Lemma delegated_is_whole rt isAvailable llm ocrText llmData :
  Ollama.extractReceiptData rt isAvailable llm ocrText = Some llmData ->
  Main.extractBeforeValidation rt isAvailable llm ocrText true
  = Main.fromModel ocrText llmData
  /\ confidence (Main.extractBeforeValidation rt isAvailable llm ocrText true)
     = Num.dec 9 10.
Proof.
  intros H. unfold Main.extractBeforeValidation. rewrite H. split; reflexivity.
Qed.

(** A response text that [JSON.parse] rejects is never a failure of the
    adapter: the key-value patterns are run on it and their result, empty
    or not, is handed over. *)
Lemma undecodable_is_handed_over rt llm ocrText response :
  llm (Ollama.createExtractionPrompt ocrText) = Ollama.Body (Some response) ->
  JSON_parse rt (match match1 Ollama.jsonSpan (trim response) with
                 | Some m => m
                 | None => trim response
                 end) = None ->
  Ollama.extractReceiptData rt true llm ocrText
  = Some (Ollama.extractWithRegexFallback rt response).
Proof.
  intros Hl Hj. unfold Ollama.extractReceiptData. cbn [negb]. rewrite Hl.
  unfold Ollama.parseExtractionResponse. rewrite Hj. reflexivity.
Qed.

(** C6.  The model answers with a text that holds no JSON and none of
    the three keys.  [JSON.parse] throws, the key-value patterns find
    nothing, and the adapter still hands over an object, with every field
    [null]: the pipeline takes it as the result of the model, with
    confidence 0.9, and does not run the simple extraction, which on the
    same receipt finds the vendor and the amount at confidence 0.3. *)
Theorem unparseable_reply_is_not_a_fallback :
  let llm := fun _ : string => Ollama.Body (Some sorry) in
  let before := Main.extractBeforeValidation Sample.runtime true llm receiptText true in
  JSON_parse Sample.runtime sorry = None
  /\ Ollama.extractWithRegexFallback Sample.runtime sorry
     = {| Ollama.r_vendor := None; Ollama.r_date := None; Ollama.r_amount := None |}
  /\ before = {| vendor := NullText; date := NullText; amount := Null;
                 confidence := Num.dec 9 10; items := [];
                 rawText := Str receiptText |}
  /\ Main.trySimpleExtraction Sample.runtime receiptText
     = {| vendor := Str "WALMART"; date := NullText;
          amount := VNum (Num.dec 575 100);
          confidence := Num.dec 3 10; items := [];
          rawText := Str receiptText |}
  /\ before <> Main.trySimpleExtraction Sample.runtime receiptText.
Proof.
  cbv zeta. repeat split; try (vm_compute; reflexivity).
  vm_compute. intros E. discriminate E.
Qed.

End DelegatedFacts.

Section LargestFacts.
Import JS Regex Data Server.

Lemma scan_fold lines : forall acc,
  allPrices (fold_left scanLine lines acc) = (allPrices acc ++ detected lines)%list
  /\ explicitTotal (fold_left scanLine lines acc)
     = fold_left (fun acc line =>
                    match lineTotal line with Some t => Some t | None => acc end)
                 (filter notSkipped lines) (explicitTotal acc).
Proof.
  induction lines as [|line lines IH]; intros acc; cbn [fold_left].
  - unfold detected. cbn. rewrite app_nil_r. auto.
  - destruct (IH (scanLine acc line)) as [IHp IHt]. rewrite IHp, IHt.
    unfold detected, scanLine, notSkipped. cbn [filter].
    destruct (skipped line); cbn [negb flat_map fold_left allPrices explicitTotal].
    + auto.
    + rewrite app_assoc. auto.
Qed.

Lemma scanLines_prices lines : allPrices (scanLines lines) = detected lines.
Proof. unfold scanLines. now destruct (scan_fold lines scanStart) as [-> _]. Qed.

Lemma scanLines_total lines : explicitTotal (scanLines lines) = lastTotal lines.
Proof. unfold scanLines. now destruct (scan_fold lines scanStart) as [_ ->]. Qed.

Lemma reasonable_finite n : reasonable n = true -> finite n.
Proof.
  unfold reasonable. intros H. apply andb_true_iff in H as [H0 H1].
  destruct n as [| | |q]; try discriminate. now exists q.
Qed.

Lemma linePrices_reasonable line p :
  In p (linePrices line) -> reasonable (p_price p) = true.
Proof.
  unfold linePrices. rewrite in_flat_map. intros (g & _ & Hp).
  destruct (reasonable (Parse.parseFloat (removeCommas g))) eqn:E.
  - destruct Hp as [<-|[]]. exact E.
  - destruct Hp.
Qed.

Lemma detected_reasonable lines p :
  In p (detected lines) -> reasonable (p_price p) = true.
Proof.
  unfold detected. rewrite in_flat_map. intros (line & _ & Hp).
  eapply linePrices_reasonable; eauto.
Qed.

Lemma leb_refl_fin n : finite n -> Num.leb n n = true.
Proof.
  intros [q ->]. unfold Num.leb. apply Q_leb_le. apply Qle_refl.
Qed.

Lemma leb_total_fin a b : finite a -> finite b -> Num.leb a b = false -> Num.leb b a = true.
Proof.
  intros [x ->] [y ->]. unfold Num.leb. rewrite Q_leb_gt, Q_leb_le. apply Qlt_le_weak.
Qed.

Lemma leb_trans_fin a b c :
  finite a -> finite b -> finite c ->
  Num.leb a b = true -> Num.leb b c = true -> Num.leb a c = true.
Proof.
  intros [x ->] [y ->] [z ->]. unfold Num.leb. rewrite !Q_leb_le. apply Qle_trans.
Qed.

(** The head of the sorted list is a largest entry. *)
Lemma sortDesc_head l :
  (forall p, In p l -> finite (p_price p)) ->
  match sortDesc l with
  | [] => l = []
  | m :: _ => In m l /\ forall p, In p l -> Num.leb (p_price p) (p_price m) = true
  end.
Proof.
  induction l as [|x l IH]; intros Hfin; cbn [sortDesc fold_right]; auto.
  fold (sortDesc l).
  assert (Hl : forall p, In p l -> finite (p_price p)) by (intros; apply Hfin; now right).
  specialize (IH Hl).
  assert (Hx : finite (p_price x)) by (apply Hfin; now left).
  destruct (sortDesc l) as [|m s]; cbn [insertDesc].
  - subst l. split; [now left|]. intros p [<-|[]]. now apply leb_refl_fin.
  - destruct IH as [Hm Hmax].
    destruct (Num.leb (p_price m) (p_price x)) eqn:E.
    + split; [now left|]. intros p [<-|Hp]; [now apply leb_refl_fin|].
      apply leb_trans_fin with (b := p_price m); auto.
    + split; [now right|]. intros p [<-|Hp]; auto.
      apply leb_total_fin; auto.
Qed.

Lemma sortDesc_in l p : In p (sortDesc l) -> In p l.
Proof.
  revert p. induction l as [|x l IH]; cbn [sortDesc fold_right]; auto.
  fold (sortDesc l). intros p.
  assert (Hins : forall s, In p (insertDesc x s) -> p = x \/ In p s).
  { induction s as [|y s IHs]; cbn [insertDesc].
    - intros [<-|[]]. now left.
    - destruct (Num.leb (p_price y) (p_price x)).
      + intros [<-|H]; auto.
      + intros [<-|H]; [right; now left|].
        destruct (IHs H); auto. right. now right. }
  intros H. destruct (Hins _ H) as [->|H']; [now left|right; auto].
Qed.

Lemma filter_none {X : Type} (f : X -> bool) (l : list X) :
  (forall x, In x l -> f x = false) -> filter f l = [].
Proof.
  induction l as [|x l IH]; cbn; auto. intros H.
  rewrite (H x) by now left. apply IH. intros; apply H; now right.
Qed.

Lemma lastTotal_none lines :
  (forall line, In line lines -> skipped line = false -> lineTotal line = None) ->
  lastTotal lines = None.
Proof.
  unfold lastTotal. intros H.
  assert (G : forall l acc, (forall line, In line l -> lineTotal line = None) ->
              fold_left (fun acc line =>
                 match lineTotal line with Some t => Some t | None => acc end) l acc = acc).
  { induction l as [|x l IH]; cbn; auto. intros acc Hl.
    rewrite (Hl x) by now left. apply IH. intros; apply Hl; now right. }
  apply G. intros line Hin. apply filter_In in Hin as [Hin Hs].
  apply H; auto. unfold notSkipped in Hs. now apply negb_true_iff in Hs.
Qed.

(** When no line that is read carries an explicit total and no
    detected amount sits on a line with "total", "amount due" or
    "balance", the amount selected is a largest of the detected amounts
    (money figures of the lines that are read, above 0 and below 10000);
    with no detected amount, no amount is set. *)
Lemma largest_detected_wins vendorOf itemsOf ocrText :
  (forall line, In line (linesOf ocrText) -> skipped line = false ->
                lineTotal line = None) ->
  (forall p, In p (detectedPrices ocrText) -> isLikelyTotal p = false) ->
  match detectedPrices ocrText with
  | [] => amount (extractReceiptData vendorOf itemsOf ocrText) = Undefined
  | _ :: _ =>
      exists m,
        In m (detectedPrices ocrText)
        /\ amount (extractReceiptData vendorOf itemsOf ocrText) = VNum (p_price m)
        /\ forall p, In p (detectedPrices ocrText) ->
                     Num.leb (p_price p) (p_price m) = true
  end.
Proof.
  intros Hnone Hplain. unfold extractReceiptData. cbn [amount].
  unfold selectAmount. rewrite scanLines_total, scanLines_prices.
  rewrite (lastTotal_none _ Hnone). fold (detectedPrices ocrText).
  destruct (detectedPrices ocrText) as [|p0 ps] eqn:E; [reflexivity|].
  rewrite <- E in *.
  assert (Hfin : forall p, In p (detectedPrices ocrText) -> finite (p_price p)).
  { intros p Hp. apply reasonable_finite. eapply detected_reasonable. exact Hp. }
  rewrite filter_none by (intros x Hx; apply Hplain; now apply sortDesc_in).
  pose proof (sortDesc_head (detectedPrices ocrText) Hfin) as Hh.
  destruct (sortDesc (detectedPrices ocrText)) as [|m s].
  - rewrite Hh in E. discriminate.
  - destruct Hh as [Hm Hmax]. exists m. auto.
Qed.

Lemma largest_amount_example :
  amount (extractReceiptData (fun _ => None) (fun _ => []) threeFigures)
  = VNum (Num.of_Z 15).
Proof. reflexivity. Qed.

End LargestFacts.

Section TotalFacts.
Import JS Regex Data Server.

(** *** Stepping the matcher *)
Section Steps.
Variable A : Type.
Implicit Types (k : cont A) (st : mstate).

Lemma step_cls p c s o cl k x :
  p c = true ->
  k {| rest := s; opened := push c o; closed := cl |} = Some x ->
  run (Cls p) {| rest := String c s; opened := o; closed := cl |} k = Some x.
Proof. intros Hp Hk. cbn. now rewrite Hp. Qed.

Lemma step_seq a b st k x :
  run a st (fun st' => run b st' k) = Some x -> run (Seq a b) st k = Some x.
Proof. auto. Qed.

Lemma step_alt_left a b st k x :
  run a st k = Some x -> run (Alt a b) st k = Some x.
Proof. intros H. cbn. now rewrite H. Qed.

Lemma step_grp i a st k x :
  run a (open_cap i st) (fun st' => k (close_cap st')) = Some x ->
  run (Grp i a) st k = Some x.
Proof. auto. Qed.

(** A quantified pattern whose body cannot start here matches the empty
    string. *)
Lemma step_rep_skip a hi st k x :
  (forall d : cont A, run a st d = None) ->
  k st = Some x ->
  run (Rep 0 hi a) st k = Some x.
Proof.
  intros Hno Hk. cbn [run].
  destruct (0 + String.length (rest st))%nat; destruct hi as [[|h]|]; cbn; auto;
    now rewrite Hno.
Qed.

(** The matcher only uses its continuation through its values. *)
Lemma rep_loop_ext (step : mstate -> cont A -> option A) :
  (forall st k1 k2, (forall s, k1 s = k2 s) -> step st k1 = step st k2) ->
  forall fuel lo hi st k1 k2,
    (forall s, k1 s = k2 s) ->
    rep_loop step fuel lo hi st k1 = rep_loop step fuel lo hi st k2.
Proof.
  intros Hstep. induction fuel as [|fuel IH]; intros lo hi st k1 k2 Hk.
  - destruct hi as [[|h]|]; cbn; rewrite Hk; reflexivity.
  - assert (Hd : forall s,
             (if (lo =? 0)%nat && (String.length (rest s) =? String.length (rest st))%nat
              then None
              else rep_loop step fuel (pred lo) (option_map pred hi) s k1)
             = (if (lo =? 0)%nat && (String.length (rest s) =? String.length (rest st))%nat
                then None
                else rep_loop step fuel (pred lo) (option_map pred hi) s k2)).
    { intros s. destruct (_ && _); auto. }
    destruct hi as [[|h]|]; cbn [rep_loop]; try apply Hk;
      rewrite (Hstep st _ _ Hd), Hk; reflexivity.
Qed.

Lemma run_ext a : forall st k1 k2,
  (forall s, k1 s = k2 s) -> run a st k1 = run a st k2.
Proof.
  induction a as [p| |a IHa b IHb|a IHa b IHb|lo hi a IHa|i a IHa|];
    intros st k1 k2 Hk; cbn [run].
  - destruct (rest st) as [|c s]; auto. destruct (p c); auto.
  - apply Hk.
  - apply IHa. intros s. now apply IHb.
  - rewrite (IHa st k1 k2 Hk), (IHb st k1 k2 Hk). reflexivity.
  - apply rep_loop_ext; auto.
  - apply IHa. intros s. apply Hk.
  - destruct (rest st); auto.
Qed.

Lemma rep_loop_done (step : mstate -> cont A -> option A) fuel lo st k :
  rep_loop step fuel lo (Some 0%nat) st k = k st.
Proof. destruct fuel; reflexivity. Qed.

(** An optional pattern whose body matches a non-empty prefix. *)
Lemma step_opt_take a st k x :
  (0 < String.length (rest st))%nat ->
  run a st (fun st' =>
              if (String.length (rest st') =? String.length (rest st))%nat
              then None else k st') = Some x ->
  run (Rep 0 (Some 1) a) st k = Some x.
Proof.
  intros Hlen Hrun. cbn [run].
  destruct (0 + String.length (rest st))%nat as [|fuel] eqn:E; [simpl in E; lia|].
  cbn [rep_loop Nat.eqb andb option_map pred].
  erewrite run_ext; [rewrite Hrun; reflexivity|].
  intros s. cbv beta. destruct (_ =? _)%nat; auto. apply rep_loop_done.
Qed.
End Steps.

Lemma pushs_single s i acc : pushs s [(i, acc)] = [(i, acc ++ s)].
Proof.
  revert acc. induction s as [|c s IH]; intros acc; cbn [pushs push map fst snd].
  - now rewrite append_nil_r.
  - rewrite IH, append_assoc. reflexivity.
Qed.

Lemma digit_not_space c : is_digit c = true -> is_space c = false.
Proof. by_char c. Qed.

Lemma digit_not_comma c : is_digit c = true -> chr "," c = false.
Proof. by_char c. Qed.

Lemma digit_plain c :
  is_digit c = true ->
  chr "-" c = false /\ chr "+" c = false /\ chr "." c = false
  /\ Ascii.eqb c "I" = false.
Proof. by_char c. Qed.

Lemma search_hit r s st : exec r s = Some st -> search r s = Some st.
Proof. intros H. destruct s; cbn [search]; now rewrite H. Qed.

Lemma eqb_succ3 n : (n =? S (S (S n)))%nat = false.
Proof. apply Nat.eqb_neq. lia. Qed.

Lemma total_exec D c1 c2 trail :
  forall_str is_digit D = true ->
  (1 <= String.length D <= 4)%nat ->
  is_digit c1 = true -> is_digit c2 = true ->
  exec totalRegex ("Total: $" ++ D ++ "." ++ String c1 (String c2 trail))
  = Some {| rest := trail; opened := [];
            closed := [(1%nat, D ++ "." ++ String c1 (String c2 ""))] |}.
Proof.
  intros HD Hlen H1 H2.
  destruct D as [|d0 D']; [simpl in Hlen; lia|].
  assert (Hd0 : is_digit d0 = true) by (simpl in HD; now apply andb_true_iff in HD).
  unfold exec, start, totalRegex. cbn [seqs append].
  apply step_seq. unfold totalLabel. cbn [alts lit_i]. apply step_alt_left.
  do 4 (apply step_seq; apply step_cls; [reflexivity|]; cbv beta).
  apply step_cls; [reflexivity|]. cbn [push map].
  apply step_seq.
  eapply run_rep_cls with (s := ": ") (r := String "$" _);
    [reflexivity | cbn; lia | exact I | right; reflexivity |].
  cbn [pushs]. cbv beta.
  apply step_seq.
  eapply run_rep_cls with (s := "$") (r := String d0 _);
    [reflexivity | cbn; lia | cbn; lia | left; reflexivity |].
  cbn [pushs]. cbv beta.
  apply step_seq.
  eapply run_rep_cls with (s := "") (r := String d0 _);
    [reflexivity | cbn; lia | exact I | right; cbn; now apply digit_not_space |].
  cbn [pushs]. cbv beta.
  apply step_grp. unfold open_cap. cbn [rest opened closed].
  unfold moneyBody. cbn [seqs]. apply step_seq.
  eapply run_rep_cls with (s := String d0 D') (r := String "." _);
    [exact HD | lia | lia | right; reflexivity |].
  rewrite pushs_single. cbv beta.
  apply step_seq.
  apply step_rep_skip; [intros d; reflexivity|].
  apply step_opt_take; [cbn; lia|].
  cbn [seqs]. apply step_seq. apply step_cls; [reflexivity|]. cbv beta.
  cbn [push map fst snd].
  eapply run_rep_cls with (s := String c1 (String c2 "")) (r := trail);
    [cbn; now rewrite H1, H2 | cbn; lia | cbn; lia | left; reflexivity |].
  rewrite pushs_single. cbn [rest String.length]. rewrite eqb_succ3.
  unfold close_cap. cbn [opened rest closed filter].
  rewrite !append_assoc. reflexivity.
Qed.

Lemma digit_char_ok v :
  (0 <= v <= 9)%Z ->
  is_digit (Show.digit_char v) = true /\ Parse.digit_val (Show.digit_char v) = v.
Proof.
  intros Hv.
  assert (v = 0 \/ v = 1 \/ v = 2 \/ v = 3 \/ v = 4 \/ v = 5 \/ v = 6
          \/ v = 7 \/ v = 8 \/ v = 9)%Z as Hc by lia.
  repeat (destruct Hc as [->|Hc]; [split; reflexivity|]). subst. split; reflexivity.
Qed.

Lemma forall_str_app p s r :
  forall_str p (s ++ r) = forall_str p s && forall_str p r.
Proof. induction s as [|c s IH]; cbn; auto. rewrite IH. now rewrite andb_assoc. Qed.

Lemma digits_from_acc fuel : forall z acc,
  Show.digits_from fuel z acc = Show.digits_from fuel z "" ++ acc.
Proof.
  induction fuel as [|fuel IH]; intros z acc; cbn [Show.digits_from].
  - reflexivity.
  - destruct (z <? 10)%Z; [reflexivity|].
    rewrite (IH (z / 10)%Z (String _ acc)), (IH (z / 10)%Z (String _ "")).
    rewrite append_assoc. reflexivity.
Qed.

Lemma digits_val_snoc s c : forall v,
  Parse.digits_val_from v (s ++ String c "")
  = (10 * Parse.digits_val_from v s + Parse.digit_val c)%Z.
Proof.
  induction s as [|a s IH]; intros v; cbn [append Parse.digits_val_from].
  - reflexivity.
  - apply IH.
Qed.

Lemma length_snoc s c : String.length (s ++ String c "") = S (String.length s).
Proof. rewrite length_append. cbn. lia. Qed.

(** Printing with enough fuel yields the decimal digits of the number:
    they read back as the number, and there are at most [k] of them when
    the number is below [10^k]. *)
Lemma digits_from_ok fuel : forall z k,
  (0 <= z < 10 ^ Z.of_nat (S fuel))%Z -> (0 < k)%nat -> (z < 10 ^ Z.of_nat k)%Z ->
  let D := Show.digits_from fuel z "" in
  forall_str is_digit D = true
  /\ (1 <= String.length D <= k)%nat
  /\ Parse.digits_val D = z.
Proof.
  induction fuel as [|fuel IH]; intros z k Hz Hk Hzk; cbn [Show.digits_from].
  - change (10 ^ Z.of_nat 1)%Z with 10%Z in Hz.
    rewrite Z.mod_small by lia.
    destruct (digit_char_ok z) as [Hd Hv]; [lia|].
    cbn [forall_str String.length]. rewrite Hd. repeat split; try lia.
    unfold Parse.digits_val. cbn [Parse.digits_val_from]. lia.
  - destruct (Z.ltb_spec z 10) as [Hs|Hs].
    + rewrite Z.mod_small by lia.
      destruct (digit_char_ok z) as [Hd Hv]; [lia|].
      cbn [forall_str String.length]. rewrite Hd. repeat split; try lia.
      unfold Parse.digits_val. cbn [Parse.digits_val_from]. lia.
    + rewrite digits_from_acc.
      pose proof (Z.div_mod z 10 ltac:(lia)) as Ediv.
      pose proof (Z.mod_pos_bound z 10 ltac:(lia)) as Bmod.
      destruct k as [|k]; [lia|].
      destruct k as [|k].
      { change (10 ^ Z.of_nat 1)%Z with 10%Z in Hzk. lia. }
      assert (Hq : (0 <= z / 10 < 10 ^ Z.of_nat (S fuel))%Z).
      { rewrite (Nat2Z.inj_succ (S fuel)), Z.pow_succ_r in Hz by lia. split.
        - apply Z.div_pos; lia.
        - apply Z.div_lt_upper_bound; lia. }
      assert (Hqk : (z / 10 < 10 ^ Z.of_nat (S k))%Z).
      { rewrite (Nat2Z.inj_succ (S k)), Z.pow_succ_r in Hzk by lia.
        apply Z.div_lt_upper_bound; lia. }
      destruct (IH (z / 10)%Z (S k) Hq ltac:(lia) Hqk) as (HD & Hlen & Hval).
      destruct (digit_char_ok (z mod 10)) as [Hd Hv]; [lia|].
      rewrite forall_str_app, HD. cbn [forall_str]. rewrite Hd.
      rewrite length_snoc. repeat split; try lia.
      unfold Parse.digits_val in *. rewrite digits_val_snoc, Hval, Hv. lia.
Qed.

Lemma digits_ok n :
  (0 <= n < 10000)%Z ->
  forall_str is_digit (Show.digits n) = true
  /\ (1 <= String.length (Show.digits n) <= 4)%nat
  /\ Parse.digits_val (Show.digits n) = n.
Proof.
  intros Hn. unfold Show.digits.
  apply (digits_from_ok (Z.to_nat (Z.log2 n)) n 4); try lia.
  destruct (Z.eq_dec n 0) as [->|Hne]; [cbn; lia|].
  split; [lia|].
  pose proof (Z.log2_spec n ltac:(lia)) as [_ Hlog].
  pose proof (Z.log2_nonneg n) as Hnn.
  rewrite Nat2Z.inj_succ, Z2Nat.id by lia.
  eapply Z.lt_le_trans; [exact Hlog|].
  apply Z.pow_le_mono_l. lia.
Qed.

Lemma filter_str_all p s : forall_str p s = true -> filter_str p s = s.
Proof.
  induction s as [|c s IH]; cbn; auto. intros H.
  apply andb_true_iff in H as [-> Hs]. now rewrite IH.
Qed.

Lemma span_app p s r :
  forall_str p s = true -> stops p r -> Parse.span p (s ++ r) = (s, r).
Proof.
  intros Hs Hr. induction s as [|c s IH]; cbn.
  - destruct r as [|a r]; auto. cbn in Hr |- *. now rewrite Hr.
  - cbn in Hs. apply andb_true_iff in Hs as [-> Hs]. now rewrite IH.
Qed.

Lemma prefix_Infinity c s :
  is_digit c = true -> String.prefix "Infinity" (String c s) = false.
Proof.
  revert s. by_char c.
Qed.

Lemma parse_money D c1 c2 :
  forall_str is_digit D = true -> (1 <= String.length D)%nat ->
  is_digit c1 = true -> is_digit c2 = true ->
  Parse.parseFloat (removeCommas (D ++ "." ++ String c1 (String c2 "")))
  = Num.dec (Parse.digits_val D * 100
             + (10 * Parse.digit_val c1 + Parse.digit_val c2)) 100.
Proof.
  intros HD Hlen H1 H2.
  assert (Hnc : forall_str (fun c => negb (chr "," c))
                  (D ++ "." ++ String c1 (String c2 "")) = true).
  { rewrite forall_str_app. apply andb_true_iff. split.
    - revert HD. apply forall_str_impl. intros c Hc. now rewrite digit_not_comma.
    - cbn [forall_str append].
      rewrite (digit_not_comma c1 H1), (digit_not_comma c2 H2). reflexivity. }
  unfold removeCommas. rewrite filter_str_all by assumption.
  destruct D as [|d0 D']; [cbn in Hlen; lia|].
  assert (Hd0 : is_digit d0 = true) by (cbn in HD; now apply andb_true_iff in HD).
  destruct (digit_plain d0 Hd0) as (Hm & Hp & _ & _).
  unfold Parse.parseFloat. cbn [append trimStart]. rewrite (digit_not_space d0 Hd0).
  unfold Parse.decimalLiteral. rewrite Hm, Hp, prefix_Infinity by assumption.
  change (String d0 (D' ++ String "." (String c1 (String c2 ""))))
    with (String d0 D' ++ String "." (String c1 (String c2 ""))).
  rewrite span_app by (auto; reflexivity).
  change (chr "." "."%char) with true. cbv iota.
  change (String c1 (String c2 "")) with (String c1 (String c2 "") ++ "").
  rewrite span_app by (cbn; rewrite ?H1, ?H2; auto; exact I).
  cbn [is_empty andb Parse.exponent String.length Parse.scale10].
  unfold Num.dec, Num.of_Q. f_equal. apply Qred_complete.
  unfold Parse.digits_val. cbn [Parse.digits_val_from].
  change (Parse.pow10 2) with 100%Z. cbn [Z.to_pos].
  rewrite Qmult_1_r. 
  replace (10 * (10 * 0 + Parse.digit_val c1) + Parse.digit_val c2)%Z
    with (10 * Parse.digit_val c1 + Parse.digit_val c2)%Z by lia.
  reflexivity.
Qed.

Lemma money_parts c :
  (0 <= c < 1000000)%Z ->
  exists D c1 c2,
    money c = D ++ "." ++ String c1 (String c2 "")
    /\ forall_str is_digit D = true
    /\ (1 <= String.length D <= 4)%nat
    /\ is_digit c1 = true /\ is_digit c2 = true
    /\ (Parse.digits_val D * 100
        + (10 * Parse.digit_val c1 + Parse.digit_val c2))%Z = c.
Proof.
  intros Hc.
  pose proof (Z.div_mod c 100 ltac:(lia)) as E100.
  pose proof (Z.mod_pos_bound c 100 ltac:(lia)) as B100.
  pose proof (Z.div_mod (c mod 100) 10 ltac:(lia)) as E10.
  pose proof (Z.mod_pos_bound (c mod 100) 10 ltac:(lia)) as B10.
  assert (M : ((c mod 100) mod 10 = c mod 10)%Z).
  { apply Z.mod_mod_divide. exists 10%Z. reflexivity. }
  rewrite M in *.
  destruct (digits_ok (c / 100)) as (HD & Hlen & Hval); [lia|].
  destruct (digit_char_ok (c mod 100 / 10)) as [H1 V1]; [lia|].
  destruct (digit_char_ok (c mod 10)) as [H2 V2]; [lia|].
  exists (Show.digits (c / 100)), (Show.digit_char (c mod 100 / 10)),
         (Show.digit_char (c mod 10)).
  repeat split; auto; try lia.
Qed.

Lemma dec_reasonable c :
  (0 < c < 1000000)%Z -> reasonable (Num.dec c 100) = true.
Proof.
  intros Hc. unfold reasonable, Num.gtb, Num.ltb, Num.dec, Num.of_Z, Num.of_Q.
  apply andb_true_iff. rewrite !Q_ltb_lt, !Qred_correct.
  unfold Qlt. cbn. lia.
Qed.

Lemma dec_truthy c : (0 < c)%Z -> Num.truthy (Num.dec c 100) = true.
Proof.
  intros Hc. unfold Num.truthy, Num.dec, Num.of_Q. cbn [Num.isNaN Num.is_zero orb].
  apply negb_true_iff. apply not_true_iff_false. intros E.
  apply Qeq_bool_iff in E. rewrite Qred_correct in E.
  unfold Qeq in E. cbn in E. lia.
Qed.

Lemma totalLine_total c trail :
  (0 < c < 1000000)%Z -> lineTotal (totalLine c trail) = Some (Num.dec c 100).
Proof.
  intros Hc.
  destruct (money_parts c) as (D & c1 & c2 & Hm & HD & Hlen & H1 & H2 & Hval); [lia|].
  unfold lineTotal, totalLine, match1. rewrite Hm.
  replace ("Total: $" ++ (D ++ "." ++ String c1 (String c2 "")) ++ trail)
    with ("Total: $" ++ D ++ "." ++ String c1 (String c2 trail)).
  2:{ rewrite (append_assoc D). reflexivity. }
  rewrite (search_hit _ _ _ (total_exec D c1 c2 trail HD Hlen H1 H2)).
  cbn [group1 group closed lookup fst snd Nat.eqb].
  rewrite parse_money by (auto; lia). rewrite Hval.
  now rewrite dec_reasonable.
Qed.

Lemma totalLine_read c trail : skipped (totalLine c trail) = false.
Proof.
  unfold totalLine, skipped.
  set (tail := money c ++ trail).
  change (trim ("Total: $" ++ tail))
    with (String "T" (String "o" (trimEnd ("tal: $" ++ tail)))).
  reflexivity.
Qed.

Lemma fold_totals_none (l : list string) (acc : option Num.num) :
  (forall line, In line l -> lineTotal line = None) ->
  fold_left (fun acc line =>
               match lineTotal line with Some t => Some t | None => acc end) l acc
  = acc.
Proof.
  revert acc. induction l as [|x l IH]; cbn; auto. intros acc Hl.
  rewrite (Hl x) by now left. apply IH. intros; apply Hl; now right.
Qed.

Lemma lastTotal_after pre line post t :
  skipped line = false -> lineTotal line = Some t ->
  (forall l, In l post -> skipped l = false -> lineTotal l = None) ->
  lastTotal (pre ++ line :: post) = Some t.
Proof.
  intros Hs Ht Hpost. unfold lastTotal.
  assert (Hr : notSkipped line = true) by (unfold notSkipped; now rewrite Hs).
  rewrite filter_app, fold_left_app. cbn [filter].
  rewrite Hr. cbn [fold_left]. rewrite Ht.
  apply fold_totals_none. intros l Hin.
  apply filter_In in Hin as [Hin Hn]. apply Hpost; auto.
  unfold notSkipped in Hn. now apply negb_true_iff in Hn.
Qed.

(** C3, as first stated, fails at 10000: written "10,000.00" the total
    is refused by the test [foundTotal < 10000] and no amount is set;
    written "10000.00" the pattern captures "1000". *)
Lemma total_of_ten_thousand :
  amount (extractReceiptData (fun _ => None) (fun _ => []) "Total: $10,000.00")
  = Undefined
  /\ amount (extractReceiptData (fun _ => None) (fun _ => []) "Total: $10000.00")
     = VNum (Num.of_Z 1000).
Proof. split; reflexivity. Qed.

(** A later label line replaces the total of an earlier one. *)
Lemma later_label_wins :
  amount (extractReceiptData (fun _ => None) (fun _ => []) totalThenSubtotal)
  = VNum (Num.of_Z 5).
Proof. reflexivity. Qed.

End TotalFacts.

Section GroupedFacts.
Import JS Regex Data Server.

Lemma rep_loop_skip (A : Type) (step : mstate -> cont A -> option A) fuel hi st k :
  (forall d, step st d = None) ->
  rep_loop step fuel 0 hi st k = k st.
Proof.
  intros Hno. destruct fuel; destruct hi as [[|h]|]; cbn; auto; now rewrite Hno.
Qed.

Lemma step_star_take (A : Type) a st (k : cont A) x fuel :
  String.length (rest st) = S fuel ->
  run a st (fun st' =>
              if (String.length (rest st') =? String.length (rest st))%nat
              then None else rep_loop (run a) fuel 0 None st' k) = Some x ->
  run (Rep 0 None a) st k = Some x.
Proof.
  intros Hlen Hrun. cbn [run]. cbn [Nat.add]. rewrite Hlen.
  cbn [rep_loop Nat.eqb andb option_map pred]. now rewrite Hrun.
Qed.

Lemma eqb_succ4 n m : (n =? S (S (S (S (n + m)))))%nat = false.
Proof. apply Nat.eqb_neq. lia. Qed.

(** The same capture when the thousands are set apart by a comma. *)
Lemma total_exec_grouped d0 t1 t2 t3 c1 c2 trail :
  is_digit d0 = true -> is_digit t1 = true -> is_digit t2 = true ->
  is_digit t3 = true -> is_digit c1 = true -> is_digit c2 = true ->
  let body :=
    String d0 (String "," (String t1 (String t2 (String t3
      (String "." (String c1 (String c2 ""))))))) in
  exec totalRegex ("Total: $" ++ body ++ trail)
  = Some {| rest := trail; opened := []; closed := [(1%nat, body)] |}.
Proof.
  intros Hd0 Ht1 Ht2 Ht3 H1 H2 body. unfold body.
  unfold exec, start, totalRegex. cbn [seqs append].
  apply step_seq. unfold totalLabel. cbn [alts lit_i]. apply step_alt_left.
  do 4 (apply step_seq; apply step_cls; [reflexivity|]; cbv beta).
  apply step_cls; [reflexivity|]. cbn [push map].
  apply step_seq.
  eapply run_rep_cls with (s := ": ") (r := String "$" _);
    [reflexivity | cbn; lia | exact I | right; reflexivity |].
  cbn [pushs]. cbv beta.
  apply step_seq.
  eapply run_rep_cls with (s := "$") (r := String d0 _);
    [reflexivity | cbn; lia | cbn; lia | left; reflexivity |].
  cbn [pushs]. cbv beta.
  apply step_seq.
  eapply run_rep_cls with (s := "") (r := String d0 _);
    [reflexivity | cbn; lia | exact I | right; cbn; now apply digit_not_space |].
  cbn [pushs]. cbv beta.
  apply step_grp. unfold open_cap. cbn [rest opened closed].
  unfold moneyBody. cbn [seqs]. apply step_seq.
  eapply run_rep_cls with (s := String d0 "") (r := String "," _);
    [cbn; now rewrite Hd0 | cbn; lia | cbn; lia | right; reflexivity |].
  rewrite pushs_single. cbv beta.
  apply step_seq.
  eapply step_star_take; [cbn [rest String.length]; reflexivity|].
  apply step_seq. apply step_cls; [reflexivity|]. cbv beta. cbn [push map fst snd].
  eapply run_rep_cls with (s := String t1 (String t2 (String t3 "")))
                          (r := String "." _);
    [cbn; now rewrite Ht1, Ht2, Ht3 | cbn; lia | cbn; lia | left; reflexivity |].
  rewrite pushs_single. cbn [rest String.length].
  match goal with
  | |- context [(?a =? ?b)%nat] =>
      replace (a =? b)%nat with false by (symmetry; apply Nat.eqb_neq; lia)
  end.
  rewrite rep_loop_skip by (intros d; reflexivity).
  apply step_opt_take; [cbn; lia|].
  apply step_seq. apply step_cls; [reflexivity|]. cbv beta.
  cbn [push map fst snd].
  eapply run_rep_cls with (s := String c1 (String c2 "")) (r := trail);
    [cbn; now rewrite H1, H2 | cbn; lia | cbn; lia | left; reflexivity |].
  rewrite pushs_single. cbn [rest String.length]. rewrite eqb_succ3.
  unfold close_cap. cbn [opened rest closed filter append].
  reflexivity.
Qed.

Lemma parse_plain D c1 c2 :
  forall_str is_digit D = true -> (1 <= String.length D)%nat ->
  is_digit c1 = true -> is_digit c2 = true ->
  Parse.parseFloat (D ++ "." ++ String c1 (String c2 ""))
  = Num.dec (Parse.digits_val D * 100
             + (10 * Parse.digit_val c1 + Parse.digit_val c2)) 100.
Proof.
  intros HD Hlen H1 H2. rewrite <- (parse_money D c1 c2 HD Hlen H1 H2).
  unfold removeCommas. rewrite filter_str_all; auto.
  rewrite forall_str_app. apply andb_true_iff. split.
  - revert HD. apply forall_str_impl. intros c Hc. now rewrite digit_not_comma.
  - cbn [forall_str append].
    rewrite (digit_not_comma c1 H1), (digit_not_comma c2 H2). reflexivity.
Qed.

Lemma grouped_total c trail :
  (100000 <= c < 1000000)%Z ->
  lineTotal ("Total: $" ++ moneyGrouped c ++ trail) = Some (Num.dec c 100).
Proof.
  intros Hc. unfold moneyGrouped.
  set (dollars := (c / 100)%Z).
  pose proof (Z.div_mod c 100 ltac:(lia)) as E100.
  pose proof (Z.mod_pos_bound c 100 ltac:(lia)) as B100.
  pose proof (Z.div_mod (c mod 100) 10 ltac:(lia)) as E10.
  pose proof (Z.mod_pos_bound (c mod 100) 10 ltac:(lia)) as B10.
  assert (M : ((c mod 100) mod 10 = c mod 10)%Z)
    by (apply Z.mod_mod_divide; exists 10%Z; reflexivity).
  rewrite M in *. fold dollars in E100.
  assert (Hd : (1000 <= dollars < 10000)%Z) by lia.
  pose proof (Z.div_mod dollars 10 ltac:(lia)) as F1.
  pose proof (Z.mod_pos_bound dollars 10 ltac:(lia)) as G1.
  pose proof (Z.div_mod (dollars / 10) 10 ltac:(lia)) as F2.
  pose proof (Z.mod_pos_bound (dollars / 10) 10 ltac:(lia)) as G2.
  pose proof (Z.div_mod (dollars / 100) 10 ltac:(lia)) as F3.
  pose proof (Z.mod_pos_bound (dollars / 100) 10 ltac:(lia)) as G3.
  assert (Q2 : (dollars / 10 / 10 = dollars / 100)%Z) by (rewrite Z.div_div by lia; reflexivity).
  assert (Q3 : (dollars / 100 / 10 = dollars / 1000)%Z) by (rewrite Z.div_div by lia; reflexivity).
  rewrite Q2 in F2. rewrite Q3 in F3.
  assert ((dollars <? 1000)%Z = false) as -> by (apply Z.ltb_ge; lia).
  destruct (digit_char_ok (dollars / 1000)) as [Hd0 V0]; [lia|].
  destruct (digit_char_ok ((dollars / 100) mod 10)) as [Ht1 V1]; [lia|].
  destruct (digit_char_ok ((dollars / 10) mod 10)) as [Ht2 V2]; [lia|].
  destruct (digit_char_ok (dollars mod 10)) as [Ht3 V3]; [lia|].
  destruct (digit_char_ok (c mod 100 / 10)) as [H1 W1]; [lia|].
  destruct (digit_char_ok (c mod 10)) as [H2 W2]; [lia|].
  unfold lineTotal, match1.
  rewrite (search_hit _ _ _
             (total_exec_grouped _ _ _ _ _ _ trail Hd0 Ht1 Ht2 Ht3 H1 H2)).
  cbn [group1 group closed lookup fst snd Nat.eqb].
  set (d0 := Show.digit_char (dollars / 1000)) in *.
  set (t1 := Show.digit_char ((dollars / 100) mod 10)) in *.
  set (t2 := Show.digit_char ((dollars / 10) mod 10)) in *.
  set (t3 := Show.digit_char (dollars mod 10)) in *.
  set (c1 := Show.digit_char (c mod 100 / 10)) in *.
  set (c2 := Show.digit_char (c mod 10)) in *.
  unfold removeCommas. cbn [filter_str].
  rewrite (digit_not_comma d0 Hd0), (digit_not_comma t1 Ht1),
    (digit_not_comma t2 Ht2), (digit_not_comma t3 Ht3),
    (digit_not_comma c1 H1), (digit_not_comma c2 H2).
  change (chr "," ","%char) with true. change (chr "," "."%char) with false.
  cbn [negb].
  change (String d0 (String t1 (String t2 (String t3
            (String "." (String c1 (String c2 "")))))))
    with (String d0 (String t1 (String t2 (String t3 "")))
          ++ "." ++ String c1 (String c2 "")).
  rewrite parse_plain; auto.
  2:{ cbn [forall_str]. now rewrite Hd0, Ht1, Ht2, Ht3. }
  2:{ cbn. lia. }
  unfold Parse.digits_val. cbn [Parse.digits_val_from].
  rewrite V0, V1, V2, V3, W1, W2.
  replace (10 * (10 * (10 * (10 * 0 + dollars / 1000) + (dollars / 100) mod 10)
                 + (dollars / 10) mod 10) + dollars mod 10)%Z
    with dollars by lia.
  replace (dollars * 100 + (10 * (c mod 100 / 10) + c mod 10))%Z with c by lia.
  rewrite dec_reasonable by lia. reflexivity.
Qed.

Lemma totalLineOf_total grouped c trail :
  (0 < c < 1000000)%Z ->
  lineTotal (totalLineOf grouped c trail) = Some (Num.dec c 100).
Proof.
  intros Hc. unfold totalLineOf, moneyText. destruct grouped.
  - destruct (Z.ltb_spec (c / 100) 1000) as [Hs|Hs].
    + unfold moneyGrouped. apply Z.ltb_lt in Hs. rewrite Hs.
      now apply totalLine_total.
    + apply grouped_total.
      pose proof (Z.div_mod c 100 ltac:(lia)).
      pose proof (Z.mod_pos_bound c 100 ltac:(lia)). lia.
  - now apply totalLine_total.
Qed.

Lemma totalLineOf_read grouped c trail : skipped (totalLineOf grouped c trail) = false.
Proof.
  unfold totalLineOf, skipped.
  set (tail := moneyText grouped c ++ trail).
  change (trim ("Total: $" ++ tail))
    with (String "T" (String "o" (trimEnd ("tal: $" ++ tail)))).
  reflexivity.
Qed.

(** C3 (as amended).  For every amount of [c] cents above 0 and below
    10000.00, written with two decimals and with or without a thousands
    comma: when a line of the text is "Total: $" followed by that
    amount, and no later line that is read carries an explicit total of
    its own, the heuristic extraction returns exactly that amount,
    whatever money figures the other lines hold. *)
Theorem explicit_total_first vendorOf itemsOf ocrText grouped c trail pre post :
  (0 < c < 1000000)%Z ->
  linesOf ocrText = (pre ++ totalLineOf grouped c trail :: post)%list ->
  (forall l, In l post -> skipped l = false -> lineTotal l = None) ->
  amount (extractReceiptData vendorOf itemsOf ocrText) = VNum (Num.dec c 100).
Proof.
  intros Hc Hlines Hpost. unfold extractReceiptData. cbn [amount].
  unfold selectAmount. rewrite scanLines_total, Hlines.
  rewrite (lastTotal_after pre (totalLineOf grouped c trail) post (Num.dec c 100)).
  - rewrite dec_truthy by lia. reflexivity.
  - apply totalLineOf_read.
  - apply totalLineOf_total. lia.
  - exact Hpost.
Qed.

Lemma explicit_total_first_witness :
  amount (extractReceiptData (fun _ => None) (fun _ => []) walmartReceipt)
  = VNum (Num.dec 575 100).
Proof.
  apply (explicit_total_first (fun _ => None) (fun _ => []) walmartReceipt
           false 575 EmptyString
           ["WALMART SUPERCENTER"; "MILK $3.50"; "Grand $9,999.00"]
           ["Thank you"]).
  - lia.
  - reflexivity.
  - intros l [<-|[]] H. vm_compute in H. discriminate H.
Defined.

Lemma grouped_total_example :
  linesOf groupedReceipt
  = (["COSTCO"; "TV $1,199.99"] ++ totalLineOf true 123450 "" :: [])%list
  /\ amount (extractReceiptData (fun _ => None) (fun _ => []) groupedReceipt)
     = VNum (Num.dec 123450 100).
Proof. split; reflexivity. Qed.

End GroupedFacts.

Section FigureFacts.
Import JS Regex Data Server.

















End FigureFacts.

(** * Further properties of the pipeline *)

Section GateMoreFacts.
Import JS Regex Gate.

(** X1.  The score of the OCR quality gate is 10 minus the points of
    the issues it reports (3 for 'Text too short', 4 for 'Too many
    special characters', 2 for 'Low valid word ratio', 1 for 'Too few
    lines detected'); it lies between 0 and 10, and it is 10 exactly
    when no issue is reported. *)
Theorem quality_score_accounts (text : string) :
  let q := validateOCRQuality text in
  score q = (10 - penalty q)%Z
  /\ (0 <= score q <= 10)%Z
  /\ (score q = 10%Z <-> issues q = []).
Proof.
  unfold validateOCRQuality, penalty.
  destruct (String.length text <? 20)%nat;
    destruct (Num.gtb (specialCharRatio text) (Num.dec 3 10));
    destruct (Num.ltb (wordRatio text) (Num.dec 6 10));
    destruct (List.length (lines text) <? 3)%nat;
    cbn; (split; [reflexivity|]); (split; [lia|]);
    split; intros H; try reflexivity; try discriminate H.
Qed.

(** X2.  The OCR step of the HTTP processReceipt, when the first call
    of the engine returns a text: with a score of 5 or more that text
    is kept and the engine is called once; with a score below 5 the
    engine is called a second time in retry mode, the step fails when
    that call throws, and otherwise the second text is kept only when
    it scores strictly higher than the first. The text kept never
    scores lower than the first one. *)
Theorem retry_keeps_better_text (ocr : bool -> option string) (first : string) :
  ocr false = Some first ->
  let s1 := score (validateOCRQuality first) in
  (5 <= s1 -> ocrWithRetry ocr = (Some first, [false]))%Z
  /\ (s1 < 5 -> snd (ocrWithRetry ocr) = [false; true]
               /\ match ocr true with
                  | None => fst (ocrWithRetry ocr) = None
                  | Some second =>
                      let s2 := score (validateOCRQuality second) in
                      fst (ocrWithRetry ocr)
                      = Some (if (s1 <? s2)%Z then second else first)
                  end)%Z
  /\ (forall kept, fst (ocrWithRetry ocr) = Some kept ->
                   (s1 <= score (validateOCRQuality kept))%Z).
Proof.
  intros H s1. unfold ocrWithRetry. rewrite H. fold s1.
  destruct (Z.ltb_spec s1 5) as [Hlow|Hok].
  - split; [lia|]. split.
    + intros _. destruct (ocr true) as [second|]; cbn [fst snd]; auto.
      destruct (s1 <? score (validateOCRQuality second))%Z; auto.
    + intros kept. destruct (ocr true) as [second|]; cbn [fst]; [|discriminate].
      destruct (Z.ltb_spec s1 (score (validateOCRQuality second)));
        cbn [fst]; intros E; injection E as <-; unfold s1; lia.
  - split; [reflexivity|]. split; [lia|].
    intros kept. cbn [fst]. intros E. injection E as <-. unfold s1. lia.
Qed.

Lemma retry_keeps_better_text_witness :
  snd (ocrWithRetry twoEngines) = [false; true]
  /\ fst (ocrWithRetry twoEngines) = Some smallReceipt.
Proof.
  destruct (retry_keeps_better_text twoEngines garbled eq_refl) as (_ & H & _).
  destruct H as [Hs Hk]; [vm_compute; reflexivity|].
  split; [exact Hs|]. exact Hk.
Defined.
End GateMoreFacts.

Section ValidatorMoreFacts.
Import JS Regex Data Validator Store.

Lemma cleanVendor_clean v s :
  cleanVendor v = Str s -> truthy_str s = true -> cleanName s.
Proof.
  destruct v as [| |s0]; cbn [cleanVendor]; try discriminate.
  destruct (truthy_str s0) eqn:Ht.
  - destruct (String.length (trim s0) <? 2)%nat eqn:El; [discriminate|].
    destruct (String.eqb (toLowerCase (trim s0)) "null"
              || String.eqb (toLowerCase (trim s0)) "unknown") eqn:En; [discriminate|].
    intros E _. injection E as <-.
    apply orb_false_iff in En as [E1 E2].
    apply String.eqb_neq in E1, E2. apply Nat.ltb_ge in El.
    repeat split; auto. apply trim_idem.
  - intros E. injection E as <-. congruence.
Qed.

Lemma cleanDate_clean rt v s :
  cleanDate rt v = Str s -> truthy_str s = true -> validIsoDate rt s.
Proof.
  destruct v as [| |s0]; cbn [cleanDate]; try discriminate.
  destruct (truthy_str s0) eqn:Ht.
  - destruct (test_start isoDateRegex s0) eqn:Er; cbn [negb]; [|discriminate].
    destruct (Date_parse rt s0) eqn:Ed; [|discriminate].
    intros E _. injection E as <-. split; auto. congruence.
  - intros E. injection E as <-. congruence.
Qed.

(** X3.  What validateAndCleanExtractedData lets through: a non-empty
    vendor is trimmed, has at least 2 characters and is neither 'null'
    nor 'unknown' in any letter case; a non-empty date has the form
    dddd-dd-dd and is accepted by Date; the amount is undefined, null,
    or a whole number of cents from 0 to 10000.00. *)
Theorem validated_fields_are_clean rt d :
  let out := validateAndCleanExtractedData rt d in
  (forall s, vendor out = Str s -> truthy_str s = true -> cleanName s)
  /\ (forall s, date out = Str s -> truthy_str s = true -> validIsoDate rt s)
  /\ (amount out = Undefined \/ amount out = Null \/ centsUpTo10000 (amount out)).
Proof.
  cbv zeta. unfold validateAndCleanExtractedData. cbn [vendor date amount].
  split; [|split].
  - intros s. apply cleanVendor_clean.
  - intros s. apply cleanDate_clean.
  - destruct (cleanAmount_cases (amount d)) as [[H [E|E]]|[H|(n & Hn & H & _)]].
    + left. congruence.
    + right. left. congruence.
    + right. left. exact H.
    + right. right. exists n. auto.
Qed.

Lemma formatDate_validated rt d :
  match date (validateAndCleanExtractedData rt d) with
  | Str s => if truthy_str s then Main.formatDate rt s else today rt
  | _ => today rt
  end = storedDate rt (validateAndCleanExtractedData rt d).
Proof.
  unfold storedDate.
  destruct (date (validateAndCleanExtractedData rt d)) as [| |s] eqn:E; auto.
  destruct (truthy_str s) eqn:Ht; auto.
  unfold validateAndCleanExtractedData in E. cbn [date] in E.
  destruct (cleanDate_clean rt _ s E Ht) as [Hr _].
  unfold Main.formatDate. now rewrite Hr.
Qed.

(** X4.  On the desktop, with a store that accepts the writes, the
    expense created from validated data with a valid amount is the one
    row added, and it carries the validated date as it is (formatDate
    leaves a date of the form dddd-dd-dd unchanged), or today's date
    when the validator dropped the date. *)
Theorem validated_date_is_stored_verbatim rt sto d id db0 :
  let data := validateAndCleanExtractedData rt d in
  noValidAmount (amount data) = false -> cooperative sto ->
  exists e,
    expenses (snd (Main.createExpenseFromExtractedData rt sto data id db0))
    = (expenses db0 ++ [e])%list
    /\ e_date e = storedDate rt data.
Proof.
  intros data H (Ha & Hf & Hc).
  unfold Main.createExpenseFromExtractedData, tryCatch.
  unfold noValidAmount in H. rewrite H.
  unfold bind, uuid, getOrCreateCategory, lift, insertExpense, statement, selectExpense.
  destruct (Hc (orElse (vendor data) "Other")) as [c ->]. rewrite Ha, Hf.
  eexists. cbn [snd expenses]. split; [reflexivity|].
  cbn [e_date]. apply formatDate_validated.
Qed.

Lemma validated_date_is_stored_verbatim_witness :
  exists e,
    expenses (snd (Main.createExpenseFromExtractedData Sample.runtime Sample.storage
                     (validateAndCleanExtractedData Sample.runtime fullReceipt)
                     "r1" oneReceipt))
    = (expenses oneReceipt ++ [e])%list
    /\ e_date e = "2024-01-15".
Proof.
  apply (validated_date_is_stored_verbatim Sample.runtime Sample.storage
           fullReceipt "r1" oneReceipt).
  - reflexivity.
  - repeat split. intros v. exists "category-other". reflexivity.
Defined.

End ValidatorMoreFacts.

Section AdapterMoreFacts.
Import JS Regex Data Validator.

Lemma roundedCents_nonneg x : (0 < x)%Q -> (0 <= roundedCents x)%Z.
Proof.
  intros H0. unfold roundedCents.
  assert (E : (Qred (x * Qred (inject_Z 100)) + (1 # 2) == x * inject_Z 100 + (1 # 2))%Q)
    by (rewrite !Qred_correct; reflexivity).
  rewrite E.
  change 0%Z with (Qfloor 0). apply Qfloor_resp_le.
  apply Qle_trans with (x * inject_Z 100)%Q.
  - apply Qmult_le_0_compat; [now apply Qlt_le_weak | discriminate].
  - rewrite <- (Qplus_0_r (x * inject_Z 100)) at 1.
    apply Qplus_le_r. discriminate.
Qed.

Lemma gtb_zero_fin x : Num.gtb (Num.Fin x) (Num.of_Z 0) = true <-> (0 < x)%Q.
Proof.
  unfold Num.gtb, Num.ltb, Num.of_Z, Num.of_Q. rewrite Q_ltb_lt, Qred_correct.
  reflexivity.
Qed.

Lemma positive_cents a :
  Num.gtb a (Num.of_Z 0) = true ->
  round2 a = Num.PInf \/ exists n, (0 <= n)%Z /\ round2 a = cents n.
Proof.
  destruct a as [| | |x]; try discriminate.
  - intros _. left. reflexivity.
  - intros H. apply gtb_zero_fin in H. right.
    exists (roundedCents x). split; [now apply roundedCents_nonneg|].
    apply round2_fin.
Qed.

(** X5.  Whatever the model returned, an amount accepted by the
    adapter's validateAmount is Infinity or a whole, non-negative
    number of cents. *)
Theorem validateAmount_cents (value : option json) (a : Num.num) :
  Ollama.validateAmount value = Some a ->
  a = Num.PInf \/ exists n, (0 <= n)%Z /\ a = cents n.
Proof.
  unfold Ollama.validateAmount.
  destruct value as [[| |v|s| |]|]; try discriminate.
  - destruct (Num.gtb v (Num.of_Z 0)) eqn:E; [|discriminate].
    intros H. injection H as <-. now apply positive_cents.
  - destruct (negb (Num.isNaN (Parse.parseFloat s))
              && Num.gtb (Parse.parseFloat s) (Num.of_Z 0)) eqn:E; [|discriminate].
    apply andb_true_iff in E as [_ E].
    intros H. injection H as <-. now apply positive_cents.
Qed.

Lemma validateAmount_cents_witness :
  Num.dec 575 100 = Num.PInf \/ exists n, (0 <= n)%Z /\ Num.dec 575 100 = cents n.
Proof.
  apply (validateAmount_cents (Some (JNum (Num.dec 5749 1000))) (Num.dec 575 100)).
  reflexivity.
Defined.

(** X6.  The adapter's validateAmount accepts a number above 0 and
    below 0.005 and returns 0 for it: the test amount > 0 is made
    before the rounding to two decimals. *)
Theorem small_amounts_become_zero (x : Q) :
  (0 < x)%Q -> (x < 1 # 200)%Q ->
  Ollama.validateAmount (Some (JNum (Num.Fin x))) = Some (Num.of_Z 0).
Proof.
  intros H0 H1. unfold Ollama.validateAmount.
  rewrite (proj2 (gtb_zero_fin x) H0). rewrite round2_fin.
  rewrite (proj2 (roundedCents_zero x H0) H1). reflexivity.
Qed.

Lemma small_amounts_become_zero_witness :
  Ollama.validateAmount (Some (JNum (Num.Fin (1 # 250)))) = Some (Num.of_Z 0).
Proof.
  apply (small_amounts_become_zero (1 # 250)); reflexivity.
Defined.



End AdapterMoreFacts.

Section DateFacts.
Import JS Regex Data.

Lemma rep_exactly (A : Type) (p : ascii -> bool) (k : cont A) :
  forall n fuel r o c,
    (n <= fuel)%nat ->
    rep_loop (run (A:=A) (Cls p)) fuel n (Some n)
      {| rest := r; opened := o; closed := c |} k
    = match takeN p n r with
      | Some (a, b) => k {| rest := b; opened := pushs a o; closed := c |}
      | None => None
      end.
Proof.
  induction n as [|n IH]; intros fuel r o c Hf.
  - rewrite rep_loop_done. reflexivity.
  - destruct fuel as [|fuel]; [lia|].
    cbn [rep_loop Nat.eqb andb option_map pred run rest opened closed takeN].
    destruct r as [|a r]; [reflexivity|].
    destruct (p a); [|reflexivity].
    rewrite IH by lia.
    destruct (takeN p n r) as [[x y]|]; reflexivity.
Qed.

Lemma run_exactly (A : Type) (p : ascii -> bool) (k : cont A) n r o c :
  run (exactly n (Cls p)) {| rest := r; opened := o; closed := c |} k
  = match takeN p n r with
    | Some (a, b) => k {| rest := b; opened := pushs a o; closed := c |}
    | None => None
    end.
Proof.
  unfold exactly.
  change (rep_loop (run (A:=A) (Cls p)) (n + String.length r) n (Some n)
            {| rest := r; opened := o; closed := c |} k = 
          match takeN p n r with
    | Some (a, b) => k {| rest := b; opened := pushs a o; closed := c |}
    | None => None
    end).
  apply rep_exactly. lia.
Qed.

Lemma takeN_all p s r :
  forall_str p s = true -> takeN p (String.length s) (s ++ r) = Some (s, r).
Proof.
  induction s as [|c s IH]; cbn; auto. intros H.
  apply andb_true_iff in H as [-> Hs]. now rewrite IH.
Qed.

Lemma takeN_short p s c r n :
  forall_str p s = true -> p c = false -> (String.length s < n)%nat ->
  takeN p n (s ++ String c r) = None.
Proof.
  revert n. induction s as [|a s IH]; intros n Hs Hc Hn.
  - destruct n; [cbn in Hn; lia|]. cbn. now rewrite Hc.
  - destruct n; [cbn in Hn; lia|]. cbn in *.
    apply andb_true_iff in Hs as [-> Hs]. rewrite IH; auto. lia.
Qed.

Lemma sep_not_digit c : isSep c = true -> is_digit c = false /\ is_space c = false.
Proof. by_char c. Qed.

Lemma digit_lower_not_n c : is_digit c = true -> Ascii.eqb (lower_char c) "n" = false.
Proof. by_char c. Qed.

Lemma not_iso_shape M s1 rest :
  digitString 1 2 M -> isSep s1 = true ->
  test_start Validator.isoDateRegex (M ++ String s1 rest) = false.
Proof.
  intros [HM Hlen] Hs. destruct (sep_not_digit _ Hs) as [Hd _].
  unfold test_start, exec, start, Validator.isoDateRegex. cbn [seqs run].
  unfold digit. rewrite run_exactly.
  rewrite takeN_short; auto. lia.
Qed.

Lemma mdY_exec M D Y s1 s2 :
  digitString 1 2 M -> digitString 1 2 D -> digitString 4 4 Y ->
  isSep s1 = true -> isSep s2 = true ->
  exec Ollama.mdY (usDate M D Y s1 s2)
  = Some {| rest := ""; opened := [];
            closed := [(3%nat, Y); (2%nat, D); (1%nat, M)] |}.
Proof.
  intros [HM LM] [HD LD] [HY LY] H1 H2.
  destruct (sep_not_digit _ H1) as [N1 _]. destruct (sep_not_digit _ H2) as [N2 _].
  unfold exec, start, Ollama.mdY, usDate. cbn [seqs].
  apply step_seq. apply step_grp. unfold open_cap. cbn [rest opened closed].
  unfold times, digit.
  eapply run_rep_cls with (s := M) (r := String s1 _);
    [exact HM | lia | lia | right; exact N1 |].
  rewrite pushs_single. cbv beta. unfold close_cap. cbn [opened rest closed filter append].
  apply step_seq. apply step_cls; [exact H1|]. cbv beta. cbn [push map].
  apply step_seq. apply step_grp. unfold open_cap. cbn [rest opened closed].
  eapply run_rep_cls with (s := D) (r := String s2 _);
    [exact HD | lia | lia | right; exact N2 |].
  rewrite pushs_single. cbv beta. unfold close_cap.
  cbn [opened rest closed filter append fst snd Nat.eqb negb].
  apply step_seq. apply step_cls; [exact H2|]. cbv beta. cbn [push map].
  apply step_seq. apply step_grp. unfold open_cap. cbn [rest opened closed].
  rewrite <- (append_nil_r Y) at 1.
  rewrite run_exactly.
  replace 4%nat with (String.length Y) by lia.
  rewrite takeN_all by exact HY.
  rewrite pushs_single. unfold close_cap.
  cbn [opened rest closed filter append fst snd Nat.eqb negb run].
  reflexivity.
Qed.

(** X8.  The adapter's validateDate turns a date written month, day,
    four-digit year, with '-' or '/' between them and one or two
    digits for the month and the day, into year-month-day with month
    and day padded to two digits, provided Date accepts that day. *)
Theorem validateDate_us rt M D Y s1 s2 :
  digitString 1 2 M -> digitString 1 2 D -> digitString 4 4 Y ->
  isSep s1 = true -> isSep s2 = true ->
  Date_ymd rt (Parse.digits_val Y) (Parse.digits_val M - 1)%Z (Parse.digits_val D)
  <> None ->
  Ollama.validateDate rt (Some (JStr (usDate M D Y s1 s2)))
  = Some (Show.show (Parse.digits_val Y) ++ "-"
          ++ Show.padStart0 2 (Show.show (Parse.digits_val M)) ++ "-"
          ++ Show.padStart0 2 (Show.show (Parse.digits_val D))).
Proof.
  intros HM HD HY H1 H2 Hdate.
  pose proof (mdY_exec M D Y s1 s2 HM HD HY H1 H2) as Hexec.
  pose proof (not_iso_shape M s1 (D ++ String s2 Y) HM H1) as Hiso.
  fold (usDate M D Y s1 s2) in Hiso.
  assert (Hns : forall_str (fun c => negb (is_space c)) (usDate M D Y s1 s2) = true).
  { destruct HM as [HM _], HD as [HD _], HY as [HY _].
    destruct (sep_not_digit _ H1) as [_ S1]. destruct (sep_not_digit _ H2) as [_ S2].
    unfold usDate. rewrite forall_str_app. cbn [forall_str].
    rewrite forall_str_app. cbn [forall_str]. rewrite S1, S2. cbn [negb andb].
    rewrite !(forall_str_impl is_digit (fun c => negb (is_space c)));
      auto; intros c Hc; now rewrite digit_not_space. }
  assert (Hhead : exists m0 tail, usDate M D Y s1 s2 = String m0 tail
                                   /\ is_digit m0 = true).
  { destruct HM as [HM LM]. destruct M as [|m0 M']; [cbn in LM; lia|].
    exists m0, (M' ++ String s1 (D ++ String s2 Y)). split; [reflexivity|].
    cbn in HM. now apply andb_true_iff in HM. }
  destruct Hhead as (m0 & tail & Eh & Hm0).
  unfold Ollama.validateDate.
  rewrite (trim_nospace _ Hns).
  assert (String.eqb (toLowerCase (usDate M D Y s1 s2)) "null" = false) as ->.
  { rewrite Eh. cbn [toLowerCase map_str String.eqb].
    now rewrite (digit_lower_not_n m0 Hm0). }
  assert (truthy_str (usDate M D Y s1 s2) = true) as -> by now rewrite Eh.
  cbn [negb andb]. unfold Ollama.isoDateRegex. rewrite Hiso.
  unfold Ollama.firstSome at 1.
  unfold Ollama.tryPattern at 1. rewrite Hexec.
  unfold Ollama.groupInt, group. cbn [closed lookup fst snd Nat.eqb].
  destruct (Date_ymd rt _ _ _); [|congruence].
  reflexivity.
Qed.

Lemma validateDate_us_witness :
  Ollama.validateDate Sample.runtime (Some (JStr "1/5/2024")) = Some "2024-01-05".
Proof.
  apply (validateDate_us Sample.runtime "1" "5" "2024" "/" "/");
    try (split; [reflexivity | cbn; lia]); try reflexivity.
  vm_compute. discriminate.
Defined.

End DateFacts.

Section PromptFacts.
Import JS Regex Data.

Lemma substring_length n : forall s m,
  String.length (String.substring n m s)
  = Nat.min m (String.length s - n).
Proof.
  induction n as [|n IH]; intros s m.
  - rewrite Nat.sub_0_r. revert m. induction s as [|c s IHs]; intros m.
    + destruct m; reflexivity.
    + destruct m as [|m]; [reflexivity|]. cbn. now rewrite IHs.
  - destruct s as [|c s]; cbn.
    + destruct m; reflexivity.
    + apply IH.
Qed.

Lemma promptFrame_value : promptFrame = 329%nat.
Proof. vm_compute. reflexivity. Qed.

(** X9.  The prompt sent to the model is the 329 characters of the
    instructions around the receipt text, which is cut to its first
    1500 characters and followed by three dots when it is longer: the
    prompt has at most 1832 characters. *)
Theorem prompt_is_bounded (ocrText : string) :
  String.length (Ollama.createExtractionPrompt ocrText)
  = (329 + Nat.min (String.length ocrText) 1500
     + (if (1500 <? String.length ocrText)%nat then 3 else 0))%nat
  /\ (String.length (Ollama.createExtractionPrompt ocrText) <= 1832)%nat.
Proof.
  assert (E : String.length (Ollama.createExtractionPrompt ocrText)
              = (promptFrame + Nat.min (String.length ocrText) 1500
     + (if (1500 <? String.length ocrText)%nat then 3 else 0))%nat).
  { unfold promptFrame, Ollama.createExtractionPrompt. cbv zeta.
    rewrite !length_append.
    destruct (Nat.ltb_spec 1500 (String.length ocrText)) as [H|H].
    - rewrite length_append, substring_length.
      cbn [String.length Nat.ltb Nat.leb].
      rewrite Nat.sub_0_r. lia.
    - cbn [String.length Nat.ltb Nat.leb]. lia. }
  rewrite promptFrame_value in E.
  split; [exact E|]. rewrite E.
  destruct (1500 <? String.length ocrText)%nat; lia.
Qed.

End PromptFacts.

Section HeuristicFacts.
Import JS Regex Data Server.

Lemma lineTotal_reasonable line t : lineTotal line = Some t -> reasonable t = true.
Proof.
  unfold lineTotal. destruct (match1 totalRegex line) as [g|]; [|discriminate].
  destruct (reasonable (Parse.parseFloat (removeCommas g))) eqn:E; [|discriminate].
  intros H. injection H as <-. exact E.
Qed.

Lemma lastTotal_reasonable lines t : lastTotal lines = Some t -> reasonable t = true.
Proof.
  unfold lastTotal.
  assert (G : forall l acc,
             (forall t, acc = Some t -> reasonable t = true) ->
             forall t,
               fold_left (fun acc line =>
                  match lineTotal line with Some t => Some t | None => acc end) l acc
               = Some t -> reasonable t = true).
  { induction l as [|x l IH]; cbn [fold_left]; intros acc Hacc t0; auto.
    apply IH. intros t1. destruct (lineTotal x) eqn:E; auto.
    intros H. injection H as <-. eapply lineTotal_reasonable; eauto. }
  apply G. discriminate.
Qed.

Lemma reasonable_truthy t : reasonable t = true -> Num.truthy t = true.
Proof.
  unfold reasonable. intros H. apply andb_true_iff in H as [H0 H1].
  destruct t as [| | |q]; try discriminate.
  clear H1. unfold Num.gtb, Num.ltb, Num.of_Z, Num.of_Q in H0. apply Q_ltb_lt in H0.
  rewrite Qred_correct in H0.
  unfold Num.truthy. cbn [Num.isNaN Num.is_zero orb].
  apply negb_true_iff. apply not_true_iff_false. intros E.
  apply Qeq_bool_iff in E. rewrite E in H0. discriminate H0.
Qed.

Lemma insertDesc_in x l p : In p (insertDesc x l) <-> p = x \/ In p l.
Proof.
  induction l as [|y l IH]; cbn [insertDesc].
  - cbn. intuition.
  - destruct (Num.leb (p_price y) (p_price x)).
    + cbn. intuition.
    + cbn [In]. rewrite IH. intuition.
Qed.

Lemma sortDesc_perm l p : In p (sortDesc l) <-> In p l.
Proof.
  induction l as [|x l IH]; cbn [sortDesc fold_right]; [reflexivity|].
  fold (sortDesc l). rewrite insertDesc_in, IH. cbn. intuition.
Qed.




Lemma selectAmount_reasonable sc :
  (forall t, explicitTotal sc = Some t -> reasonable t = true) ->
  (forall p, In p (allPrices sc) -> reasonable (p_price p) = true) ->
  selectAmount sc = Undefined
  \/ exists n, selectAmount sc = VNum n /\ reasonable n = true.
Proof.
  intros Ht Hp. unfold selectAmount.
  assert (Hr : forall p, In p (sortDesc (allPrices sc)) ->
                         reasonable (p_price p) = true).
  { intros p Hin. apply Hp. now apply sortDesc_perm. }
  assert (Hprices :
    forall v,
      v = match allPrices sc with
          | [] => Undefined
          | _ :: _ =>
              match filter isLikelyTotal (sortDesc (allPrices sc)) with
              | [] => match sortDesc (allPrices sc) with
                      | [] => Undefined
                      | p :: _ => VNum (p_price p)
                      end
              | p :: _ => VNum (p_price p)
              end
          end ->
      v = Undefined \/ exists n, v = VNum n /\ reasonable n = true).
  { intros v ->.
    destruct (allPrices sc) as [|p0 ps] eqn:E; [now left|].
    rewrite <- E in *.
    destruct (filter isLikelyTotal (sortDesc (allPrices sc))) as [|m s] eqn:F.
    - destruct (sortDesc (allPrices sc)) as [|m s]; [now left|].
      right. exists (p_price m). split; auto. apply Hr. now left.
    - right. exists (p_price m). split; auto. apply Hr.
      assert (Hm : In m (filter isLikelyTotal (sortDesc (allPrices sc))))
        by (rewrite F; now left).
      now apply filter_In in Hm as [Hm _]. }
  destruct (explicitTotal sc) as [t|] eqn:Et.
  - rewrite (reasonable_truthy t (Ht t eq_refl)). right. exists t. auto.
  - now apply Hprices.
Qed.

Lemma reasonable_range n :
  reasonable n = true -> exists q, n = Num.Fin q /\ (0 < q < inject_Z 10000)%Q.
Proof.
  unfold reasonable. intros H. apply andb_true_iff in H as [H0 H1].
  destruct n as [| | |q]; try discriminate. exists q. split; [reflexivity|].
  unfold Num.gtb, Num.ltb, Num.of_Z, Num.of_Q in *.
  rewrite Q_ltb_lt, Qred_correct in H0, H1. split; assumption.
Qed.

(** X10.  Whatever the text, the amount the HTTP heuristic extraction
    returns is either not set or a number strictly between 0 and
    10000. *)
Theorem heuristic_amount_in_range vendorOf itemsOf ocrText :
  amount (extractReceiptData vendorOf itemsOf ocrText) = Undefined
  \/ exists q, amount (extractReceiptData vendorOf itemsOf ocrText)
               = VNum (Num.Fin q)
               /\ (0 < q < inject_Z 10000)%Q.
Proof.
  assert (H : amount (extractReceiptData vendorOf itemsOf ocrText) = Undefined
              \/ exists n, amount (extractReceiptData vendorOf itemsOf ocrText) = VNum n
                           /\ reasonable n = true).
  { unfold extractReceiptData. cbn [amount].
    apply selectAmount_reasonable.
    - intros t. rewrite scanLines_total. apply lastTotal_reasonable.
    - intros p. rewrite scanLines_prices. apply detected_reasonable. }
  destruct H as [H|(n & H & Hn)]; [now left|right].
  destruct (reasonable_range n Hn) as (q & -> & Hq). eauto.
Qed.



Lemma balance_example :
  amount (extractReceiptData (fun _ => None) (fun _ => []) balanceReceipt)
  = VNum (Num.of_Z 12).
Proof. reflexivity. Qed.

End HeuristicFacts.

Section SimpleFacts.
Import JS Regex Data.

Lemma parse_digit d :
  is_digit d = true ->
  Parse.parseFloat (String d "") = Num.of_Z (Parse.digit_val d).
Proof.
  intros Hd. destruct (digit_plain d Hd) as (Hm & Hp & _ & _).
  unfold Parse.parseFloat. cbn [trimStart]. rewrite (digit_not_space d Hd).
  unfold Parse.decimalLiteral. rewrite Hm, Hp, prefix_Infinity by assumption.
  cbn [Parse.span]. rewrite Hd.
  cbn [is_empty andb Parse.exponent String.length Parse.scale10].
  unfold Num.of_Z, Num.of_Q. f_equal. apply Qred_complete.
  unfold Parse.digits_val. cbn [Parse.digits_val_from].
  change (Parse.pow10 0) with 1%Z. cbn [Z.to_pos].
  rewrite Qmult_1_r. unfold inject_Z.
  replace ((10 * 0 + Parse.digit_val d) * 1 + 0)%Z with (Parse.digit_val d) by lia.
  reflexivity.
Qed.

Lemma amount_exec_grouped d0 tail :
  is_digit d0 = true ->
  exec Main.amountRegex ("Total: $" ++ String d0 (String "," tail))
  = Some {| rest := String "," tail; opened := [];
            closed := [(1%nat, String d0 "")] |}.
Proof.
  intros Hd0.
  unfold exec, start, Main.amountRegex. cbn [seqs append].
  apply step_seq. apply step_alt_left. cbn [lit_i].
  do 4 (apply step_seq; apply step_cls; [reflexivity|]; cbv beta).
  apply step_cls; [reflexivity|]. cbn [push map].
  apply step_seq.
  eapply run_rep_cls with (s := ": ") (r := String "$" _);
    [reflexivity | cbn; lia | exact I | right; reflexivity |].
  cbn [pushs]. cbv beta.
  apply step_seq.
  eapply run_rep_cls with (s := "$") (r := String d0 _);
    [reflexivity | cbn; lia | cbn; lia | left; reflexivity |].
  cbn [pushs]. cbv beta.
  apply step_grp. unfold open_cap. cbn [rest opened closed].
  apply step_seq. unfold times, digit.
  eapply run_rep_cls with (s := String d0 "") (r := String "," _);
    [cbn; now rewrite Hd0 | cbn; lia | cbn; lia | right; reflexivity |].
  rewrite pushs_single. cbv beta.
  apply step_rep_skip; [intros d; reflexivity|].
  unfold close_cap. cbn [opened rest closed filter append].
  reflexivity.
Qed.

(** X12.  The desktop fallback extraction reads a total from 1,000.00
    to 9,999.99 written with a thousands comma after 'Total: $' as its
    first digit only (its pattern has no comma): the amount returned
    is that digit, between 1 and 9; extractReceiptDataWithGemma
    returns the same amount when the model is not used. *)
Theorem simple_extraction_cuts_grouped_total rt isAvailable llm c trail :
  (100000 <= c < 1000000)%Z ->
  let ocrText := "Total: $" ++ moneyGrouped c ++ trail in
  amount (Main.trySimpleExtraction rt ocrText) = VNum (Num.of_Z (thousands c))
  /\ amount (Main.extractReceiptDataWithGemma rt isAvailable llm ocrText false)
     = VNum (Num.of_Z (thousands c))
  /\ (1 <= thousands c <= 9)%Z.
Proof.
  intros Hc ocrText. unfold thousands.
  assert (Hd : (1 <= c / 100000 <= 9)%Z).
  { split; [apply Z.div_le_lower_bound; lia | ].
    assert (c / 100000 < 10)%Z by (apply Z.div_lt_upper_bound; lia). lia. }
  assert (Hq : (c / 100 / 1000 = c / 100000)%Z) by (rewrite Z.div_div by lia; reflexivity).
  assert (Hraw : amount (Main.trySimpleExtraction rt ocrText)
                 = VNum (Num.of_Z (c / 100000))).
  { unfold Main.trySimpleExtraction. cbn [amount].
    unfold ocrText, moneyGrouped. cbv zeta.
    assert ((c / 100 <? 1000)%Z = false) as ->.
    { apply Z.ltb_ge. apply Z.div_le_lower_bound; lia. }
    rewrite Hq.
    destruct (digit_char_ok (c / 100000)) as [Hd0 V0]; [lia|].
    unfold match1.
    match goal with
    | |- context [search Main.amountRegex ?t] =>
        change t with ("Total: $" ++ String (Show.digit_char (c / 100000))
                         (String "," (String (Show.digit_char ((c / 100 / 100) mod 10))
                            (String (Show.digit_char ((c / 100 / 10) mod 10))
                               (String (Show.digit_char ((c / 100) mod 10))
                                  (String "."
                                     (String (Show.digit_char (c mod 100 / 10))
                                        (String (Show.digit_char (c mod 10)) trail))))))))
    end.
    rewrite (search_hit _ _ _ (amount_exec_grouped _ _ Hd0)).
    cbn [group1 group closed lookup fst snd Nat.eqb].
    now rewrite parse_digit, V0. }
  split; [exact Hraw|]. split; [|exact Hd].
  unfold Main.extractReceiptDataWithGemma, Main.extractBeforeValidation.
  unfold Validator.validateAndCleanExtractedData. cbn [amount].
  rewrite Hraw.
  assert (c / 100000 = 1 \/ c / 100000 = 2 \/ c / 100000 = 3 \/ c / 100000 = 4
          \/ c / 100000 = 5 \/ c / 100000 = 6 \/ c / 100000 = 7
          \/ c / 100000 = 8 \/ c / 100000 = 9)%Z as Hcase by lia.
  repeat (destruct Hcase as [->|Hcase]; [reflexivity|]). rewrite Hcase. reflexivity.
Qed.

Lemma simple_extraction_cuts_grouped_total_witness :
  amount (Main.trySimpleExtraction Sample.runtime "Total: $1,234.50") = VNum (Num.of_Z 1)
  /\ amount (Main.extractReceiptDataWithGemma Sample.runtime false
               (fun _ => Ollama.FetchRejects) "Total: $1,234.50" false)
     = VNum (Num.of_Z 1)
  /\ (1 <= 1 <= 9)%Z.
Proof.
  apply (simple_extraction_cuts_grouped_total Sample.runtime false
           (fun _ => Ollama.FetchRejects) 123450 EmptyString).
  lia.
Defined.

End SimpleFacts.

Section ResolverMoreFacts.
Import JS Regex Data Store Pdf.

Lemma pagesToRead_bound n p : In p (Server.pagesToRead n) -> (1 <= p <= 5)%nat.
Proof.
  unfold Server.pagesToRead. intros H. apply in_seq in H.
  destruct (n =? 0)%nat; lia.
Qed.

Lemma processPage_agree c1 c2 e acc p :
  c1 p = c2 p -> Server.processPage c1 e acc p = Server.processPage c2 e acc p.
Proof. intros H. unfold Server.processPage. now rewrite H. Qed.

Lemma fold_pages_agree c1 c2 e pages : forall acc,
  (forall p, In p pages -> c1 p = c2 p) ->
  fold_left (Server.processPage c1 e) pages acc
  = fold_left (Server.processPage c2 e) pages acc.
Proof.
  induction pages as [|p pages IH]; intros acc H; cbn [fold_left]; auto.
  rewrite (processPage_agree c1 c2 e acc p) by (apply H; now left).
  apply IH. intros q Hq. apply H. now right.
Qed.

(** X13.  The HTTP PDF resolver depends on the page converter only
    through pages 1 to 5, and the desktop resolver only through page
    1: with a converter that agrees with the original one on those
    pages the result is the same. *)
Theorem pdf_reads_first_five_pages e c1 c2 path :
  rasterizer e = Returns c1 ->
  ((forall p, (1 <= p <= 5)%nat -> c1 p = c2 p) ->
   Server.processPDF (withConverter e c2) path = Server.processPDF e path)
  /\ (c1 1%nat = c2 1%nat ->
      Main.processPDF (withConverter e c2) path = Main.processPDF e path).
Proof.
  intros Hr. split.
  - intros H. unfold Server.processPDF, withConverter.
    cbn [pdfParse rasterizer recognize]. rewrite Hr.
    destruct (pdfParse e) as [[text n]|m]; auto.
    destruct (hasTextLayer text); auto.
    rewrite (fold_pages_agree c2 c1
               {| pdfParse := Returns (text, n); rasterizer := Returns c2;
                  recognize := recognize e |} (Server.pagesToRead n)).
    2:{ intros p Hp. symmetry. apply H. now apply pagesToRead_bound in Hp. }
    assert (Hfold : forall pages acc,
              fold_left (Server.processPage c1
                 {| pdfParse := Returns (text, n); rasterizer := Returns c2;
                    recognize := recognize e |}) pages acc
              = fold_left (Server.processPage c1 e) pages acc).
    { induction pages as [|p pages IH]; intros acc; cbn [fold_left]; auto. }
    rewrite Hfold. reflexivity.
  - intros H. unfold Main.processPDF, withConverter.
    cbn [pdfParse rasterizer recognize]. rewrite Hr, H. reflexivity.
Qed.

Lemma pdf_reads_first_five_pages_witness :
  Server.processPDF
    (withConverter sevenPages
       (fun p => if (p <=? 5)%nat then Returns (Some "page.png")
                 else Throws "render failed")) "scan.pdf"
  = Server.processPDF sevenPages "scan.pdf".
Proof.
  apply (proj1 (pdf_reads_first_five_pages sevenPages
                  (fun p => Returns (Some "page.png"))
                  (fun p => if (p <=? 5)%nat then Returns (Some "page.png")
                            else Throws "render failed")
                  "scan.pdf" eq_refl)).
  intros p Hp. destruct (Nat.leb_spec p 5); [reflexivity | lia].
Defined.

Lemma processPage_primary c e acc prim p :
  (prim = EmptyString \/ c 1%nat = Returns (Some prim)) ->
  let prim' := snd (Server.processPage c e (acc, prim) p) in
  prim' = EmptyString \/ c 1%nat = Returns (Some prim').
Proof.
  intros H. unfold Server.processPage.
  destruct (c p) as [[image|]|m] eqn:E; cbn [snd]; auto.
  destruct (truthy_str image); cbn [negb snd]; auto.
  destruct (Nat.eqb_spec p 1) as [->|Hp].
  - destruct (recognize e image) as [t|m]; cbn [snd]; auto.
    destruct (0 <? String.length (trim t))%nat; cbn [snd]; auto.
  - destruct (recognize e image) as [t|m]; cbn [snd]; auto.
    destruct (0 <? String.length (trim t))%nat; cbn [snd]; auto.
Qed.

Lemma fold_pages_primary c e pages : forall acc prim,
  (prim = EmptyString \/ c 1%nat = Returns (Some prim)) ->
  let prim' := snd (fold_left (Server.processPage c e) pages (acc, prim)) in
  prim' = EmptyString \/ c 1%nat = Returns (Some prim').
Proof.
  induction pages as [|p pages IH]; intros acc prim H; cbn [fold_left snd]; auto.
  pose proof (processPage_primary c e acc prim p H) as Hp. cbv zeta in Hp.
  destruct (Server.processPage c e (acc, prim) p) as [acc' prim'].
  cbn [snd] in Hp. now apply IH.
Qed.

(** X14.  When the HTTP PDF resolver succeeds, the image path it
    returns is the path of the PDF itself or the image the converter
    made for page 1. *)
Theorem pdf_image_is_first_page_or_file e path text image :
  Server.processPDF e path = Returns (text, image) ->
  image = path
  \/ exists convert, rasterizer e = Returns convert
                     /\ convert 1%nat = Returns (Some image).
Proof.
  unfold Server.processPDF.
  destruct (pdfParse e) as [[layer n]|m]; [|discriminate].
  destruct (hasTextLayer layer).
  { intros H. injection H as _ <-. now left. }
  destruct (rasterizer e) as [convert|m]; [|discriminate].
  pose proof (fold_pages_primary convert e (Server.pagesToRead n) "" ""
                (or_introl eq_refl)) as Hp. cbv zeta in Hp.
  destruct (fold_left _ _ _) as [combined prim]. cbn [snd] in Hp.
  destruct (negb (truthy_str (trim combined))); [discriminate|].
  intros H. injection H as _ <-.
  destruct Hp as [->|Hp]; [now left|].
  destruct (truthy_str prim); [|now left].
  right. exists convert. auto.
Qed.

Lemma pdf_image_is_first_page_or_file_witness :
  "scan.pdf" = "scan.pdf"
  \/ exists convert, rasterizer secondPageOnly = Returns convert
                     /\ convert 1%nat = Returns (Some "scan.pdf").
Proof.
  apply (pdf_image_is_first_page_or_file secondPageOnly "scan.pdf"
           (Server.pageMarker 2 "TOTAL: $5.75") "scan.pdf").
  reflexivity.
Defined.

End ResolverMoreFacts.

Section JobFacts.
Import JS Regex Data Store.

Lemma statement_outcome sto s w d :
  statement sto s w d = (Throws "SqliteError", d) /\ fails sto s = true
  \/ statement sto s w d = (Returns tt, w d) /\ fails sto s = false.
Proof. unfold statement. destruct (fails sto s); auto. Qed.

Lemma updateReceipt_others id f d :
  (forall r, r_id (f r) = r_id r) ->
  otherReceipts id (updateReceipt id f d) = otherReceipts id d
  /\ expenses (updateReceipt id f d) = expenses d.
Proof.
  intros Hf. split; [|reflexivity].
  unfold otherReceipts, updateReceipt. cbn [receipts].
  induction (receipts d) as [|r l IH]; cbn [map filter]; auto.
  destruct (String.eqb (r_id r) id) eqn:E.
  - rewrite Hf, E. cbn [negb]. exact IH.
  - rewrite E. cbn [negb]. now rewrite IH.
Qed.

Lemma setStatus_frame sto s id d :
  otherReceipts id (snd (setStatus sto s id d)) = otherReceipts id d
  /\ expenses (snd (setStatus sto s id d)) = expenses d.
Proof.
  unfold setStatus.
  destruct (statement_outcome sto (SetStatus s)
              (updateReceipt id (fun r =>
                 {| r_id := r_id r; r_status := s; r_ocr_text := r_ocr_text r;
                    r_extracted := r_extracted r;
                    r_processed_path := r_processed_path r |})) d) as [[-> _]|[-> _]];
    cbn [snd]; auto.
  now apply updateReceipt_others.
Qed.

Lemma saveResults_frame sto id text data path d :
  otherReceipts id (snd (saveResults sto id text data path d)) = otherReceipts id d
  /\ expenses (snd (saveResults sto id text data path d)) = expenses d.
Proof.
  unfold saveResults.
  destruct (statement_outcome sto SaveResults
              (updateReceipt id (fun r =>
                 {| r_id := r_id r; r_status := Completed;
                    r_ocr_text := Some text; r_extracted := Some data;
                    r_processed_path := Some path |})) d) as [[-> _]|[-> _]];
    cbn [snd]; auto.
  now apply updateReceipt_others.
Qed.

Lemma server_create_frame rt sto data id d :
  let d' := snd (Server.createExpenseFromExtractedData rt sto data id d) in
  receipts d' = receipts d /\ addedAtMostOne id d d'.
Proof.
  unfold addedAtMostOne.
  unfold Server.createExpenseFromExtractedData, tryCatch, bind, uuid,
    getOrCreateCategory, lift, insertExpense, statement, ret.
  destruct (negb _ || _); cbn; auto.
  destruct (categoryFor sto _); cbn; auto.
  destruct (fails sto AddExpense); cbn; auto.
  split; auto. right. eexists. split; reflexivity.
Qed.

Lemma main_create_frame rt sto data id d :
  let d' := snd (Main.createExpenseFromExtractedData rt sto data id d) in
  receipts d' = receipts d /\ addedAtMostOne id d d'.
Proof.
  unfold addedAtMostOne.
  unfold Main.createExpenseFromExtractedData, tryCatch, bind, uuid,
    getOrCreateCategory, lift, insertExpense, statement, selectExpense, ret.
  destruct (negb _ || _); cbn; auto.
  destruct (categoryFor sto _); cbn; auto.
  destruct (fails sto AddExpense); cbn; auto.
  destruct (fails sto FindExpense); cbn; split; auto;
    right; eexists; split; reflexivity.
Qed.

Lemma setStatus_cases sto s id d :
  (setStatus sto s id d = (Throws "SqliteError", d) /\ fails sto (SetStatus s) = true)
  \/ exists d', setStatus sto s id d = (Returns tt, d')
                 /\ fails sto (SetStatus s) = false
                 /\ otherReceipts id d' = otherReceipts id d
                 /\ expenses d' = expenses d.
Proof.
  pose proof (setStatus_frame sto s id d) as [Ho He]. revert Ho He.
  unfold setStatus.
  destruct (statement_outcome sto (SetStatus s)
              (updateReceipt id (fun r =>
                 {| r_id := r_id r; r_status := s; r_ocr_text := r_ocr_text r;
                    r_extracted := r_extracted r;
                    r_processed_path := r_processed_path r |})) d) as [[-> Hf]|[-> Hf]];
    cbn [snd]; intros Ho He; [left; auto|right; eauto].
Qed.

Lemma saveResults_cases sto id text data path d :
  (saveResults sto id text data path d = (Throws "SqliteError", d)
   /\ fails sto SaveResults = true)
  \/ exists d', saveResults sto id text data path d = (Returns tt, d')
                 /\ fails sto SaveResults = false
                 /\ otherReceipts id d' = otherReceipts id d
                 /\ expenses d' = expenses d.
Proof.
  pose proof (saveResults_frame sto id text data path d) as [Ho He]. revert Ho He.
  unfold saveResults.
  destruct (statement_outcome sto SaveResults
              (updateReceipt id (fun r =>
                 {| r_id := r_id r; r_status := Completed;
                    r_ocr_text := Some text; r_extracted := Some data;
                    r_processed_path := Some path |})) d) as [[-> Hf]|[-> Hf]];
    cbn [snd]; intros Ho He; [left; auto|right; eauto].
Qed.

Lemma otherReceipts_receipts id d d' :
  receipts d' = receipts d -> otherReceipts id d' = otherReceipts id d.
Proof. unfold otherReceipts. now intros ->. Qed.

Lemma added_refl id d d' : expenses d' = expenses d -> addedAtMostOne id d d'.
Proof. now left. Qed.

Lemma added_after id d d1 d2 :
  expenses d1 = expenses d -> addedAtMostOne id d1 d2 -> addedAtMostOne id d d2.
Proof. unfold addedAtMostOne. now intros ->. Qed.

(** What a job leaves behind, whatever the store and the text. *)
Lemma server_job_frame rt sto vendorOf itemsOf acquire id d :
  let r := Server.processReceipt rt sto vendorOf itemsOf acquire id d in
  otherReceipts id (snd r) = otherReceipts id d
  /\ addedAtMostOne id d (snd r)
  /\ (resultsNotWritten sto acquire -> expenses (snd r) = expenses d)
  /\ (fails sto (SetStatus Failed) = false -> fst r = Returns tt).
Proof.
  cbv zeta. unfold Server.processReceipt, tryCatch, bind.
  destruct (setStatus_cases sto Processing id d)
    as [[-> Fp]|(d1 & -> & Fp & O1 & E1)].
  { destruct (setStatus_cases sto Failed id d)
      as [[-> Ff]|(d' & -> & Ff & O' & E')]; frame. }
  unfold lift.
  destruct acquire as [[text path]|m]; cbn [fst snd].
  2:{ destruct (setStatus_cases sto Failed id d1)
        as [[-> Ff]|(d' & -> & Ff & O' & E')]; frame. }
  destruct (saveResults_cases sto id text
              (Server.extractReceiptData vendorOf itemsOf text) path d1)
    as [[-> Fs]|(d2 & -> & Fs & O2 & E2)].
  { destruct (setStatus_cases sto Failed id d1)
      as [[-> Ff]|(d' & -> & Ff & O' & E')]; frame. }
  pose proof (server_create_quiet rt sto
                (Server.extractReceiptData vendorOf itemsOf text) id d2) as [Hq _].
  pose proof (server_create_frame rt sto
                (Server.extractReceiptData vendorOf itemsOf text) id d2) as [Hr Ha].
  cbv zeta in Hr, Ha.
  destruct (Server.createExpenseFromExtractedData rt sto _ id d2) as [res d3].
  cbn [fst snd] in *. subst res. cbn [fst snd].
  split; [rewrite (otherReceipts_receipts id d2 d3 Hr); congruence|].
  split; [apply added_after with (d1 := d2); congruence|].
  split; [|reflexivity].
  intros [H|[[m H]|H]]; congruence.
Qed.

Lemma main_job_frame rt sto acquire ready llm id d :
  let r := Main.processReceipt rt sto acquire ready llm id d in
  otherReceipts id (snd r) = otherReceipts id d
  /\ addedAtMostOne id d (snd r)
  /\ (resultsNotWritten sto acquire -> expenses (snd r) = expenses d)
  /\ (fails sto (SetStatus Failed) = false -> exists o, fst r = Returns o).
Proof.
  cbv zeta. unfold Main.processReceipt, tryCatch, bind.
  destruct (setStatus_cases sto Processing id d)
    as [[-> Fp]|(d1 & -> & Fp & O1 & E1)].
  { destruct (setStatus_cases sto Failed id d)
      as [[-> Ff]|(d' & -> & Ff & O' & E')]; frame. }
  unfold lift.
  destruct acquire as [[text path]|m]; cbn [fst snd].
  2:{ destruct (setStatus_cases sto Failed id d1)
        as [[-> Ff]|(d' & -> & Ff & O' & E')]; frame. }
  destruct (saveResults_cases sto id text
              (Main.extractReceiptDataWithGemma rt ready llm text ready) path d1)
    as [[-> Fs]|(d2 & -> & Fs & O2 & E2)].
  { destruct (setStatus_cases sto Failed id d1)
      as [[-> Ff]|(d' & -> & Ff & O' & E')]; frame. }
  pose proof (main_create_quiet rt sto
                (Main.extractReceiptDataWithGemma rt ready llm text ready) id d2)
    as [[o Hq] _].
  pose proof (main_create_frame rt sto
                (Main.extractReceiptDataWithGemma rt ready llm text ready) id d2)
    as [Hr Ha].
  cbv zeta in Hr, Ha.
  destruct (Main.createExpenseFromExtractedData rt sto _ id d2) as [res d3].
  cbn [fst snd] in *. subst res. cbn [fst snd ret].
  split; [rewrite (otherReceipts_receipts id d2 d3 Hr); congruence|].
  split; [apply added_after with (d1 := d2); congruence|].
  split; [|eauto].
  intros [H|[[m H]|H]]; congruence.
Qed.

(** X15.  When the write of the status 'failed' does not throw,
    processReceipt does not throw either, whatever else fails: the
    HTTP job returns normally and the desktop job returns an outcome. *)
Theorem job_throws_only_with_failed_write
        rt sto vendorOf itemsOf acquire ready llm id d :
  fails sto (SetStatus Failed) = false ->
  fst (Server.processReceipt rt sto vendorOf itemsOf acquire id d) = Returns tt
  /\ exists o, fst (Main.processReceipt rt sto acquire ready llm id d) = Returns o.
Proof.
  intros H. split.
  - now apply server_job_frame.
  - now apply main_job_frame.
Qed.

Lemma job_throws_only_with_failed_write_witness :
  fst (Server.processReceipt Sample.runtime resultsWriteFails
         (fun _ => None) (fun _ => []) (Throws "OCR failed") "r1" oneReceipt)
  = Returns tt
  /\ exists o,
       fst (Main.processReceipt Sample.runtime resultsWriteFails (Throws "OCR failed")
              false (fun _ => Ollama.FetchRejects) "r1" oneReceipt)
       = Returns o.
Proof.
  apply (job_throws_only_with_failed_write Sample.runtime resultsWriteFails
           (fun _ => None) (fun _ => []) (Throws "OCR failed") false
           (fun _ => Ollama.FetchRejects) "r1" oneReceipt).
  reflexivity.
Defined.

(** X16.  A receipt job adds at most one expense, and that expense
    carries the job's receipt id; when the results are not written
    (the status cannot be set to processing, the text cannot be
    acquired, or the write of the results throws) it adds none. *)
Theorem job_adds_at_most_one_expense
        rt sto vendorOf itemsOf acquire ready llm id d :
  let server := snd (Server.processReceipt rt sto vendorOf itemsOf acquire id d) in
  let main := snd (Main.processReceipt rt sto acquire ready llm id d) in
  addedAtMostOne id d server /\ addedAtMostOne id d main
  /\ (resultsNotWritten sto acquire ->
      expenses server = expenses d /\ expenses main = expenses d).
Proof.
  cbv zeta.
  destruct (server_job_frame rt sto vendorOf itemsOf acquire id d) as (_ & Hs & Hsn & _).
  destruct (main_job_frame rt sto acquire ready llm id d) as (_ & Hm & Hmn & _).
  auto.
Qed.

(** X17.  A receipt job leaves the records of all other receipts as
    they were. *)
Theorem job_leaves_other_receipts
        rt sto vendorOf itemsOf acquire ready llm id d :
  otherReceipts id (snd (Server.processReceipt rt sto vendorOf itemsOf acquire id d))
  = otherReceipts id d
  /\ otherReceipts id (snd (Main.processReceipt rt sto acquire ready llm id d))
     = otherReceipts id d.
Proof.
  split.
  - now apply server_job_frame.
  - now apply main_job_frame.
Qed.

End JobFacts.

Section HealthFacts.
Import JS Data Health.

Lemma split_chr_nonempty sep s : split_chr sep s <> [].
Proof.
  induction s as [|c s IH]; cbn; [discriminate|].
  destruct (Ascii.eqb c sep); [discriminate|].
  destruct (split_chr sep s); [congruence|discriminate].
Qed.

Lemma family_prefix model : String.prefix (family model) model = true.
Proof.
  unfold family. induction model as [|c s IH]; cbn; auto.
  destruct (Ascii.eqb c ":"); [reflexivity|].
  destruct (split_chr ":" s) as [|h t] eqn:E.
  - now apply split_chr_nonempty in E.
  - cbn. destruct (ascii_dec c c); [exact IH|congruence].
Qed.

(** X18.  When every installed model has a name, checkHealth answers
    true exactly when the name of some installed model starts with the
    part of the configured model name before its first colon; the test
    for the exact name adds nothing. *)
Theorem health_check_family (model : string) (names : list string) :
  checkHealth model (named names)
  = existsb (String.prefix (family model)) names.
Proof.
  unfold checkHealth, named.
  induction names as [|name names IH]; cbn [map hasModel existsb]; auto.
  destruct (String.eqb_spec name model) as [->|Hne].
  - rewrite family_prefix. reflexivity.
  - cbn [orb]. destruct (String.prefix (family model) name); auto.
Qed.

Lemma health_check_example :
  checkHealth "gemma2:2b" (named ["llama3:8b"; "gemma2:27b"]) = true
  /\ checkHealth "gemma2:2b" (named ["llama3:8b"]) = false
  /\ checkHealth "gemma2:2b" (Tags None) = false.
Proof. repeat split. Qed.

End HealthFacts.

Section VendorFacts.
Import JS Regex Data Vendors.

Lemma gtb_six_five c :
  Num.gtb c (Num.dec 6 10) = true -> Num.gtb c (Num.dec 5 10) = true.
Proof.
  destruct c as [| | |q]; try (intros H; exact H).
  unfold Num.gtb, Num.ltb, Num.dec, Num.of_Q. rewrite !Q_ltb_lt, !Qred_correct.
  intros H. eapply Qlt_trans; [|exact H]. reflexivity.
Qed.

Lemma consider_credible search threshold query acc :
  (forall c, Num.gtb c threshold = true -> Num.gtb c (Num.dec 5 10) = true) ->
  credible search acc -> credible search (consider search threshold query acc).
Proof.
  intros Ht Hacc. unfold consider.
  destruct (search query) as [[name score]|] eqn:E; auto.
  destruct (Num.gtb (sub (Num.of_Z 1) score) (highestConfidence acc)
            && Num.gtb (sub (Num.of_Z 1) score) threshold) eqn:G; auto.
  apply andb_true_iff in G as [_ G].
  unfold credible. cbn [bestMatch highestConfidence]. split; [now apply Ht|].
  now exists query, score.
Qed.

Lemma scanLine_credible search acc line :
  credible search acc -> credible search (scanLine search acc line).
Proof.
  intros Hacc. unfold scanLine.
  destruct (isIrrelevantLine (trim line)); auto.
  destruct (String.length (cleanLineForVendorDetection (trim line)) <? 3)%nat; auto.
  assert (H0 : credible search
                 (consider search (Num.dec 5 10)
                    (cleanLineForVendorDetection (trim line)) acc))
    by (apply consider_credible; auto).
  revert H0.
  generalize (consider search (Num.dec 5 10)
                (cleanLineForVendorDetection (trim line)) acc).
  induction (split_ws (cleanLineForVendorDetection (trim line))) as [|w ws IH];
    intros b Hb; cbn [fold_left]; auto.
  apply IH. destruct (2 <? String.length w)%nat; auto.
  apply consider_credible; auto. apply gtb_six_five.
Qed.

(** X19.  The vendor detector returns either no vendor with confidence
    0, or a name the fuzzy index returned for some query, with
    confidence 1 minus the score of that answer, strictly above 0.5. *)
Theorem vendor_needs_confidence search (lines : list string) :
  credible search (extractVendorWithFuzzyMatching search lines).
Proof.
  unfold extractVendorWithFuzzyMatching.
  assert (H0 : credible search
                 {| bestMatch := None; highestConfidence := Num.of_Z 0 |})
    by reflexivity.
  revert H0.
  generalize {| bestMatch := None; highestConfidence := Num.of_Z 0 |}.
  induction (firstn 20 lines) as [|l ls IH]; intros b Hb; cbn [fold_left]; auto.
  apply IH. now apply scanLine_credible.
Qed.

Lemma forall_str_trimStart p s : forall_str p s = true -> forall_str p (trimStart s) = true.
Proof.
  induction s as [|c s IH]; cbn; auto. intros H.
  destruct (is_space c); auto. apply andb_true_iff in H as [_ H]. auto.
Qed.

Lemma forall_str_trimEnd p s : forall_str p s = true -> forall_str p (trimEnd s) = true.
Proof.
  induction s as [|c s IH]; cbn; auto. intros H.
  apply andb_true_iff in H as [Hc H].
  destruct (is_space c && is_empty (trimEnd s)); cbn; auto.
  rewrite Hc. auto.
Qed.

Lemma forall_str_trim p s : forall_str p s = true -> forall_str p (trim s) = true.
Proof. intros H. unfold trim. now apply forall_str_trimEnd, forall_str_trimStart. Qed.

Lemma lower_not_alpha c : is_alpha c = false -> is_alpha (lower_char c) = false.
Proof. by_char c. Qed.

Lemma noLetter_lower s : noLetter s = true -> noLetter (toLowerCase s) = true.
Proof.
  unfold noLetter, toLowerCase. induction s as [|c s IH]; cbn; auto. intros H.
  apply andb_true_iff in H as [Hc H]. apply negb_true_iff in Hc.
  rewrite (lower_not_alpha c Hc). cbn. auto.
Qed.

Lemma noLetter_irrelevant line : noLetter line = true -> isIrrelevantLine line = true.
Proof.
  intros H. apply noLetter_lower in H.
  unfold isIrrelevantLine. cbv zeta. apply existsb_exists.
  exists (seqs [star (Cls (fun c => negb (is_alpha c))); Eol]). split.
  - unfold irrelevantPatterns. do 6 right. left. reflexivity.
  - unfold test_start, exec, start. cbn [seqs].
    change (is_some (run (star (Cls (fun c => negb (is_alpha c))))
                         {| rest := toLowerCase line; opened := []; closed := [] |}
                         (fun st' => run Eol st' (@Some mstate))) = true).
    rewrite <- (append_nil_r (toLowerCase line)) at 1. unfold star.
    erewrite run_rep_cls with (x := {| rest := ""; opened := []; closed := [] |});
      auto.
    + lia.
    + right. exact I.
    + rewrite pushs_nil. reflexivity.
Qed.

(** X20.  When none of the first 20 lines holds a letter, the vendor
    detector returns no vendor with confidence 0, whatever the fuzzy
    index would answer: every such line is skipped as irrelevant. *)
Theorem vendor_needs_a_letter search (lines : list string) :
  (forall line, In line (firstn 20 lines) -> noLetter line = true) ->
  extractVendorWithFuzzyMatching search lines = noVendor.
Proof.
  unfold extractVendorWithFuzzyMatching. fold noVendor.
  generalize noVendor.
  induction (firstn 20 lines) as [|l ls IH]; intros b H; cbn [fold_left]; auto.
  assert (scanLine search b l = b) as ->.
  { unfold scanLine.
    rewrite noLetter_irrelevant; auto.
    apply forall_str_trim. apply H. now left. }
  apply IH. intros line Hl. apply H. now right.
Qed.

Lemma vendor_needs_a_letter_witness :
  extractVendorWithFuzzyMatching walmartIndex ["12/05/2024"; "$ 5.75"; "0042 1177"]
  = noVendor.
Proof.
  apply (vendor_needs_a_letter walmartIndex ["12/05/2024"; "$ 5.75"; "0042 1177"]).
  intros line H. cbn in H.
  destruct H as [<-|[<-|[<-|[]]]]; reflexivity.
Defined.

Lemma vendor_example :
  extractVendorWithFuzzyMatching walmartIndex ["0042"; "WALMART Supercenter #5"]
  = {| bestMatch := Some "Walmart"; highestConfidence := Num.dec 9 10 |}.
Proof. reflexivity. Qed.

End VendorFacts.

Section CleanLineFacts.
Import JS Regex Data Vendors.

Lemma forall_map_str (p : ascii -> bool) f s :
  (forall c, p (f c) = true) -> forall_str p (map_str f s) = true.
Proof. intros H. induction s as [|c s IH]; cbn; auto. now rewrite H, IH. Qed.

Lemma forall_collapse s : forall b,
  forall_str (fun c => is_alnum c || is_space c) s = true ->
  forall_str (fun c => is_alnum c || chr " " c) (collapse_from b s) = true.
Proof.
  induction s as [|c s IH]; intros b; cbn [forall_str collapse_from]; auto.
  intros H. apply andb_true_iff in H as [Hc H].
  destruct (is_space c) eqn:Es.
  - destruct b; cbn [forall_str]; auto.
    rewrite (IH true H). rewrite orb_true_r. reflexivity.
  - rewrite orb_false_r in Hc. cbn [forall_str]. rewrite Hc. cbn [orb andb]. auto.
Qed.

Lemma lower_plain c : is_alnum c || chr " " c = true -> plainChar (lower_char c) = true.
Proof. by_char c. Qed.

Lemma forall_lower (p q : ascii -> bool) s :
  (forall c, p c = true -> q (lower_char c) = true) ->
  forall_str p s = true -> forall_str q (toLowerCase s) = true.
Proof.
  intros H. unfold toLowerCase. induction s as [|c s IH]; cbn; auto. intros Hs.
  apply andb_true_iff in Hs as [Hc Hs]. now rewrite (H c Hc), IH.
Qed.

Lemma lower_space c : is_space (lower_char c) = is_space c.
Proof. by_char c. Qed.

Lemma lower_lower c : lower_char (lower_char c) = lower_char c.
Proof. by_char c. Qed.

Lemma is_empty_map f s : is_empty (map_str f s) = is_empty s.
Proof. destruct s; reflexivity. Qed.

Lemma trimStart_lower s : trimStart (toLowerCase s) = toLowerCase (trimStart s).
Proof.
  unfold toLowerCase. induction s as [|c s IH]; cbn; auto.
  rewrite lower_space. destruct (is_space c); auto.
Qed.

Lemma trimEnd_lower s : trimEnd (toLowerCase s) = toLowerCase (trimEnd s).
Proof.
  unfold toLowerCase. induction s as [|c s IH]; cbn; auto.
  rewrite lower_space, IH, is_empty_map.
  destruct (is_space c && is_empty (trimEnd s)); auto.
Qed.

Lemma trim_lower s : trim (toLowerCase s) = toLowerCase (trim s).
Proof. unfold trim. now rewrite trimStart_lower, trimEnd_lower. Qed.

Lemma lower_idem s : toLowerCase (toLowerCase s) = toLowerCase s.
Proof.
  unfold toLowerCase. induction s as [|c s IH]; cbn; auto.
  now rewrite lower_lower, IH.
Qed.

Lemma collapse_length s : forall b,
  (String.length (collapse_from b s) <= String.length s)%nat.
Proof.
  induction s as [|c s IH]; intros b; cbn; auto.
  pose proof (IH true). pose proof (IH false).
  destruct (is_space c); [destruct b|]; cbn; lia.
Qed.

Lemma collapse_collapse s :
  (forall b, collapse_from false (collapse_from b s) = collapse_from b s)
  /\ collapse_from true (collapse_from true s) = collapse_from true s.
Proof.
  induction s as [|c s [IH1 IH2]]; cbn; auto.
  destruct (is_space c) eqn:Es.
  - split; [intros [|]|]; auto. cbn. now rewrite IH2.
  - split; [intros b|]; cbn; rewrite Es; now rewrite IH1.
Qed.

Lemma collapse_lower s : forall b,
  collapse_from b (toLowerCase s) = toLowerCase (collapse_from b s).
Proof.
  unfold toLowerCase. induction s as [|c s IH]; intros b; cbn; auto.
  rewrite lower_space. destruct (is_space c); [destruct b|]; cbn; now rewrite ?IH.
Qed.

(** A fixed point keeps its first character. *)
Lemma collapse_fixed_head b c s :
  collapse_from b (String c s) = String c s ->
  (is_space c = true -> b = false /\ c = " "%char /\ collapse_from true s = s)
  /\ (is_space c = false -> collapse_from false s = s).
Proof.
  cbn. destruct (is_space c) eqn:Es.
  - destruct b.
    + intros H. exfalso.
      pose proof (collapse_length s true) as Hl. rewrite H in Hl. cbn in Hl. lia.
    + intros H. injection H as <- H. split; [auto|discriminate].
  - intros H. injection H as H. split; [discriminate|auto].
Qed.

Lemma collapse_trimEnd s : forall b,
  collapse_from b s = s -> collapse_from b (trimEnd s) = trimEnd s.
Proof.
  induction s as [|c s IH]; intros b H; auto.
  destruct (collapse_fixed_head b c s H) as [Hsp Hns].
  cbn [trimEnd]. cbv zeta.
  destruct (is_space c) eqn:Es.
  - destruct (Hsp eq_refl) as (-> & -> & Ht).
    destruct (is_empty (trimEnd s)); cbn; auto.
    now rewrite (IH true Ht).
  - cbn [andb]. cbn. rewrite Es. now rewrite (IH false (Hns eq_refl)).
Qed.

Lemma collapse_trimStart s :
  collapse_from false s = s -> collapse_from false (trimStart s) = trimStart s.
Proof.
  destruct s as [|c s]; auto. intros H.
  destruct (collapse_fixed_head false c s H) as [Hsp Hns].
  cbn [trimStart]. destruct (is_space c) eqn:Es; [|exact H].
  destruct (Hsp eq_refl) as (_ & _ & Ht).
  destruct s as [|d s]; auto.
  destruct (collapse_fixed_head true d s Ht) as [Hsp' Hns'].
  destruct (is_space d) eqn:Ed.
  - now destruct (Hsp' eq_refl).
  - cbn [trimStart]. rewrite Ed. cbn. rewrite Ed. now rewrite (Hns' eq_refl).
Qed.

Lemma map_str_fixed f s :
  forall_str (fun c => Ascii.eqb (f c) c) s = true -> map_str f s = s.
Proof.
  induction s as [|c s IH]; cbn; auto. intros H.
  apply andb_true_iff in H as [Hc H]. apply Ascii.eqb_eq in Hc.
  now rewrite Hc, IH.
Qed.

Lemma plain_kept c :
  plainChar c = true ->
  Ascii.eqb (if is_alnum c || is_space c then c else " "%char) c = true
  /\ Ascii.eqb (lower_char c) c = true.
Proof. by_char c. Qed.

(** X21.  The line cleaned for vendor detection holds only lower-case
    letters, digits and spaces, has no space at either end and no two
    spaces in a row, and cleaning it again changes nothing. *)
Theorem clean_line_normal_form (line : string) :
  let clean := cleanLineForVendorDetection line in
  forall_str plainChar clean = true
  /\ trim clean = clean
  /\ collapse clean = clean
  /\ cleanLineForVendorDetection clean = clean.
Proof.
  cbv zeta.
  set (replaced := map_str (fun c => if is_alnum c || is_space c then c else " "%char)
                           line).
  assert (Hchars : forall_str plainChar (cleanLineForVendorDetection line) = true).
  { unfold cleanLineForVendorDetection. fold replaced.
    apply forall_lower with (p := fun c => is_alnum c || chr " " c);
      [exact lower_plain|].
    apply forall_str_trim. apply forall_collapse.
    apply forall_map_str. intros c.
    destruct (is_alnum c || is_space c) eqn:E; auto. }
  assert (Htrim : trim (cleanLineForVendorDetection line)
                  = cleanLineForVendorDetection line).
  { unfold cleanLineForVendorDetection. now rewrite trim_lower, trim_idem. }
  assert (Hcol : collapse (cleanLineForVendorDetection line)
                 = cleanLineForVendorDetection line).
  { unfold cleanLineForVendorDetection, collapse. fold replaced.
    rewrite collapse_lower. f_equal. unfold trim.
    apply collapse_trimEnd. apply collapse_trimStart.
    apply (proj1 (collapse_collapse replaced) false). }
  repeat split; auto.
  unfold cleanLineForVendorDetection at 1.
  rewrite map_str_fixed.
  2:{ revert Hchars. apply forall_str_impl. intros c Hc. now apply plain_kept. }
  rewrite Hcol, Htrim.
  apply map_str_fixed.
  revert Hchars. apply forall_str_impl. intros c Hc. now apply plain_kept.
Qed.

Lemma clean_line_example :
  cleanLineForVendorDetection "  WAL-MART   Supercenter #5 " = "wal mart supercenter 5".
Proof. reflexivity. Qed.

End CleanLineFacts.

Section CategoryFacts.
Import JS Data Categories.

Lemma find_none_names (name : string) (l : list category) :
  find (fun c => String.eqb (c_name c) name) l = None ->
  ~ In name (map c_name l).
Proof.
  induction l as [|r l IH]; cbn; auto.
  destruct (String.eqb_spec (c_name r) name) as [E|E]; [discriminate|].
  intros H [F|F]; [congruence|]. now apply IH.
Qed.

Lemma NoDup_snoc {X : Type} (l : list X) (x : X) :
  NoDup l -> ~ In x l -> NoDup (l ++ [x]).
Proof.
  induction l as [|y l IH]; cbn; intros Hl Hx.
  - constructor; [intros []|constructor].
  - inversion Hl as [|? ? Hy Hl']; subst. constructor.
    + rewrite in_app_iff. cbn. intros [F|[F|[]]]; [auto|]. apply Hx. now left.
    + apply IH; auto.
Qed.

Lemma findOrCreate_spec rt fails m t :
  working fails -> freshId rt t ->
  exists id t',
    findOrCreate rt fails m t = (Returns id, t') /\ foundOrCreated rt fails m id t t'.
Proof.
  intros [Hf Ha] Hfresh. unfold foundOrCreated, findOrCreate, selectIdByName.
  rewrite Hf.
  destruct (find (fun c => String.eqb (c_name c) (m_name m)) (rows t)) as [c|] eqn:E.
  - exists (c_id c), t. cbn [option_map]. rewrite E. cbn [option_map].
    repeat split; auto.
  - cbn [option_map]. unfold insertCategory. rewrite Ha.
    assert (Hv : violates {| c_id := uuidv4 rt (drawn t); c_name := m_name m;
                             c_color := m_color m; c_icon := m_icon m;
                             c_type := m_type m |}
                          {| rows := rows t; drawn := S (drawn t) |} = false).
    { unfold violates. cbn [rows c_id c_name].
      apply not_true_iff_false. intros H. apply existsb_exists in H as (r & Hr & H).
      apply orb_true_iff in H as [H|H]; apply String.eqb_eq in H.
      - now apply (Hfresh r Hr).
      - apply (find_none_names _ _ E). rewrite <- H. now apply in_map. }
    rewrite Hv.
    eexists. eexists. split; [reflexivity|].
    cbn [rows drawn]. rewrite find_append, E. cbn [find c_name].
    rewrite String.eqb_refl. cbn [option_map c_id].
    repeat split; auto.
    unfold names. cbn [rows]. rewrite map_app. cbn [map c_name].
    intros Hn. apply NoDup_snoc; auto. now apply find_none_names.
Qed.

(** X22.  HTTP getOrCreateCategory, when the database accepts both
    statements and the next identifier is not in use: it returns an
    identifier under which the name of the vendor's category is then
    found; a repeat of the call returns the same identifier and
    changes nothing; at most one row is added, with the name, colour,
    icon and type of the mapping; names stay unique. *)
Theorem server_category_find_or_create rt fails toUpperCase vendorName t :
  working fails -> freshId rt t ->
  exists id t',
    ServerCategories.getOrCreateCategory rt fails toUpperCase vendorName t
    = (Returns id, t')
    /\ foundOrCreated rt fails
         (ServerCategories.intelligentVendorToCategory toUpperCase vendorName)
         id t t'.
Proof. intros. now apply findOrCreate_spec. Qed.

Lemma assoc_in {X : Type} key (l : list (string * X)) x :
  assoc key l = Some x -> In (key, x) l.
Proof.
  induction l as [|[k y] l IH]; cbn; [discriminate|].
  destruct (String.eqb_spec k key) as [->|E].
  - intros H. injection H as ->. now left.
  - intros H. right. auto.
Qed.

Lemma seeded_fresh : freshId Sample.runtime seeded.
Proof.
  intros r H. cbn in H. destruct H as [<-|[<-|[]]]; vm_compute; discriminate.
Defined.

Lemma working_noFailure : working noFailure.
Proof. split; reflexivity. Defined.

Lemma server_category_find_or_create_witness :
  exists id t',
    ServerCategories.getOrCreateCategory Sample.runtime noFailure upperAscii
      "Walmart" seeded = (Returns id, t')
    /\ foundOrCreated Sample.runtime noFailure
         (ServerCategories.intelligentVendorToCategory upperAscii "Walmart")
         id seeded t'.
Proof.
  apply (server_category_find_or_create Sample.runtime noFailure upperAscii
           "Walmart" seeded working_noFailure seeded_fresh).
Defined.

Lemma exact_is_contained {X : Type} (l : list (string * X)) (same : X -> X -> bool) :
  (forall x y, same x y = true -> x = y) ->
  forallb (fun kv => match firstContained l (fst kv) with
                     | Some x => same x (snd kv)
                     | None => false
                     end) l = true ->
  forall key x, assoc key l = Some x -> firstContained l key = Some x.
Proof.
  intros Hsame Hall key x Hk. apply assoc_in in Hk.
  rewrite forallb_forall in Hall. specialize (Hall _ Hk). cbn [fst snd] in Hall.
  destruct (firstContained l key) as [y|]; [|discriminate].
  now rewrite (Hsame _ _ Hall).
Qed.

Lemma mapping_eqb_eq (x y : mapping) :
  (String.eqb (m_name x) (m_name y) && String.eqb (m_color x) (m_color y)
   && String.eqb (m_icon x) (m_icon y) && String.eqb (m_type x) (m_type y)) = true ->
  x = y.
Proof.
  destruct x, y. cbn. rewrite !andb_true_iff, !String.eqb_eq.
  intros [[[-> ->] ->] ->]. reflexivity.
Qed.

Lemma server_exact_contained key x :
  assoc key ServerCategories.vendorMappings = Some x ->
  firstContained ServerCategories.vendorMappings key = Some x.
Proof.
  apply (exact_is_contained _ String.eqb); [apply String.eqb_eq|]. vm_compute. reflexivity.
Qed.

Lemma desktop_exact_contained key x :
  assoc key DesktopCategories.vendorCategoryMap = Some x ->
  firstContained DesktopCategories.vendorCategoryMap key = Some x.
Proof.
  apply (exact_is_contained _
           (fun a b => String.eqb (m_name a) (m_name b) && String.eqb (m_color a) (m_color b)
                       && String.eqb (m_icon a) (m_icon b) && String.eqb (m_type a) (m_type b)));
    [apply mapping_eqb_eq|]. vm_compute. reflexivity.
Qed.

Lemma desktop_categoryData vendorName :
  inherited (toLowerCase vendorName) = false ->
  DesktopCategories.categoryData vendorName
  = Own (containedOr DesktopCategories.vendorCategoryMap (toLowerCase vendorName)
                     desktopOther).
Proof.
  intros Hi. unfold DesktopCategories.categoryData, property, containedOr.
  destruct (assoc _ _) as [x|] eqn:E.
  - now rewrite (desktop_exact_contained _ _ E).
  - rewrite Hi. destruct (firstContained _ _); reflexivity.
Qed.

Lemma server_mappedVendor toUpperCase vendor :
  inherited (toLowerCase (orUnknown vendor)) = false ->
  ServerCategories.mappedVendor toUpperCase vendor
  = Own (containedOr ServerCategories.vendorMappings (toLowerCase (orUnknown vendor))
                     (ServerCategories.capitalize toUpperCase (orUnknown vendor))).
Proof.
  intros Hi. unfold ServerCategories.mappedVendor, property, containedOr.
  fold (orUnknown vendor).
  destruct (assoc _ _) as [x|] eqn:E.
  - now rewrite (server_exact_contained _ _ E).
  - rewrite Hi. destruct (firstContained _ _); reflexivity.
Qed.

(** X23.  Desktop getOrCreateCategory, for a vendor whose lower-cased
    name is not a member of Object.prototype, when the database
    accepts both statements and the next identifier is not in use: the
    category is the one of the first key of vendorCategoryMap
    contained in the lower-cased name, 'Other' when there is none (the
    exact lookup adds nothing); the call returns an identifier under
    which that category's name is then found, a repeat returns the
    same identifier and changes nothing, at most one row is added, and
    names stay unique. *)
Theorem desktop_category_find_or_create rt fails onInherited vendorName t :
  working fails -> freshId rt t ->
  inherited (toLowerCase vendorName) = false ->
  exists id t',
    DesktopCategories.getOrCreateCategory rt fails onInherited vendorName t
    = (Returns id, t')
    /\ foundOrCreated rt fails
         (containedOr DesktopCategories.vendorCategoryMap (toLowerCase vendorName)
                      desktopOther)
         id t t'.
Proof.
  intros Hw Hf Hi. unfold DesktopCategories.getOrCreateCategory.
  rewrite (desktop_categoryData _ Hi). now apply findOrCreate_spec.
Qed.

Lemma desktop_category_find_or_create_witness :
  exists id t',
    DesktopCategories.getOrCreateCategory Sample.runtime noFailure
      (fun _ t => (Throws "TypeError", t)) "Starbucks Coffee #12" seeded
    = (Returns id, t')
    /\ foundOrCreated Sample.runtime noFailure
         (containedOr DesktopCategories.vendorCategoryMap
                      (toLowerCase "Starbucks Coffee #12") desktopOther)
         id seeded t'.
Proof.
  apply (desktop_category_find_or_create Sample.runtime noFailure
           (fun _ t => (Throws "TypeError", t)) "Starbucks Coffee #12" seeded
           working_noFailure seeded_fresh).
  reflexivity.
Defined.

(** X24.  In categorizePurchase, for a vendor whose lower-cased name
    is not a member of Object.prototype, the exact lookup in
    vendorMappings never decides: the name passed to
    getOrCreateCategory is the value of the first key contained in the
    lower-cased vendor name, or the capitalized vendor name when no
    key is contained ('Unknown' standing for a missing vendor). *)
Theorem server_exact_lookup_is_redundant rt fails toUpperCase vendor t :
  inherited (toLowerCase (orUnknown vendor)) = false ->
  ServerCategories.categorizePurchase rt fails toUpperCase vendor t
  = ServerCategories.getOrCreateCategory rt fails toUpperCase
      (containedOr ServerCategories.vendorMappings (toLowerCase (orUnknown vendor))
                   (ServerCategories.capitalize toUpperCase (orUnknown vendor)))
      t.
Proof.
  intros Hi. unfold ServerCategories.categorizePurchase.
  now rewrite (server_mappedVendor _ _ Hi).
Qed.

Lemma server_exact_lookup_is_redundant_witness :
  ServerCategories.categorizePurchase Sample.runtime noFailure upperAscii
    "UBER" seeded
  = ServerCategories.getOrCreateCategory Sample.runtime noFailure upperAscii
      "Uber Eats" seeded.
Proof.
  apply (server_exact_lookup_is_redundant Sample.runtime noFailure upperAscii
           "UBER" seeded).
  reflexivity.
Defined.

Lemma inherited_no_key key :
  inherited key = true -> assoc key ServerCategories.vendorMappings = None.
Proof.
  intros Hi. destruct (assoc _ _) as [x|] eqn:E; [|reflexivity].
  apply assoc_in in E.
  assert (H : forallb (fun kv => negb (inherited (fst kv)))
                      ServerCategories.vendorMappings = true) by (vm_compute; reflexivity).
  rewrite forallb_forall in H. specialize (H _ E). cbn [fst] in H.
  rewrite Hi in H. discriminate.
Qed.

Lemma server_inherited_throws rt fails toUpperCase vendor t :
  inherited (toLowerCase vendor) = true ->
  ServerCategories.categorizePurchase rt fails toUpperCase vendor t
  = (Throws "TypeError: vendorName.toLowerCase is not a function", t).
Proof.
  intros Hi. unfold ServerCategories.categorizePurchase, ServerCategories.mappedVendor.
  assert (Ht : truthy_str vendor = true).
  { destruct vendor; [discriminate Hi|reflexivity]. }
  rewrite Ht. unfold property. now rewrite (inherited_no_key _ Hi), Hi.
Qed.

(** X25.  For a vendor whose lower-cased name is a member of
    Object.prototype (such as 'Constructor'), categorizePurchase
    throws a TypeError: vendorMappings[vendorLower] returns the
    inherited member, which is passed on and has no toLowerCase. The
    HTTP materializer catches the error, returns normally and creates
    no expense. *)
Theorem prototype_vendor_has_no_expense
        rt fails toUpperCase t sto extractedData receiptId db0 v :
  vendor extractedData = Str v ->
  inherited (toLowerCase v) = true ->
  Store.categoryFor sto v
  = fst (ServerCategories.categorizePurchase rt fails toUpperCase v t) ->
  ServerCategories.categorizePurchase rt fails toUpperCase v t
  = (Throws "TypeError: vendorName.toLowerCase is not a function", t)
  /\ fst (Server.createExpenseFromExtractedData rt sto extractedData receiptId db0)
     = Returns tt
  /\ Store.expenses
       (snd (Server.createExpenseFromExtractedData rt sto extractedData receiptId db0))
     = Store.expenses db0.
Proof.
  intros Hv Hi Hc. rewrite (server_inherited_throws rt fails toUpperCase v t Hi) in *.
  split; [reflexivity|]. cbn [fst] in Hc.
  assert (Ht : truthy_str v = true).
  { destruct v; [discriminate Hi|reflexivity]. }
  unfold Server.createExpenseFromExtractedData, Store.tryCatch.
  destruct (negb (truthy (amount extractedData)) || _); [split; reflexivity|].
  unfold Store.bind, Store.uuid, Store.getOrCreateCategory, Store.lift.
  rewrite Hv. cbn [orElse]. rewrite Ht, Hc. split; reflexivity.
Qed.

Lemma prototype_vendor_has_no_expense_witness :
  let sto :=
    {| Store.fails := fun _ => false;
       Store.categoryFor := fun v =>
         fst (ServerCategories.categorizePurchase Sample.runtime noFailure
                upperAscii v seeded) |} in
  ServerCategories.categorizePurchase Sample.runtime noFailure upperAscii
    "Constructor" seeded
  = (Throws "TypeError: vendorName.toLowerCase is not a function", seeded)
  /\ fst (Server.createExpenseFromExtractedData Sample.runtime sto
            constructorReceipt "r1" oneReceipt) = Returns tt
  /\ Store.expenses
       (snd (Server.createExpenseFromExtractedData Sample.runtime sto
               constructorReceipt "r1" oneReceipt))
     = Store.expenses oneReceipt.
Proof.
  intros sto.
  apply (prototype_vendor_has_no_expense Sample.runtime noFailure upperAscii
           seeded sto constructorReceipt "r1" oneReceipt "Constructor");
    reflexivity.
Defined.

Lemma capitalize_nonempty toUpperCase s :
  (forall c, toUpperCase (String c EmptyString) <> EmptyString) ->
  s <> EmptyString ->
  truthy_str (ServerCategories.capitalize toUpperCase s) = true.
Proof.
  intros Hup Hs. destruct s as [|c s]; [congruence|]. cbn [ServerCategories.capitalize].
  specialize (Hup c). destruct (toUpperCase (String c EmptyString)); [congruence|reflexivity].
Qed.

(** X26.  The name categorizePurchase passes to getOrCreateCategory is
    never empty, so the branch of intelligentVendorToCategory for a
    missing vendor (the category 'Other') is not reached from it; a
    receipt without a vendor is filed under a category named 'Unknown'
    of type 'vendor'. (Assuming toUpperCase maps no single character
    to the empty string and 'U' to itself.) *)
Theorem server_never_uses_the_default_category rt fails toUpperCase vendor t :
  (forall c, toUpperCase (String c EmptyString) <> EmptyString) ->
  toUpperCase "U" = "U" ->
  (forall name, ServerCategories.mappedVendor toUpperCase vendor = Own name ->
                truthy_str name = true)
  /\ ServerCategories.categorizePurchase rt fails toUpperCase "" t
     = findOrCreate rt fails unknownVendor t.
Proof.
  intros Hup HU. split.
  - intros name. unfold ServerCategories.mappedVendor, property.
    fold (orUnknown vendor).
    destruct (assoc _ _) as [x|] eqn:E.
    + intros H. injection H as <-. apply assoc_in in E.
      assert (H : forallb (fun kv => truthy_str (snd kv))
                          ServerCategories.vendorMappings = true) by (vm_compute; reflexivity).
      rewrite forallb_forall in H. apply (H _ E).
    + destruct (inherited _); [discriminate|].
      unfold firstContained.
      destruct (find _ _) as [kv|] eqn:F; cbn [option_map]; intros H; injection H as <-.
      * apply find_some in F as [F _].
        assert (H : forallb (fun kv => truthy_str (snd kv))
                            ServerCategories.vendorMappings = true) by (vm_compute; reflexivity).
        rewrite forallb_forall in H. apply (H _ F).
      * apply capitalize_nonempty; auto. unfold orUnknown.
        destruct vendor; cbn; discriminate.
  - unfold ServerCategories.categorizePurchase.
    rewrite server_mappedVendor by reflexivity.
    change (orUnknown "") with "Unknown". unfold containedOr.
    assert (F : firstContained ServerCategories.vendorMappings (toLowerCase "Unknown") = None)
      by (vm_compute; reflexivity).
    rewrite F. cbn [ServerCategories.capitalize]. rewrite HU.
    unfold ServerCategories.getOrCreateCategory.
    assert (G : ServerCategories.intelligentVendorToCategory toUpperCase
                  ("U" ++ toLowerCase "nknown") = unknownVendor).
    { unfold ServerCategories.intelligentVendorToCategory.
      change ("U" ++ toLowerCase "nknown") with "Unknown".
      cbn -[ServerCategories.capitalizeVendorName].
      unfold ServerCategories.capitalizeVendorName.
      change (split_chr " " "Unknown") with ["Unknown"].
      cbn [map ServerCategories.join ServerCategories.capitalize]. rewrite HU.
      reflexivity. }
    now rewrite G.
Qed.

Lemma server_never_uses_the_default_category_witness :
  (forall name, ServerCategories.mappedVendor upperAscii "Corner Shop" = Own name ->
                truthy_str name = true)
  /\ ServerCategories.categorizePurchase Sample.runtime noFailure upperAscii
       "" seeded
     = findOrCreate Sample.runtime noFailure unknownVendor seeded.
Proof.
  apply (server_never_uses_the_default_category Sample.runtime noFailure
           upperAscii "Corner Shop" seeded).
  - intros c. cbn. discriminate.
  - reflexivity.
Defined.

End CategoryFacts.

Section RouteFacts.
Import JS Regex Data Routes.

Lemma takeN_spec p n : forall s a b,
  takeN p n s = Some (a, b) ->
  s = a ++ b /\ forall_str p a = true /\ String.length a = n.
Proof.
  induction n as [|n IH]; intros s a b; cbn [takeN].
  - intros H. injection H as <- <-. auto.
  - destruct s as [|c s]; [discriminate|].
    destruct (p c) eqn:Hc; [|discriminate].
    destruct (takeN p n s) as [[x y]|] eqn:E; [|discriminate].
    intros H. injection H as <- <-.
    destruct (IH _ _ _ E) as (-> & Hx & Hl). cbn. rewrite Hc, Hx, Hl. auto.
Qed.

Lemma takeN_exact p n a b :
  forall_str p a = true /\ String.length a = n -> takeN p n (a ++ b) = Some (a, b).
Proof. intros [Ha <-]. now apply takeN_all. Qed.

Lemma chr_eq a c : chr a c = true -> c = a.
Proof. unfold chr. intros H. apply Ascii.eqb_eq in H. auto. Qed.

Lemma run_seq_exactly (A : Type) (p : ascii -> bool) (r : re) (k : cont A) n s o c :
  run (Seq (exactly n (Cls p)) r) {| rest := s; opened := o; closed := c |} k
  = match takeN p n s with
    | Some (a, b) => run r {| rest := b; opened := pushs a o; closed := c |} k
    | None => None
    end.
Proof.
  change (run (Seq (exactly n (Cls p)) r) {| rest := s; opened := o; closed := c |} k)
    with (run (exactly n (Cls p)) {| rest := s; opened := o; closed := c |}
              (fun st' => run r st' k)).
  rewrite run_exactly. destruct (takeN p n s) as [[a b]|]; reflexivity.
Qed.

Lemma run_seq_cls (A : Type) (p : ascii -> bool) (r : re) (k : cont A) s o c :
  run (Seq (Cls p) r) {| rest := s; opened := o; closed := c |} k
  = match s with
    | String x s' =>
        if p x then run r {| rest := s'; opened := push x o; closed := c |} k
        else None
    | EmptyString => None
    end.
Proof. reflexivity. Qed.

Lemma run_eol (A : Type) (k : cont A) s o c :
  run Eol {| rest := s; opened := o; closed := c |} k
  = match s with
    | EmptyString => k {| rest := s; opened := o; closed := c |}
    | String _ _ => None
    end.
Proof. destruct s; reflexivity. Qed.

Lemma uuid_shape uuid : isValidUUID uuid = true -> canonical uuid.
Proof.
  unfold isValidUUID, test_start, exec, start, uuidRegex. cbn [seqs].
  rewrite run_seq_exactly.
  destruct (takeN hex 8 uuid) as [[a r1]|] eqn:E1; [|discriminate].
  rewrite run_seq_cls. destruct r1 as [|d1 r1]; [discriminate|].
  destruct (chr "-" d1) eqn:D1; [|discriminate]. rewrite run_seq_exactly.
  destruct (takeN hex 4 r1) as [[b r2]|] eqn:E2; [|discriminate].
  rewrite run_seq_cls. destruct r2 as [|d2 r2]; [discriminate|].
  destruct (chr "-" d2) eqn:D2; [|discriminate].
  rewrite run_seq_cls. destruct r2 as [|v r2]; [discriminate|].
  destruct (version v) eqn:V; [|discriminate]. rewrite run_seq_exactly.
  destruct (takeN hex 3 r2) as [[c r3]|] eqn:E3; [|discriminate].
  rewrite run_seq_cls. destruct r3 as [|d3 r3]; [discriminate|].
  destruct (chr "-" d3) eqn:D3; [|discriminate].
  rewrite run_seq_cls. destruct r3 as [|r r3]; [discriminate|].
  destruct (variant r) eqn:R; [|discriminate]. rewrite run_seq_exactly.
  destruct (takeN hex 3 r3) as [[d r4]|] eqn:E4; [|discriminate].
  rewrite run_seq_cls. destruct r4 as [|d4 r4]; [discriminate|].
  destruct (chr "-" d4) eqn:D4; [|discriminate]. rewrite run_seq_exactly.
  destruct (takeN hex 12 r4) as [[e r5]|] eqn:E5; [|discriminate].
  rewrite run_eol. destruct r5; [|discriminate]. intros _.
  apply takeN_spec in E1 as (-> & A1 & L1). apply takeN_spec in E2 as (-> & A2 & L2).
  apply takeN_spec in E3 as (-> & A3 & L3). apply takeN_spec in E4 as (-> & A4 & L4).
  apply takeN_spec in E5 as (-> & A5 & L5).
  apply chr_eq in D1, D2, D3, D4. subst d1 d2 d3 d4.
  exists a, b, v, c, r, d, e. rewrite append_nil_r.
  unfold hexString. repeat split; auto.
Qed.

Lemma shape_uuid uuid : canonical uuid -> isValidUUID uuid = true.
Proof.
  intros (a & b & v & c & r & d & e & -> & Ha & Hb & V & Hc & R & Hd & He).
  unfold isValidUUID, test_start, exec, start, uuidRegex. cbn [seqs].
  rewrite run_seq_exactly, (takeN_exact _ _ _ _ Ha).
  rewrite run_seq_cls.
  change ("-" ++ b ++ "-" ++ String v c ++ "-" ++ String r d ++ "-" ++ e)
    with (String "-" (b ++ String "-" (String v (c ++ String "-"
            (String r (d ++ String "-" e)))))).
  change (chr "-" "-") with true. cbv iota.
  rewrite run_seq_exactly, (takeN_exact _ _ _ _ Hb).
  rewrite run_seq_cls. change (chr "-" "-") with true. cbv iota.
  rewrite run_seq_cls, V.
  rewrite run_seq_exactly, (takeN_exact _ _ _ _ Hc).
  rewrite run_seq_cls. change (chr "-" "-") with true. cbv iota.
  rewrite run_seq_cls, R.
  rewrite run_seq_exactly, (takeN_exact _ _ _ _ Hd).
  rewrite run_seq_cls. change (chr "-" "-") with true. cbv iota.
  rewrite <- (append_nil_r e).
  rewrite run_seq_exactly, (takeN_exact _ _ _ _ He).
  reflexivity.
Qed.

Lemma canonical_length uuid : canonical uuid -> String.length uuid = 36%nat.
Proof.
  intros (a & b & v & c & r & d & e & -> & [_ La] & [_ Lb] & _ & [_ Lc] & _
          & [_ Ld] & [_ Le]).
  change (a ++ "-" ++ b ++ "-" ++ String v c ++ "-" ++ String r d ++ "-" ++ e)
    with (a ++ String "-" (b ++ String "-" (String v (c ++ String "-"
            (String r (d ++ String "-" e)))))).
  rewrite (length_append a). cbn [String.length].
  rewrite (length_append b). cbn [String.length].
  rewrite (length_append c). cbn [String.length].
  rewrite (length_append d). cbn [String.length]. lia.
Qed.

(** X27.  isValidUUID accepts exactly the strings made of groups of 8,
    4, 4, 4 and 12 hexadecimal digits (either letter case) joined by
    '-', whose third group starts with a digit from 1 to 5 and whose
    fourth group starts with 8, 9, a or b; every accepted string has
    36 characters. *)
Theorem isValidUUID_canonical (uuid : string) :
  (isValidUUID uuid = true <-> canonical uuid)
  /\ (isValidUUID uuid = true -> String.length uuid = 36%nat).
Proof.
  split; [split; [apply uuid_shape | apply shape_uuid]|].
  intros H. apply canonical_length. now apply uuid_shape.
Qed.

Lemma forall_filter p s : forall_str p (filter_str p s) = true.
Proof.
  induction s as [|c s IH]; cbn; auto. destruct (p c) eqn:E; cbn; auto. now rewrite E.
Qed.

Lemma filter_all p s : forall_str p s = true -> filter_str p s = s.
Proof.
  induction s as [|c s IH]; cbn; auto. intros H.
  apply andb_true_iff in H as [-> H]. now rewrite IH.
Qed.

Lemma trimEnd_word w :
  forall_str (fun c => negb (is_space c)) w = true ->
  trimEnd (w ++ " >") = w ++ " >".
Proof.
  induction w as [|c w IH]; [reflexivity|]. cbn [append forall_str trimEnd].
  intros H. apply andb_true_iff in H as [Hc Hw]. apply negb_true_iff in Hc.
  now rewrite Hc, (IH Hw).
Qed.

(** X28.  The result of sanitizeInput holds no '<' and no '>'; on an
    input without them it is the trimmed input. The result is not
    always trimmed: for a non-empty word w without white space and
    brackets, w followed by a space and '>' gives w followed by a
    space. *)
Theorem sanitizeInput_strips_brackets (input : string) :
  forall_str notBracket (sanitizeInput input) = true
  /\ (forall_str notBracket input = true -> sanitizeInput input = trim input)
  /\ (forall w, w <> EmptyString -> forall_str wordChar w = true ->
                sanitizeInput (w ++ " >") = w ++ " ").
Proof.
  unfold sanitizeInput. fold notBracket. repeat split.
  - apply forall_filter.
  - intros H. apply filter_all. now apply forall_str_trim.
  - intros w Hne Hw.
    assert (Hs : forall_str (fun c => negb (is_space c)) w = true).
    { revert Hw. apply forall_str_impl. intros c Hc. unfold wordChar in Hc.
      now apply andb_true_iff in Hc as [Hc _]. }
    assert (Hb : forall_str notBracket w = true).
    { revert Hw. apply forall_str_impl. intros c Hc. unfold wordChar in Hc.
      now apply andb_true_iff in Hc as [_ Hc]. }
    unfold trim.
    assert (trimStart (w ++ " >") = w ++ " >") as ->.
    { destruct w as [|c w]; [congruence|]. cbn [append trimStart].
      cbn [forall_str] in Hs. apply andb_true_iff in Hs as [Hc _].
      apply negb_true_iff in Hc. now rewrite Hc. }
    rewrite (trimEnd_word w Hs).
    clear Hne Hw Hs. induction w as [|c w IH]; [reflexivity|].
    cbn [append filter_str forall_str] in *.
    apply andb_true_iff in Hb as [-> Hb]. now rewrite (IH Hb).
Qed.

Lemma fin_truthy q : (0 < q)%Q -> Num.truthy (Num.Fin q) = true.
Proof.
  intros H. unfold Num.truthy. cbn [Num.isNaN Num.is_zero orb].
  apply negb_true_iff. apply not_true_iff_false. intros E.
  apply Qeq_bool_iff in E. rewrite E in H. now apply Qlt_irrefl in H.
Qed.

Lemma leb_zero_fin q : Num.leb (Num.Fin q) (Num.of_Z 0) = true <-> (q <= 0)%Q.
Proof.
  unfold Num.leb, Num.of_Z, Num.of_Q. rewrite Q_leb_le, Qred_correct. reflexivity.
Qed.

Lemma gtb_limit_fin q :
  Num.gtb (Num.Fin q) (Num.dec 99999999 100) = true <-> (limit < q)%Q.
Proof.
  unfold Num.gtb, Num.ltb, Num.dec, Num.of_Q. rewrite Q_ltb_lt, Qred_correct.
  reflexivity.
Qed.

(** X29.  With the other fields valid, the checks that open the
    creation of an expense accept a finite number as amount exactly
    when it is above 0 and at most 999999.99; they also accept as
    amount any non-empty text that is not a number, since both
    comparisons with NaN are false. *)
Theorem expense_amount_gate rt q s description category date :
  otherFieldsValid rt description category date ->
  (validateExpense rt (VNum (Num.Fin q)) (Str description) (Str category) (Str date)
   = None <-> (0 < q <= limit)%Q)
  /\ (truthy_str s = true -> Parse.toNumber s = Num.NaN ->
      validateExpense rt (VStr s) (Str description) (Str category) (Str date)
      = None).
Proof.
  intros (Hd & Hc & Ht & Hv & Hl). unfold validateExpense.
  rewrite Hd, Hc, Ht, Hv. cbn [negb orb].
  assert (Hlen : (255 <? String.length description)%nat = false)
    by (apply Nat.ltb_ge; exact Hl).
  rewrite Hlen. split.
  - cbn [truthy toNumber].
    destruct (Num.leb (Num.Fin q) (Num.of_Z 0)) eqn:E0.
    + rewrite orb_true_r. split; [discriminate|].
      intros [H _]. apply leb_zero_fin in E0. exfalso.
      apply (Qlt_irrefl 0). eapply Qlt_le_trans; eauto.
    + assert (H0 : (0 < q)%Q).
      { apply Qnot_le_lt. intros H. apply leb_zero_fin in H. congruence. }
      rewrite (fin_truthy q H0). cbn [negb orb].
      destruct (Num.gtb (Num.Fin q) (Num.dec 99999999 100)) eqn:E1.
      * split; [discriminate|]. intros [_ H]. apply gtb_limit_fin in E1.
        exfalso. apply (Qlt_irrefl q). eapply Qle_lt_trans; eauto.
      * split; [|reflexivity]. intros _. split; [exact H0|].
        apply Qnot_lt_le. intros H. apply gtb_limit_fin in H. congruence.
  - intros Hs Hn. cbn [truthy toNumber]. rewrite Hs, Hn. reflexivity.
Qed.

Lemma expense_amount_gate_witness :
  (Routes.validateExpense Sample.runtime (VNum (Num.Fin (25 # 2)))
     (Str "Lunch") (Str "Food") (Str "2024-01-15") = None
   <-> (0 < 25 # 2 <= limit)%Q)
  /\ (truthy_str "abc" = true -> Parse.toNumber "abc" = Num.NaN ->
      Routes.validateExpense Sample.runtime (VStr "abc")
        (Str "Lunch") (Str "Food") (Str "2024-01-15") = None).
Proof.
  apply (expense_amount_gate Sample.runtime (25 # 2) "abc" "Lunch" "Food"
           "2024-01-15").
  repeat split; try reflexivity. cbn. lia.
Defined.

End RouteFacts.
